(** * A verification model of [server/db/db.py]

    The file embeds the [DatabaseManager] class of [db.py]: password hashing
    and verification, account creation, role assignment, session creation,
    audit logging, authentication, session clean-up and the table statistics,
    together with the part of SQLite, [hashlib], [json] and [datetime] those
    methods rely on, and the demonstration script at the end of the file.

    Conventions.
    - A Python [str] is a Rocq [string] holding its UTF-8 encoding.
    - [bytes] are lists of integers in [0, 256).
    - A timestamp is the number of microseconds of a wall-clock reading since
      0001-01-01 00:00:00.  SQLite stores the readings as text
      ([YYYY-MM-DD HH:MM:SS] with an optional [.ffffff]); on that format the
      text order SQLite compares with is the order of the readings.
    - What the program draws from its surroundings during one call (clocks and
      random values) is an explicit argument of type [env]; the statements of
      one call read the same clock values.
    - Row ids are taken as unbounded: the store always has room for a row,
      and no I/O error occurs.  A Python [int] a caller passes is any
      integer, and binds to a statement when it fits an SQLite INTEGER. *)

From Stdlib Require Import ZArith NArith List String Ascii Bool Lia.
From Stdlib Require Import DecimalString.
Import ListNotations.
Local Open Scope string_scope.
Local Open Scope list_scope.
Local Open Scope Z_scope.

(* ===================================================================== *)
(** ** Bytes and strings *)

Definition bytes := list Z.

(** [s.encode('utf-8')] *)
Definition encode_utf8 (s : string) : bytes :=
  map (fun c => Z.of_N (N_of_ascii c)) (list_ascii_of_string s).

Definition hex_digit (d : Z) : ascii :=
  if d <? 10 then ascii_of_N (Z.to_N (48 + d)) else ascii_of_N (Z.to_N (87 + d)).

(** [bytes.hex()] *)
Fixpoint hex (b : bytes) : string :=
  match b with
  | [] => EmptyString
  | x :: r => String (hex_digit (x / 16)) (String (hex_digit (x mod 16)) (hex r))
  end.

Definition is_byte (x : Z) : Prop := 0 <= x < 256.

(* ===================================================================== *)
(** ** SHA-256 (FIPS 180-4), the hash under [hashlib.pbkdf2_hmac('sha256', ...)] *)

Module SHA256.

Definition wrap (x : Z) : Z := x mod 2 ^ 32.
Definition add32 (x y : Z) : Z := wrap (x + y).
Definition rotr (n x : Z) : Z := Z.lor (Z.shiftr x n) (wrap (Z.shiftl x (32 - n))).
Definition not32 (x : Z) : Z := Z.lxor x 0xffffffff.

Definition Ch (x y z : Z) : Z := Z.lxor (Z.land x y) (Z.land (not32 x) z).
Definition Maj (x y z : Z) : Z :=
  Z.lxor (Z.lxor (Z.land x y) (Z.land x z)) (Z.land y z).
Definition bsig0 (x : Z) : Z := Z.lxor (Z.lxor (rotr 2 x) (rotr 13 x)) (rotr 22 x).
Definition bsig1 (x : Z) : Z := Z.lxor (Z.lxor (rotr 6 x) (rotr 11 x)) (rotr 25 x).
Definition ssig0 (x : Z) : Z := Z.lxor (Z.lxor (rotr 7 x) (rotr 18 x)) (Z.shiftr x 3).
Definition ssig1 (x : Z) : Z := Z.lxor (Z.lxor (rotr 17 x) (rotr 19 x)) (Z.shiftr x 10).

(** The sixty-four round constants of section 4.2.2 (428a2f98 ... c67178f2
    in hexadecimal). *)
Definition round_constants : list Z :=
  [
    1116352408; 1899447441; 3049323471; 3921009573;
    961987163; 1508970993; 2453635748; 2870763221;
    3624381080; 310598401; 607225278; 1426881987;
    1925078388; 2162078206; 2614888103; 3248222580;
    3835390401; 4022224774; 264347078; 604807628;
    770255983; 1249150122; 1555081692; 1996064986;
    2554220882; 2821834349; 2952996808; 3210313671;
    3336571891; 3584528711; 113926993; 338241895;
    666307205; 773529912; 1294757372; 1396182291;
    1695183700; 1986661051; 2177026350; 2456956037;
    2730485921; 2820302411; 3259730800; 3345764771;
    3516065817; 3600352804; 4094571909; 275423344;
    430227734; 506948616; 659060556; 883997877;
    958139571; 1322822218; 1537002063; 1747873779;
    1955562222; 2024104815; 2227730452; 2361852424;
    2428436474; 2756734187; 3204031479; 3329325298
  ].

Record regs := Regs { ra : Z; rb : Z; rc : Z; rd : Z; re : Z; rf : Z; rg : Z; rh : Z }.

Definition initial_hash : regs :=
  Regs 0x6a09e667 0xbb67ae85 0x3c6ef372 0xa54ff53a
       0x510e527f 0x9b05688c 0x1f83d9ab 0x5be0cd19.

(** Padding: one [0x80] byte, zero bytes up to 56 modulo 64, and the bit
    length of the message as a 64-bit big-endian integer. *)
Fixpoint be_bytes (n : nat) (x : Z) : bytes :=
  match n with
  | O => []
  | S k => (x / 256 ^ Z.of_nat k) mod 256 :: be_bytes k x
  end.

Definition pad (msg : bytes) : bytes :=
  let len := Z.of_nat (List.length msg) in
  msg ++ [0x80] ++ repeat 0 (Z.to_nat ((55 - len) mod 64)) ++ be_bytes 8 (8 * len).

Fixpoint be_words (fuel : nat) (b : bytes) : list Z :=
  match fuel, b with
  | S k, b0 :: b1 :: b2 :: b3 :: r =>
      (((b0 * 256 + b1) * 256 + b2) * 256 + b3) :: be_words k r
  | _, _ => []
  end.

Fixpoint blocks (fuel : nat) (b : bytes) : list (list Z) :=
  match fuel, b with
  | S k, _ :: _ => be_words 16 (firstn 64 b) :: blocks k (skipn 64 b)
  | _, _ => []
  end.

(** Message schedule, most recent word first: the head of [w] is W(t-1). *)
Fixpoint schedule (n : nat) (w : list Z) : list Z :=
  match n with
  | O => w
  | S k =>
      let wt := add32 (add32 (add32 (ssig1 (nth 1 w 0)) (nth 6 w 0))
                             (ssig0 (nth 14 w 0))) (nth 15 w 0) in
      schedule k (wt :: w)
  end.

Definition round (s : regs) (kw : Z * Z) : regs :=
  let (k, w) := kw in
  let t1 := add32 (add32 (add32 (add32 (rh s) (bsig1 (re s))) (Ch (re s) (rf s) (rg s))) k) w in
  let t2 := add32 (bsig0 (ra s)) (Maj (ra s) (rb s) (rc s)) in
  Regs (add32 t1 t2) (ra s) (rb s) (rc s) (add32 (rd s) t1) (re s) (rf s) (rg s).

Definition compress (h : regs) (block : list Z) : regs :=
  let w := rev (schedule 48 (rev block)) in
  let s := fold_left round (combine round_constants w) h in
  Regs (add32 (ra h) (ra s)) (add32 (rb h) (rb s)) (add32 (rc h) (rc s))
       (add32 (rd h) (rd s)) (add32 (re h) (re s)) (add32 (rf h) (rf s))
       (add32 (rg h) (rg s)) (add32 (rh h) (rh s)).

Definition digest_bytes (h : regs) : bytes :=
  flat_map (be_bytes 4) [ra h; rb h; rc h; rd h; re h; rf h; rg h; rh h].

Definition sha256 (msg : bytes) : bytes :=
  let p := pad msg in
  digest_bytes (fold_left compress (blocks (List.length p) p) initial_hash).

End SHA256.

(* ===================================================================== *)
(** ** HMAC (RFC 2104) and PBKDF2 (RFC 8018) *)

Module HMAC.

Definition block_size : nat := 64.

(** The key block: a key longer than a block is hashed first; the result is
    filled with zero bytes up to the block size. *)
Definition key_block (key : bytes) : bytes :=
  let k := if (block_size <? List.length key)%nat then SHA256.sha256 key else key in
  k ++ repeat 0 (block_size - List.length k).

Definition xor_const (c : Z) (b : bytes) : bytes := map (Z.lxor c) b.

Definition of_block (kb msg : bytes) : bytes :=
  SHA256.sha256 (xor_const 0x5c kb ++ SHA256.sha256 (xor_const 0x36 kb ++ msg)).

Definition hmac_sha256 (key msg : bytes) : bytes := of_block (key_block key) msg.

End HMAC.

Module PBKDF2.

Fixpoint xor_bytes (a b : bytes) : bytes :=
  match a, b with
  | x :: a', y :: b' => Z.lxor x y :: xor_bytes a' b'
  | _, _ => []
  end.

(** One step of the iteration: U(i+1) = PRF(P, U(i)), accumulated by xor. *)
Definition step (prf : bytes -> bytes) (st : bytes * bytes) : bytes * bytes :=
  let u := prf (fst st) in (u, xor_bytes (snd st) u).

(** The first (and for a 32-byte key the only) output block:
    U1 = PRF(P, S || INT(1)), T = U1 xor ... xor Uc. *)
Definition first_block (prf : bytes -> bytes) (salt : bytes) (iterations : N) : bytes :=
  let u1 := prf (salt ++ [0; 0; 0; 1]) in
  snd (N.iter (iterations - 1) (step prf) (u1, u1)).

(** [hashlib.pbkdf2_hmac('sha256', password, salt, iterations)]: with no
    [dklen] the derived key has the digest size, a single block. *)
Definition pbkdf2_hmac_sha256 (password salt : bytes) (iterations : N) : bytes :=
  first_block (HMAC.hmac_sha256 password) salt iterations.

End PBKDF2.

(* ===================================================================== *)
(** ** Python values and [json.dumps] *)

(** The values a [Dict[str, Any]] can hold, as far as [json.dumps] tells them
    apart.  [PyObject] stands for any object the encoder has no rule for
    (a [set], [bytes], a [datetime], ...). *)
#[local] Unset Elimination Schemes.
Inductive pyval : Type :=
| PyNone
| PyBool (b : bool)
| PyInt (z : Z)
| PyStr (s : string)
| PyList (l : list pyval)
| PyDict (d : list (string * pyval))
| PyObject (type_name : string).
#[local] Set Elimination Schemes.

Definition pydict := list (string * pyval).

Module Json.

(** Code points of a UTF-8 byte sequence. *)
Fixpoint decode_utf8 (b : bytes) : list Z :=
  match b with
  | [] => []
  | b0 :: r =>
      if b0 <? 0x80 then b0 :: decode_utf8 r
      else if b0 <? 0xE0 then
        match r with
        | b1 :: r1 =>
            Z.lor (Z.shiftl (Z.land b0 0x1F) 6) (Z.land b1 0x3F) :: decode_utf8 r1
        | _ => []
        end
      else if b0 <? 0xF0 then
        match r with
        | b1 :: b2 :: r2 =>
            Z.lor (Z.shiftl (Z.land b0 0x0F) 12)
              (Z.lor (Z.shiftl (Z.land b1 0x3F) 6) (Z.land b2 0x3F)) :: decode_utf8 r2
        | _ => []
        end
      else
        match r with
        | b1 :: b2 :: b3 :: r3 =>
            Z.lor (Z.shiftl (Z.land b0 0x07) 18)
              (Z.lor (Z.shiftl (Z.land b1 0x3F) 12)
                 (Z.lor (Z.shiftl (Z.land b2 0x3F) 6) (Z.land b3 0x3F))) :: decode_utf8 r3
        | _ => []
        end
  end.

Definition chr (c : Z) : string := String (ascii_of_N (Z.to_N c)) EmptyString.

(** [\uXXXX] *)
Definition u_escape (c : Z) : string :=
  ("\u" ++ hex [c / 256; c mod 256])%string.

(** One character of [py_encode_basestring_ascii] ([ensure_ascii=True]). *)
Definition escape_char (c : Z) : string :=
  if c =? 34 then "\" ++ chr 34
  else if c =? 92 then "\\"
  else if c =? 10 then "\n"
  else if c =? 13 then "\r"
  else if c =? 9 then "\t"
  else if c =? 8 then "\b"
  else if c =? 12 then "\f"
  else if (32 <=? c) && (c <=? 126) then chr c
  else if c <? 0x10000 then u_escape c
  else
    let n := c - 0x10000 in
    (u_escape (Z.lor 0xD800 (Z.land (Z.shiftr n 10) 0x3FF))
     ++ u_escape (Z.lor 0xDC00 (Z.land n 0x3FF)))%string.

Definition encode_string (s : string) : string :=
  (chr 34 ++ String.concat "" (map escape_char (decode_utf8 (encode_utf8 s))) ++ chr 34)%string.

Definition encode_int (z : Z) : string := NilZero.string_of_int (Z.to_int z).

(** [json.dumps(v)] with the default options; [None] is the [TypeError]
    raised for an object that is not JSON serializable. *)
Fixpoint dumps (v : pyval) : option string :=
  match v with
  | PyNone => Some "null"
  | PyBool true => Some "true"
  | PyBool false => Some "false"
  | PyInt z => Some (encode_int z)
  | PyStr s => Some (encode_string s)
  | PyList l =>
      let fix items (l : list pyval) : option (list string) :=
        match l with
        | [] => Some []
        | x :: r =>
            match dumps x, items r with
            | Some sx, Some sr => Some (sx :: sr)
            | _, _ => None
            end
        end in
      match items l with
      | Some ss => Some ("[" ++ String.concat ", " ss ++ "]")%string
      | None => None
      end
  | PyDict d =>
      let fix items (d : list (string * pyval)) : option (list string) :=
        match d with
        | [] => Some []
        | (k, x) :: r =>
            match dumps x, items r with
            | Some sx, Some sr => Some ((encode_string k ++ ": " ++ sx)%string :: sr)
            | _, _ => None
            end
        end in
      match items d with
      | Some ss => Some ("{" ++ String.concat ", " ss ++ "}")%string
      | None => None
      end
  | PyObject _ => None
  end.

End Json.

(* ===================================================================== *)
(** ** The persisted schema ([create_tables]) *)

Definition timestamp := Z.

(** Table [users]. *)
Module Users.
Record row := Row {
  id : Z;                          (* INTEGER PRIMARY KEY AUTOINCREMENT *)
  username : string;               (* UNIQUE NOT NULL *)
  email : string;                  (* UNIQUE NOT NULL *)
  email_verified : bool;           (* DEFAULT 0 *)
  password_hash : string;          (* NOT NULL *)
  salt : option string;
  first_name : option string;
  last_name : option string;
  avatar_url : option string;
  bio : option string;
  is_active : bool;                (* DEFAULT 1 *)
  is_deleted : bool;               (* DEFAULT 0 *)
  current_results : option Z;
  last_login_at : option timestamp;
  created_at : timestamp;          (* DEFAULT CURRENT_TIMESTAMP *)
  updated_at : timestamp           (* DEFAULT CURRENT_TIMESTAMP *)
}.

Definition set_last_login_at (t : timestamp) (u : row) : row :=
  Row (id u) (username u) (email u) (email_verified u) (password_hash u) (salt u)
      (first_name u) (last_name u) (avatar_url u) (bio u) (is_active u) (is_deleted u)
      (current_results u) (Some t) (created_at u) (updated_at u).
End Users.

(** Table [user_sessions]. *)
Module Sessions.
Record row := Row {
  id : string;                     (* PRIMARY KEY *)
  user_id : Z;                     (* NOT NULL, REFERENCES users(id) *)
  device_info : option string;
  ip_address : option string;
  is_active : bool;                (* DEFAULT 1 *)
  expires_at : timestamp;          (* NOT NULL *)
  created_at : timestamp;          (* DEFAULT CURRENT_TIMESTAMP *)
  last_accessed_at : timestamp     (* DEFAULT CURRENT_TIMESTAMP *)
}.
End Sessions.

(** Table [roles]. *)
Module Roles.
Record row := Row {
  id : Z;                          (* INTEGER PRIMARY KEY AUTOINCREMENT *)
  name : string;                   (* UNIQUE NOT NULL *)
  description : option string;
  is_active : bool;                (* DEFAULT 1 *)
  created_at : timestamp
}.
End Roles.

(** Table [permissions]. *)
Module Permissions.
Record row := Row {
  id : Z;                          (* INTEGER PRIMARY KEY AUTOINCREMENT *)
  name : string;                   (* UNIQUE NOT NULL *)
  description : option string;
  resource : option string;
  action : option string;
  created_at : timestamp
}.
End Permissions.

(** Table [user_roles], PRIMARY KEY (user_id, role_id). *)
Module UserRoles.
Record row := Row {
  user_id : Z;                     (* REFERENCES users(id) *)
  role_id : Z;                     (* REFERENCES roles(id) *)
  assigned_by : Z;                 (* REFERENCES users(id) *)
  assigned_at : timestamp;         (* DEFAULT CURRENT_TIMESTAMP *)
  expires_at : option timestamp
}.

Definition has_key (u r : Z) (x : row) : bool := (user_id x =? u) && (role_id x =? r).
End UserRoles.

(** Table [user_security_logs]. *)
Module Logs.
Record row := Row {
  id : Z;                          (* INTEGER PRIMARY KEY AUTOINCREMENT *)
  user_id : option Z;              (* REFERENCES users(id) *)
  event_type : string;             (* NOT NULL *)
  ip_address : option string;
  user_agent : option string;
  success : bool;                  (* DEFAULT 1 *)
  failure_reason : option string;
  metadata : option string;
  created_at : timestamp
}.
End Logs.

(** The store: the tables the methods below read or write, each with the
    rows in rowid order, and for an AUTOINCREMENT table the largest rowid it
    ever held (its [sqlite_sequence] entry). *)
Record database := Database {
  users : list Users.row;
  users_seq : Z;
  user_sessions : list Sessions.row;
  roles : list Roles.row;
  roles_seq : Z;
  permissions : list Permissions.row;
  permissions_seq : Z;
  user_roles : list UserRoles.row;
  user_security_logs : list Logs.row;
  user_security_logs_seq : Z
}.

Definition empty_database : database := Database [] 0 [] [] 0 [] 0 [] [] 0.

Definition set_users (us : list Users.row) (seq : Z) (db : database) : database :=
  Database us seq (user_sessions db) (roles db) (roles_seq db)
           (permissions db) (permissions_seq db) (user_roles db)
           (user_security_logs db) (user_security_logs_seq db).

Definition set_user_sessions (ss : list Sessions.row) (db : database) : database :=
  Database (users db) (users_seq db) ss (roles db) (roles_seq db)
           (permissions db) (permissions_seq db) (user_roles db)
           (user_security_logs db) (user_security_logs_seq db).

Definition set_roles (rs : list Roles.row) (seq : Z) (db : database) : database :=
  Database (users db) (users_seq db) (user_sessions db) rs seq
           (permissions db) (permissions_seq db) (user_roles db)
           (user_security_logs db) (user_security_logs_seq db).

Definition set_permissions (ps : list Permissions.row) (seq : Z) (db : database) : database :=
  Database (users db) (users_seq db) (user_sessions db) (roles db) (roles_seq db)
           ps seq (user_roles db)
           (user_security_logs db) (user_security_logs_seq db).

Definition set_user_roles (urs : list UserRoles.row) (db : database) : database :=
  Database (users db) (users_seq db) (user_sessions db) (roles db) (roles_seq db)
           (permissions db) (permissions_seq db) urs
           (user_security_logs db) (user_security_logs_seq db).

Definition set_user_security_logs (ls : list Logs.row) (seq : Z) (db : database) : database :=
  Database (users db) (users_seq db) (user_sessions db) (roles db) (roles_seq db)
           (permissions db) (permissions_seq db) (user_roles db) ls seq.

(** What one call reads from outside the store. *)
Record env := Env {
  datetime_now : timestamp;        (* datetime.now(): local wall clock, microseconds *)
  CURRENT_TIMESTAMP : timestamp;   (* SQLite's clock: UTC, whole seconds *)
  token_hex_32 : string;           (* secrets.token_hex(32) *)
  uuid4 : string                   (* str(uuid.uuid4()) *)
}.

(* ===================================================================== *)
(** ** SQL statements *)

Inductive exn : Type :=
| IntegrityError      (* sqlite3.IntegrityError, a sqlite3.Error *)
| TypeError
| OverflowError.      (* the builtin one: no sqlite3.Error *)

Definition is_sqlite3_Error (e : exn) : bool :=
  match e with IntegrityError => true | _ => false end.

Definition is_sqlite3_IntegrityError (e : exn) : bool :=
  match e with IntegrityError => true | _ => false end.

(** The rowid an AUTOINCREMENT table gives its next row: one more than the
    largest rowid the table holds or ever held. *)
Definition next_rowid (seq : Z) (ids : list Z) : Z :=
  fold_right Z.max seq ids + 1.

Definition user_exists (db : database) (uid : Z) : bool :=
  existsb (fun u => Users.id u =? uid) (users db).

Definition role_exists (db : database) (rid : Z) : bool :=
  existsb (fun r => Roles.id r =? rid) (roles db).

(** The statements the methods send through [execute_query], with their
    bound parameters. *)
Inductive sql : Type :=
| INSERT_OR_IGNORE_INTO_roles (name description : string)
| INSERT_OR_IGNORE_INTO_permissions (name description resource action : string)
| INSERT_INTO_users (username email password_hash salt : string)
                    (first_name last_name : option string)
| SELECT_id_FROM_roles_WHERE_name (name : string)
| INSERT_OR_REPLACE_INTO_user_roles (user_id role_id assigned_by : Z)
| INSERT_INTO_user_sessions (id : string) (user_id : Z)
                            (device_info ip_address : option string)
                            (expires_at : timestamp)
| UPDATE_users_SET_last_login_at (id : Z)
| INSERT_INTO_user_security_logs (user_id : option Z) (event_type : string)
                                 (ip_address user_agent : option string)
                                 (success : bool)
                                 (failure_reason metadata : option string)
| SELECT_FROM_users_WHERE_email (email : string)
| DELETE_FROM_user_sessions_WHERE_expired.

(** What a cursor offers after a statement. *)
Record cursor := Cursor {
  lastrowid : Z;
  rowcount : Z;
  fetched_users : list Users.row;
  fetched_ids : list Z
}.

Definition no_rows (last count : Z) : cursor := Cursor last count [] [].

Definition fetchone {A : Type} (rows : list A) : option A := hd_error rows.

Definition expired (now : timestamp) (s : Sessions.row) : bool :=
  Sessions.expires_at s <? now.

(** The 64 bits of an SQLite INTEGER. *)
Definition int64 (n : Z) : bool := (- 2 ^ 63 <=? n) && (n <? 2 ^ 63).

(** Binding a Python [int] to a parameter that names a user or a role:
    [sqlite3] raises [OverflowError] for an [int] outside the 64 bits of an
    INTEGER.  In SQLite every row id fits 64 bits, so the id of a row always
    binds; the row ids of the model are not bounded (AUTOINCREMENT never runs
    out here), and an id the table holds binds all the same. *)
Definition binds_user_id (db : database) (n : Z) : bool := int64 n || user_exists db n.

Definition binds_role_id (db : database) (n : Z) : bool := int64 n || role_exists db n.

(** [cursor.execute(query, params)] binds every parameter before the
    statement runs; strings and None always bind. *)
Definition parameters_bind (db : database) (q : sql) : bool :=
  match q with
  | INSERT_OR_REPLACE_INTO_user_roles user_id role_id assigned_by =>
      binds_user_id db user_id && binds_role_id db role_id && binds_user_id db assigned_by
  | INSERT_INTO_user_sessions _ user_id _ _ _ => binds_user_id db user_id
  | UPDATE_users_SET_last_login_at id => binds_user_id db id
  | INSERT_INTO_user_security_logs (Some user_id) _ _ _ _ _ _ => binds_user_id db user_id
  | _ => true
  end.

(** One statement, its parameters bound, on the store: the new store and the
    cursor, or the error SQLite reports, in which case nothing is written.
    An [INSERT OR IGNORE] that is ignored still takes a rowid from the
    AUTOINCREMENT sequence of its table. *)
Definition run_sql (e : env) (q : sql) (db : database) : exn + cursor * database :=
  let now := CURRENT_TIMESTAMP e in
  match q with
  | INSERT_OR_IGNORE_INTO_roles name description =>
      let i := next_rowid (roles_seq db) (map Roles.id (roles db)) in
      if existsb (fun r => String.eqb (Roles.name r) name) (roles db)
      then inr (no_rows 0 0, set_roles (roles db) i db)
      else
        inr (no_rows i 1,
             set_roles (roles db ++ [Roles.Row i name (Some description) true now]) i db)
  | INSERT_OR_IGNORE_INTO_permissions name description resource action =>
      let i := next_rowid (permissions_seq db) (map Permissions.id (permissions db)) in
      if existsb (fun p => String.eqb (Permissions.name p) name) (permissions db)
      then inr (no_rows 0 0, set_permissions (permissions db) i db)
      else
        inr (no_rows i 1,
             set_permissions
               (permissions db
                ++ [Permissions.Row i name (Some description) (Some resource) (Some action) now])
               i db)
  | INSERT_INTO_users username email password_hash salt first_name last_name =>
      if existsb (fun u => String.eqb (Users.username u) username) (users db)
         || existsb (fun u => String.eqb (Users.email u) email) (users db)
      then inl IntegrityError
      else
        let i := next_rowid (users_seq db) (map Users.id (users db)) in
        inr (no_rows i 1,
             set_users
               (users db
                ++ [Users.Row i username email false password_hash (Some salt)
                      first_name last_name None None true false None None now now])
               i db)
  | SELECT_id_FROM_roles_WHERE_name name =>
      inr (Cursor 0 (-1) []
             (map Roles.id (filter (fun r => String.eqb (Roles.name r) name) (roles db))),
           db)
  | INSERT_OR_REPLACE_INTO_user_roles user_id role_id assigned_by =>
      if user_exists db user_id && role_exists db role_id && user_exists db assigned_by
      then
        let kept := filter (fun x => negb (UserRoles.has_key user_id role_id x))
                           (user_roles db) in
        inr (no_rows 0 1,
             set_user_roles
               (kept ++ [UserRoles.Row user_id role_id assigned_by now None]) db)
      else inl IntegrityError
  | INSERT_INTO_user_sessions id user_id device_info ip_address expires_at =>
      if existsb (fun s => String.eqb (Sessions.id s) id) (user_sessions db)
      then inl IntegrityError
      else if user_exists db user_id
      then
        inr (no_rows 0 1,
             set_user_sessions
               (user_sessions db
                ++ [Sessions.Row id user_id device_info ip_address true expires_at now now])
               db)
      else inl IntegrityError
  | UPDATE_users_SET_last_login_at id =>
      inr (no_rows 0 (Z.of_nat (List.length
                                  (filter (fun u => Users.id u =? id) (users db)))),
           set_users
             (map (fun u => if Users.id u =? id then Users.set_last_login_at now u else u)
                  (users db))
             (users_seq db) db)
  | INSERT_INTO_user_security_logs user_id event_type ip_address user_agent
                                   success failure_reason metadata =>
      if match user_id with Some u => user_exists db u | None => true end
      then
        let i := next_rowid (user_security_logs_seq db)
                            (map Logs.id (user_security_logs db)) in
        inr (no_rows i 1,
             set_user_security_logs
               (user_security_logs db
                ++ [Logs.Row i user_id event_type ip_address user_agent
                      success failure_reason metadata now])
               i db)
      else inl IntegrityError
  | SELECT_FROM_users_WHERE_email email =>
      inr (Cursor 0 (-1)
             (filter (fun u => String.eqb (Users.email u) email
                               && Users.is_active u && negb (Users.is_deleted u))
                     (users db))
             [],
           db)
  | DELETE_FROM_user_sessions_WHERE_expired =>
      inr (no_rows 0 (Z.of_nat (List.length (filter (expired now) (user_sessions db)))),
           set_user_sessions
             (filter (fun s => negb (expired now s)) (user_sessions db)) db)
  end.

(* ===================================================================== *)
(** ** Methods of [DatabaseManager] *)

(** A method either returns or raises, and leaves a store behind in both
    cases. *)
Inductive outcome (A : Type) : Type :=
| Return (a : A)
| Raise (e : exn).
Arguments Return {A} a.
Arguments Raise {A} e.

Definition M (A : Type) : Type := database -> outcome A * database.

Definition ret {A : Type} (a : A) : M A := fun db => (Return a, db).

Definition raise {A : Type} (e : exn) : M A := fun db => (Raise e, db).

Definition bind {A B : Type} (m : M A) (k : A -> M B) : M B :=
  fun db =>
    match m db with
    | (Return a, db') => k a db'
    | (Raise e, db') => (Raise e, db')
    end.

(** [try: body except <errors accepted by handles>: handler] *)
Definition try_except {A : Type} (body : M A) (handles : exn -> bool) (handler : M A) : M A :=
  fun db =>
    match body db with
    | (Raise e, db') => if handles e then handler db' else (Raise e, db')
    | r => r
    end.

Declare Scope method_scope.
Delimit Scope method_scope with method.
Notation "x <- m ;; k" := (bind m (fun x => k))
  (at level 61, m at next level, right associativity) : method_scope.
Notation "m ;; k" := (bind m (fun _ => k))
  (at level 61, right associativity) : method_scope.
Local Open Scope method_scope.

(** [execute_query]: run the statement and commit; on [sqlite3.Error] roll
    back and raise again.  The [OverflowError] of a parameter that does not
    bind is no [sqlite3.Error]: it leaves the method as it is, before the
    statement ran. *)
Definition execute_query (e : env) (q : sql) : M cursor :=
  fun db =>
    if parameters_bind db q
    then
      match run_sql e q db with
      | inr (c, db') => (Return c, db')
      | inl err => (Raise err, db)
      end
    else (Raise OverflowError, db).

Definition default_roles : list (string * string) :=
  [ ("admin", "Full system administrator");
    ("moderator", "Content moderation privileges");
    ("user", "Standard user privileges");
    ("premium_user", "Premium user with extended features") ].

Definition default_permissions : list (string * string * string * string) :=
  [ ("create_posts", "Create new posts", "posts", "create");
    ("edit_posts", "Edit posts", "posts", "update");
    ("delete_posts", "Delete posts", "posts", "delete");
    ("view_posts", "View posts", "posts", "read");
    ("manage_users", "Manage user accounts", "users", "manage");
    ("view_profiles", "View user profiles", "users", "read");
    ("take_personality_test", "Take personality assessments", "results", "create");
    ("view_results", "View personality results", "results", "read") ].

Fixpoint for_each {A : Type} (l : list A) (body : A -> M unit) : M unit :=
  match l with
  | [] => ret tt
  | x :: r => body x ;; for_each r body
  end.

Definition create_default_roles_and_permissions (e : env) : M unit :=
  for_each default_roles (fun '(role_name, description) =>
    try_except
      (execute_query e (INSERT_OR_IGNORE_INTO_roles role_name description) ;; ret tt)
      is_sqlite3_Error
      (ret tt)) ;;
  for_each default_permissions (fun '(perm_name, description, resource, action) =>
    try_except
      (execute_query e
         (INSERT_OR_IGNORE_INTO_permissions perm_name description resource action) ;;
       ret tt)
      is_sqlite3_Error
      (ret tt)).

(** [__init__]: [create_tables] only declares the schema above (every
    statement of it is [IF NOT EXISTS]); the default rows follow. *)
Definition init (e : env) : M unit := create_default_roles_and_permissions e.

Definition iterations : N := 100000.

Definition hash_password (e : env) (password : string) (salt : option string)
  : string * string :=
  let salt := match salt with None => token_hex_32 e | Some s => s end in
  let password_hash :=
    PBKDF2.pbkdf2_hmac_sha256 (encode_utf8 password) (encode_utf8 salt) iterations in
  (hex password_hash, salt).

Definition verify_password (e : env) (password stored_hash : string) (salt : option string)
  : bool :=
  let '(password_hash, _) := hash_password e password salt in
  String.eqb password_hash stored_hash.

Definition log_security_event (e : env) (user_id : option Z) (event_type : string)
    (ip_address user_agent : option string) (success : bool)
    (failure_reason : option string) (metadata : option pydict) : M unit :=
  metadata_json <-
    match metadata with
    | Some ((_ :: _) as d) =>
        match Json.dumps (PyDict d) with
        | Some s => ret (Some s)
        | None => raise TypeError
        end
    | _ => ret None
    end ;;
  execute_query e
    (INSERT_INTO_user_security_logs user_id event_type ip_address user_agent
       success failure_reason metadata_json) ;;
  ret tt.

Definition assign_role_to_user (e : env) (user_id : Z) (role_name : string)
    (assigned_by : Z) : M bool :=
  try_except
    (cursor <- execute_query e (SELECT_id_FROM_roles_WHERE_name role_name) ;;
     match fetchone (fetched_ids cursor) with
     | None => ret false
     | Some role_id =>
         execute_query e (INSERT_OR_REPLACE_INTO_user_roles user_id role_id assigned_by) ;;
         ret true
     end)
    is_sqlite3_Error
    (ret false).

Definition create_user (e : env) (username email password : string)
    (first_name last_name : option string) : M (option Z) :=
  try_except
    (let '(password_hash, salt) := hash_password e password None in
     cursor <- execute_query e
       (INSERT_INTO_users username email password_hash salt first_name last_name) ;;
     let user_id := lastrowid cursor in
     assign_role_to_user e user_id "user" user_id ;;
     log_security_event e (Some user_id) "user_created" None None true None None ;;
     ret (Some user_id))
    is_sqlite3_IntegrityError
    (ret None).

(** [timedelta(hours=h)] in microseconds. *)
Definition timedelta_hours (h : Z) : Z := h * 3600 * 1000000.

(** [datetime.max] is 9999-12-31 23:59:59.999999. *)
Definition datetime_end : Z := 3652059 * 86400 * 1000000.

(** [d + delta] on a [datetime]; [None] is the [OverflowError] for a result
    outside years 1 to 9999. *)
Definition datetime_add (d delta : Z) : option timestamp :=
  let r := d + delta in
  if (0 <=? r) && (r <? datetime_end) then Some r else None.

Definition default_duration_hours : Z := 24.

Definition create_session (e : env) (user_id : Z) (device_info ip_address : option string)
    (duration_hours : Z) : M string :=
  let session_id := uuid4 e in
  match datetime_add (datetime_now e) (timedelta_hours duration_hours) with
  | None => raise OverflowError
  | Some expires_at =>
      execute_query e
        (INSERT_INTO_user_sessions session_id user_id device_info ip_address expires_at) ;;
      execute_query e (UPDATE_users_SET_last_login_at user_id) ;;
      log_security_event e (Some user_id) "login" ip_address None true None None ;;
      ret session_id
  end.

Definition get_user_by_email (e : env) (email : string) : M (option Users.row) :=
  cursor <- execute_query e (SELECT_FROM_users_WHERE_email email) ;;
  ret (fetchone (fetched_users cursor)).

Definition authenticate_user (e : env) (email password : string) : M (option Users.row) :=
  user <- get_user_by_email e email ;;
  match user with
  | None =>
      log_security_event e None "login_failed" None None true
        (Some "User not found") None ;;
      ret None
  | Some u =>
      if verify_password e password (Users.password_hash u) (Users.salt u)
      then ret (Some u)
      else
        log_security_event e (Some (Users.id u)) "login_failed" None None true
          (Some "Invalid password") None ;;
        ret None
  end.

Definition cleanup_expired_sessions (e : env) : M Z :=
  cursor <- execute_query e DELETE_FROM_user_sessions_WHERE_expired ;;
  ret (rowcount cursor).

(* ===================================================================== *)
(** ** Constraints of the schema and the states the methods reach *)

Definition user_role_key (x : UserRoles.row) : Z * Z :=
  (UserRoles.user_id x, UserRoles.role_id x).

Definition log_user_ok (db : database) (l : Logs.row) : Prop :=
  match Logs.user_id l with
  | Some u => user_exists db u = true
  | None => True
  end.

Definition user_role_refs_ok (db : database) (x : UserRoles.row) : Prop :=
  user_exists db (UserRoles.user_id x) = true
  /\ role_exists db (UserRoles.role_id x) = true
  /\ user_exists db (UserRoles.assigned_by x) = true.

(** The PRIMARY KEY, UNIQUE and FOREIGN KEY constraints [create_tables]
    declares on the tables of the model. *)
Record schema_ok (db : database) : Prop := SchemaOk {
  users_id_unique : NoDup (map Users.id (users db));
  users_username_unique : NoDup (map Users.username (users db));
  users_email_unique : NoDup (map Users.email (users db));
  roles_id_unique : NoDup (map Roles.id (roles db));
  roles_name_unique : NoDup (map Roles.name (roles db));
  permissions_id_unique : NoDup (map Permissions.id (permissions db));
  permissions_name_unique : NoDup (map Permissions.name (permissions db));
  user_sessions_id_unique : NoDup (map Sessions.id (user_sessions db));
  user_roles_key_unique : NoDup (map user_role_key (user_roles db));
  logs_id_unique : NoDup (map Logs.id (user_security_logs db));
  user_sessions_refs :
    Forall (fun s => user_exists db (Sessions.user_id s) = true) (user_sessions db);
  user_roles_refs : Forall (user_role_refs_ok db) (user_roles db);
  logs_refs : Forall (log_user_ok db) (user_security_logs db)
}.

Definition has_role (db : database) (name : string) : Prop :=
  exists r, In r (roles db) /\ Roles.name r = name.

(** What holds of the store of every [DatabaseManager]: the constraints of
    the schema, and the default roles its constructor inserts. *)
Definition invariant (db : database) : Prop :=
  schema_ok db /\ forall n, In n (map fst default_roles) -> has_role db n.

(** The stores a [DatabaseManager] can hold: a new or an existing file is
    opened by the constructor, and the methods of the class are called on
    it (statements a caller sends through [execute_query] on its own are not
    part of it). *)
Inductive reachable : database -> Prop :=
| reach_new e :
    reachable (snd (init e empty_database))
| reach_open e db :
    reachable db -> reachable (snd (init e db))
| reach_create_user e username email password first_name last_name db :
    reachable db ->
    reachable (snd (create_user e username email password first_name last_name db))
| reach_assign_role_to_user e user_id role_name assigned_by db :
    reachable db ->
    reachable (snd (assign_role_to_user e user_id role_name assigned_by db))
| reach_create_session e user_id device_info ip_address duration_hours db :
    reachable db ->
    reachable (snd (create_session e user_id device_info ip_address duration_hours db))
| reach_log_security_event e user_id event_type ip_address user_agent success
                           failure_reason metadata db :
    reachable db ->
    reachable (snd (log_security_event e user_id event_type ip_address user_agent
                      success failure_reason metadata db))
| reach_authenticate_user e email password db :
    reachable db ->
    reachable (snd (authenticate_user e email password db))
| reach_cleanup_expired_sessions e db :
    reachable db ->
    reachable (snd (cleanup_expired_sessions e db)).

(** [m] keeps [P]: whatever it returns or raises, the store it leaves
    satisfies [P] when the store it started from does. *)
Definition keeps {A : Type} (P : database -> Prop) (m : M A) : Prop :=
  forall db, P db -> P (snd (m db)).

(** The log row [log_security_event] writes. *)
Definition log_row (e : env) (db : database) (user_id : option Z) (event_type : string)
    (ip_address user_agent : option string) (success : bool)
    (failure_reason metadata : option string) : Logs.row :=
  Logs.Row (next_rowid (user_security_logs_seq db) (map Logs.id (user_security_logs db)))
           user_id event_type ip_address user_agent success failure_reason metadata
           (CURRENT_TIMESTAMP e).

(** The inverse of [hex_digit] on the sixteen digits. *)
Definition unhex_digit (c : ascii) : Z :=
  let n := Z.of_N (N_of_ascii c) in
  if n <? 58 then n - 48 else n - 87.

(** The value bound to the [metadata] column: [json.dumps(metadata) if
    metadata else None]; the outer [None] is the [TypeError] of [json.dumps]. *)
Definition metadata_column (metadata : option pydict) : option (option string) :=
  match metadata with
  | Some (x :: r) =>
      match Json.dumps (PyDict (x :: r)) with
      | Some s => Some (Some s)
      | None => None
      end
  | _ => Some None
  end.

(** A [user_id] parameter that passes the foreign key to [users]: NULL, or
    the id of a row of [users]. *)
Definition user_ref_ok (db : database) (user_id : option Z) : bool :=
  match user_id with
  | Some u => user_exists db u
  | None => true
  end.

(** What a statement naming [user_id] raises when that is the id of no user:
    an [int] outside 64 bits does not bind, any other fails the foreign key. *)
Definition unknown_user_error (user_id : Z) : exn :=
  if int64 user_id then IntegrityError else OverflowError.

Definition user_ref_error (user_id : option Z) : exn :=
  match user_id with
  | Some u => unknown_user_error u
  | None => IntegrityError
  end.

(** The store after one more row in [user_security_logs]. *)
Definition with_log (db : database) (l : Logs.row) : database :=
  set_user_security_logs (user_security_logs db ++ [l]) (Logs.id l) db.

(** The id [SELECT id FROM roles WHERE name = ?] yields first, if any. *)
Definition role_id_of (db : database) (name : string) : option Z :=
  fetchone (map Roles.id (filter (fun r => String.eqb (Roles.name r) name) (roles db))).

(** The row [create_user] inserts into [users]. *)
Definition user_row (e : env) (db : database) (username email password : string)
    (first_name last_name : option string) : Users.row :=
  Users.Row (next_rowid (users_seq db) (map Users.id (users db)))
            username email false
            (fst (hash_password e password None))
            (Some (snd (hash_password e password None)))
            first_name last_name None None true false None None
            (CURRENT_TIMESTAMP e) (CURRENT_TIMESTAMP e).

Definition with_user (db : database) (u : Users.row) : database :=
  set_users (users db ++ [u]) (Users.id u) db.

(** The row [assign_role_to_user] writes into [user_roles]. *)
Definition user_role_row (e : env) (user_id role_id assigned_by : Z) : UserRoles.row :=
  UserRoles.Row user_id role_id assigned_by (CURRENT_TIMESTAMP e) None.

(** [INSERT OR REPLACE]: the rows with the same key go, the new row comes
    last. *)
Definition with_user_role (db : database) (x : UserRoles.row) : database :=
  set_user_roles
    (filter (fun y => negb (UserRoles.has_key (UserRoles.user_id x) (UserRoles.role_id x) y))
            (user_roles db) ++ [x])
    db.

(** The row [create_session] inserts into [user_sessions]. *)
Definition session_row (e : env) (user_id : Z) (device_info ip_address : option string)
    (expires_at : timestamp) : Sessions.row :=
  Sessions.Row (uuid4 e) user_id device_info ip_address true expires_at
               (CURRENT_TIMESTAMP e) (CURRENT_TIMESTAMP e).

Definition with_session (db : database) (s : Sessions.row) : database :=
  set_user_sessions (user_sessions db ++ [s]) db.

Definition with_last_login (e : env) (db : database) (user_id : Z) : database :=
  set_users
    (map (fun u => if Users.id u =? user_id
                   then Users.set_last_login_at (CURRENT_TIMESTAMP e) u else u)
         (users db))
    (users_seq db) db.

Definition username_taken (db : database) (username : string) : bool :=
  existsb (fun u => String.eqb (Users.username u) username) (users db).

Definition email_taken (db : database) (email : string) : bool :=
  existsb (fun u => String.eqb (Users.email u) email) (users db).

Definition session_id_taken (db : database) (id : string) : bool :=
  existsb (fun s => String.eqb (Sessions.id s) id) (user_sessions db).

(** The WHERE clause of [get_user_by_email]. *)
Definition active_with_email (email : string) (u : Users.row) : bool :=
  String.eqb (Users.email u) email && Users.is_active u && negb (Users.is_deleted u).

(** The row [get_user_by_email] returns. *)
Definition find_active_user (db : database) (email : string) : option Users.row :=
  fetchone (filter (active_with_email email) (users db)).

Definition has_permission (db : database) (name : string) : Prop :=
  exists p, In p (permissions db) /\ Permissions.name p = name.

(** A row of [users] with its [last_login_at] column blanked: the columns no
    method writes after the insert. *)
Definition account_columns (u : Users.row) : Users.row :=
  Users.Row (Users.id u) (Users.username u) (Users.email u) (Users.email_verified u)
            (Users.password_hash u) (Users.salt u) (Users.first_name u)
            (Users.last_name u) (Users.avatar_url u) (Users.bio u) (Users.is_active u)
            (Users.is_deleted u) (Users.current_results u) None
            (Users.created_at u) (Users.updated_at u).

(** [evolves db db']: calls of the constructor and of the methods of the class
    take the store [db] to the store [db']. *)
Inductive evolves (db : database) : database -> Prop :=
| evolves_refl :
    evolves db db
| evolves_init e db1 :
    evolves db db1 -> evolves db (snd (init e db1))
| evolves_create_user e username email password first_name last_name db1 :
    evolves db db1 ->
    evolves db (snd (create_user e username email password first_name last_name db1))
| evolves_assign_role_to_user e user_id role_name assigned_by db1 :
    evolves db db1 ->
    evolves db (snd (assign_role_to_user e user_id role_name assigned_by db1))
| evolves_create_session e user_id device_info ip_address duration_hours db1 :
    evolves db db1 ->
    evolves db (snd (create_session e user_id device_info ip_address duration_hours db1))
| evolves_log_security_event e user_id event_type ip_address user_agent success
                             failure_reason metadata db1 :
    evolves db db1 ->
    evolves db (snd (log_security_event e user_id event_type ip_address user_agent
                       success failure_reason metadata db1))
| evolves_authenticate_user e email password db1 :
    evolves db db1 ->
    evolves db (snd (authenticate_user e email password db1))
| evolves_cleanup_expired_sessions e db1 :
    evolves db db1 ->
    evolves db (snd (cleanup_expired_sessions e db1)).

(** The sixteen digits [bytes.hex()] writes. *)
Definition hex_digits : string := "0123456789abcdef".

(** Two stores that differ in the table [roles] at most, and in the table
    [permissions] at most. *)
Definition only_roles_differ (db db1 : database) : Prop :=
  db1 = set_roles (roles db1) (roles_seq db1) db.

Definition only_permissions_differ (db db1 : database) : Prop :=
  db1 = set_permissions (permissions db1) (permissions_seq db1) db.

(** The names of the default permissions. *)
Definition default_permission_names : list string :=
  map (fun '(perm_name, _, _, _) => perm_name) default_permissions.

(* ===================================================================== *)
(** ** The other tables, [get_database_stats] and the demonstration script *)

(** A REAL column: the 64 bits of an IEEE 754 double. *)
Definition real := Z.

(** Table [friends], PRIMARY KEY (user_id, friend_user_id). *)
Module Friends.
Record row := Row {
  user_id : Z;                     (* NOT NULL, REFERENCES users(id) *)
  friend_user_id : Z;              (* NOT NULL, REFERENCES users(id) *)
  status : option string;          (* DEFAULT 'pending' *)
  requested_by : Z;                (* NOT NULL, REFERENCES users(id) *)
  created_at : timestamp;
  updated_at : timestamp
}.
End Friends.

(** Table [results]. *)
Module Results.
Record row := Row {
  id : Z;                          (* INTEGER PRIMARY KEY AUTOINCREMENT *)
  user_id : Z;                     (* NOT NULL, REFERENCES users(id) *)
  extraversion : option real;
  agreeableness : option real;
  conscientiousness : option real;
  emotional_stability : option real;
  intellect_imagination : option real;
  test_version : option string;
  is_current : bool;               (* DEFAULT 0 *)
  created_at : timestamp
}.
End Results.

(** Table [posts]. *)
Module Posts.
Record row := Row {
  id : Z;                          (* INTEGER PRIMARY KEY AUTOINCREMENT *)
  title : string;                  (* NOT NULL *)
  body : option string;
  user_id : Z;                     (* NOT NULL, REFERENCES users(id) *)
  status : option string;          (* DEFAULT 'draft' *)
  visibility : option string;      (* DEFAULT 'public' *)
  created_at : timestamp;
  updated_at : timestamp
}.
End Posts.

(** The whole file: the tables of [database] and the tables no method but
    [get_database_stats] reads. *)
Record store := Store {
  tables : database;
  friends : list Friends.row;
  results : list Results.row;
  posts : list Posts.row
}.

Definition set_tables (db : database) (s : store) : store :=
  Store db (friends s) (results s) (posts s).

Definition empty_store : store := Store empty_database [] [] [].

(** A method on the whole file. *)
Definition MS (A : Type) : Type := store -> outcome A * store.

Definition on_tables {A : Type} (m : M A) : MS A :=
  fun s => let (r, db) := m (tables s) in (r, set_tables db s).

Definition retS {A : Type} (a : A) : MS A := fun s => (Return a, s).

Definition bindS {A B : Type} (m : MS A) (k : A -> MS B) : MS B :=
  fun s =>
    match m s with
    | (Return a, s') => k a s'
    | (Raise x, s') => (Raise x, s')
    end.

Definition try_exceptS {A : Type} (body : MS A) (handles : exn -> bool) (handler : MS A)
  : MS A :=
  fun s =>
    match body s with
    | (Raise x, s') => if handles x then handler s' else (Raise x, s')
    | r => r
    end.

(** The tables [get_database_stats] counts, in its order. *)
Inductive table : Type :=
| users_table | user_sessions_table | roles_table | permissions_table
| friends_table | results_table | posts_table | user_security_logs_table.

Definition table_name (t : table) : string :=
  match t with
  | users_table => "users"
  | user_sessions_table => "user_sessions"
  | roles_table => "roles"
  | permissions_table => "permissions"
  | friends_table => "friends"
  | results_table => "results"
  | posts_table => "posts"
  | user_security_logs_table => "user_security_logs"
  end.

Definition stats_tables : list table :=
  [ users_table; user_sessions_table; roles_table; permissions_table;
    friends_table; results_table; posts_table; user_security_logs_table ].

(** [SELECT COUNT( * ) as count FROM table], sent through [execute_query]:
    it reads and writes nothing. *)
Definition SELECT_COUNT (t : table) : MS Z :=
  fun s =>
    (Return
       (Z.of_nat
          match t with
          | users_table => List.length (users (tables s))
          | user_sessions_table => List.length (user_sessions (tables s))
          | roles_table => List.length (roles (tables s))
          | permissions_table => List.length (permissions (tables s))
          | friends_table => List.length (friends s)
          | results_table => List.length (results s)
          | posts_table => List.length (posts s)
          | user_security_logs_table => List.length (user_security_logs (tables s))
          end),
     s).

(** A [Dict[str, int]], keys in insertion order. *)
Definition stats_dict := list (string * Z).

(** [d[k] = v] *)
Fixpoint dict_set (d : stats_dict) (k : string) (v : Z) : stats_dict :=
  match d with
  | [] => [(k, v)]
  | (k', v') :: r =>
      if String.eqb k' k then (k, v) :: r else (k', v') :: dict_set r k v
  end.

Fixpoint stats_loop (ts : list table) (stats : stats_dict) : MS stats_dict :=
  match ts with
  | [] => retS stats
  | t :: r =>
      bindS (SELECT_COUNT t) (fun count => stats_loop r (dict_set stats (table_name t) count))
  end.

Definition get_database_stats : MS stats_dict := stats_loop stats_tables [].

(** Truth value of an [Optional[int]]: None and 0 are false. *)
Definition truthy (i : option Z) : bool :=
  match i with
  | Some n => negb (n =? 0)
  | None => false
  end.

(** The demonstration script (what it prints left out).  [clock k] is what
    the k-th call reads from its surroundings.  The constructor runs before
    the [try]; the [except Exception] clause catches whatever the calls
    raise. *)
Definition main (clock : nat -> env) : MS unit :=
  bindS (on_tables (init (clock 0%nat))) (fun _ =>
  try_exceptS
    (bindS (on_tables (create_user (clock 1%nat) "johndoe" "john@example.com"
                         "password123" (Some "John") (Some "Doe"))) (fun user1_id =>
     bindS (on_tables (create_user (clock 2%nat) "janedoe" "jane@example.com"
                         "securepass456" (Some "Jane") (Some "Doe"))) (fun user2_id =>
     bindS
       (match user1_id, user2_id with
        | Some id1, Some id2 =>
            if truthy user1_id && truthy user2_id
            then
              bindS (on_tables (create_session (clock 3%nat) id1 (Some "Chrome/Windows")
                                  (Some "192.168.1.100") default_duration_hours))
                (fun _ =>
              bindS (on_tables (create_session (clock 4%nat) id2 (Some "Safari/macOS")
                                  (Some "192.168.1.101") default_duration_hours))
                (fun _ =>
              bindS (on_tables (authenticate_user (clock 5%nat) "john@example.com"
                                  "password123")) (fun _ =>
              bindS (on_tables (assign_role_to_user (clock 6%nat) id1 "admin" id1))
                (fun _ => retS tt))))
            else retS tt
        | _, _ => retS tt
        end) (fun _ =>
     bindS get_database_stats (fun _ =>
     bindS (on_tables (cleanup_expired_sessions (clock 7%nat))) (fun _ =>
     retS tt))))))
    (fun _ => true)
    (retS tt)).

(** [follows m]: the script [m] takes the tables of the class where calls of
    its constructor and methods take them, and leaves the other tables as
    they are. *)
Definition follows {A : Type} (m : MS A) : Prop :=
  forall s,
    evolves (tables s) (tables (snd (m s)))
    /\ friends (snd (m s)) = friends s
    /\ results (snd (m s)) = results s
    /\ posts (snd (m s)) = posts s.

(* ===================================================================== *)
(** ** Sample inputs *)

(** A call on 2026-11-03 at 10:00:00.5 on a machine whose local time is UTC. *)
Definition env0 : env :=
  Env 63929296800500000 63929296800000000
      "790800ced049df435cde5c2de2d627166207cefddc11217a5733b3024782e1d1"
      "3ededd9b-78e8-4360-a802-2af556ee0fe7".

(** The same instant read on a machine two hours west of UTC. *)
Definition env_west : env :=
  Env 63929289600500000 63929296800000000
      "790800ced049df435cde5c2de2d627166207cefddc11217a5733b3024782e1d1"
      "3ededd9b-78e8-4360-a802-2af556ee0fe7".

(** A clock with no fraction of a second, local time UTC, one hour later. *)
Definition env1 : env :=
  Env 63929300400000000 63929300400000000
      "c1a54ff53a510e527f9b05688c1f83d9ab5be0cd196a09e667bb67ae853c6ef3"
      "0b9d2c44-5a1e-4f0b-9c1d-6e2f8a7b3c55".

(** The password followed by one NUL character. *)
Definition nul_padded (p : string) : string :=
  (p ++ String Ascii.zero EmptyString)%string.

(** A freshly opened store, and one that holds a user whose password is
    the single letter a, hashed with the salt s. *)
Definition db_new : database := snd (init env0 empty_database).

Definition john : Users.row :=
  Users.Row 1 "johndoe" "john@example.com" false
    "dc2084e5c4eec9c01abfe861c1af4285740379b8931c25e2da56d09f6bc74d03" (Some "s")
    (Some "John") (Some "Doe") None None true false None None
    63929296800000000 63929296800000000.

Definition db_john : database := set_users [john] 1 db_new.

(** The store of [db_john] after a second user signed up. *)
Definition db_jane : database :=
  snd (create_user env1 "janedoe" "jane@example.com" "securepass456"
         (Some "Jane") (Some "Doe") db_john).

(** A store file holding the tables of [db_john] and nothing else. *)
Definition store_john : store := Store db_john [] [] [].

(** A store file holding the tables of [db_jane] and nothing else. *)
Definition store_jane : store := Store db_jane [] [] [].

(** Surroundings of the calls of one run of the script: the clock moves on
    by a second from call to call and every call draws a new random id. *)
Definition sample_clock (k : nat) : env :=
  Env (63929296800500000 + Z.of_nat k * 1000000)
      (63929296800000000 + Z.of_nat k * 1000000)
      "790800ced049df435cde5c2de2d627166207cefddc11217a5733b3024782e1d1"
      (match k with
       | 3%nat => "3ededd9b-78e8-4360-a802-2af556ee0fe7"
       | 4%nat => "0b9d2c44-5a1e-4f0b-9c1d-6e2f8a7b3c55"
       | _ => "c6e0b2a1-94d7-4c3f-8a52-1f0e9d8c7b6a"
       end).

(** The store after the rows of [roles] were deleted by hand. *)
Definition without_roles (db : database) : database := set_roles [] (roles_seq db) db.

(* ===================================================================== *)
(** * Properties *)

(** Test vectors, computed by the definitions above. *)
Example sha256_abc :
  hex (SHA256.sha256 (encode_utf8 "abc"))
  = "ba7816bf8f01cfea414140de5dae2223b00361a396177a9cb410ff61f20015ad".
Proof. vm_compute. reflexivity. Qed.

Example hmac_sha256_fox :
  hex (HMAC.hmac_sha256 (encode_utf8 "key")
         (encode_utf8 "The quick brown fox jumps over the lazy dog"))
  = "f7bc83f430538424b13298e6aa6fb143ef4d59a14946175997479dbc2d1a3cd8".
Proof. vm_compute. reflexivity. Qed.

Example pbkdf2_password_salt_2 :
  hex (PBKDF2.pbkdf2_hmac_sha256 (encode_utf8 "password") (encode_utf8 "salt") 2)
  = "ae4d0c95af6b46d32d0adff928f06dd02a303f8ef3c251dfd6e2d85a95474c43".
Proof. vm_compute. reflexivity. Qed.

Example json_dumps_nested :
  let q := Json.chr 34 in
  Json.dumps (PyDict [("a", PyInt (-12));
                      ("b", PyList [PyBool true; PyNone; PyStr "x\y"]);
                      ("c", PyDict [])])
  = Some ("{" ++ q ++ "a" ++ q ++ ": -12, " ++ q ++ "b" ++ q ++ ": [true, null, "
          ++ q ++ "x\\y" ++ q ++ "], " ++ q ++ "c" ++ q ++ ": {}}")%string.
Proof. vm_compute. reflexivity. Qed.


Example json_dumps_non_ascii :
  Json.dumps (PyStr "é😀") = Some (Json.chr 34 ++ "\u00e9\ud83d\ude00" ++ Json.chr 34)%string.
Proof. vm_compute. reflexivity. Qed.

(* --------------------------------------------------------------------- *)
(** ** Password hashing *)

Section Hashing.

Lemma unhex_hex_digit (d : Z) : 0 <= d < 16 -> unhex_digit (hex_digit d) = d.
Proof.
  intros H.
  assert (d = 0 \/ d = 1 \/ d = 2 \/ d = 3 \/ d = 4 \/ d = 5 \/ d = 6 \/ d = 7 \/
          d = 8 \/ d = 9 \/ d = 10 \/ d = 11 \/ d = 12 \/ d = 13 \/ d = 14 \/ d = 15)
    as Hd by lia.
  repeat (destruct Hd as [-> | Hd]; [reflexivity |]).
  subst d. reflexivity.
Qed.

Lemma hex_digit_inj (a b : Z) :
  0 <= a < 16 -> 0 <= b < 16 -> hex_digit a = hex_digit b -> a = b.
Proof.
  intros Ha Hb E.
  rewrite <- (unhex_hex_digit a Ha), <- (unhex_hex_digit b Hb).
  now rewrite E.
Qed.

Lemma hex_inj (a : bytes) :
  forall b, Forall is_byte a -> Forall is_byte b -> hex a = hex b -> a = b.
Proof.
  induction a as [| x a IH]; intros [| y b] Fa Fb E; simpl in E;
    try discriminate; [reflexivity |].
  inversion Fa as [| ? ? Hx Fa']; inversion Fb as [| ? ? Hy Fb']; subst.
  unfold is_byte in Hx, Hy.
  injection E as E1 E2 E3.
  apply hex_digit_inj in E1;
    [| split; [apply Z.div_pos | apply Z.div_lt_upper_bound]; lia
     | split; [apply Z.div_pos | apply Z.div_lt_upper_bound]; lia ].
  apply hex_digit_inj in E2; [| apply Z.mod_pos_bound; lia | apply Z.mod_pos_bound; lia].
  f_equal; [| now apply IH].
  rewrite (Z.div_mod x 16), (Z.div_mod y 16) by lia. now rewrite E1, E2.
Qed.

Lemma lxor_is_byte (x y : Z) : is_byte x -> is_byte y -> is_byte (Z.lxor x y).
Proof.
  unfold is_byte. intros Hx Hy.
  assert (0 <= Z.lxor x y) as H0 by (apply Z.lxor_nonneg; lia).
  split; [exact H0 |].
  destruct (Z.eq_dec (Z.lxor x y) 0) as [-> | Hn]; [lia |].
  change 256 with (2 ^ 8). apply Z.log2_lt_pow2; [lia |].
  assert (forall z, 0 <= z < 256 -> Z.log2 z < 8) as Hlog.
  { intros z Hz. destruct (Z.eq_dec z 0) as [-> | Hz0]; [reflexivity |].
    apply Z.log2_lt_pow2; [lia |]. exact (proj2 Hz). }
  pose proof (Z.log2_lxor x y (proj1 Hx) (proj1 Hy)).
  pose proof (Hlog x Hx). pose proof (Hlog y Hy). lia.
Qed.

Lemma xor_bytes_is_byte (a : bytes) :
  forall b, Forall is_byte a -> Forall is_byte b -> Forall is_byte (PBKDF2.xor_bytes a b).
Proof.
  induction a as [| x a IH]; intros [| y b] Fa Fb; simpl; try constructor.
  - inversion Fa; inversion Fb; subst. now apply lxor_is_byte.
  - inversion Fa; inversion Fb; subst. now apply IH.
Qed.

Lemma be_bytes_is_byte (n : nat) (x : Z) : Forall is_byte (SHA256.be_bytes n x).
Proof.
  induction n as [| n IH]; simpl; constructor; [| exact IH].
  unfold is_byte. apply Z.mod_pos_bound. lia.
Qed.

Lemma sha256_is_byte (msg : bytes) : Forall is_byte (SHA256.sha256 msg).
Proof.
  unfold SHA256.sha256, SHA256.digest_bytes.
  apply Forall_flat_map. apply Forall_forall. intros w _. apply be_bytes_is_byte.
Qed.

Lemma pbkdf2_is_byte (password salt : bytes) (c : N) :
  Forall is_byte (PBKDF2.pbkdf2_hmac_sha256 password salt c).
Proof.
  unfold PBKDF2.pbkdf2_hmac_sha256, PBKDF2.first_block.
  set (prf := HMAC.hmac_sha256 password).
  assert (forall m, Forall is_byte (prf m)) as Hprf
    by (intros m; apply sha256_is_byte).
  apply (N.iter_invariant (c - 1) _ (PBKDF2.step prf)
           (fun st => Forall is_byte (fst st) /\ Forall is_byte (snd st))).
  - intros [u t] [_ Ht]. simpl in *. split; [apply Hprf |].
    apply xor_bytes_is_byte; [exact Ht | apply Hprf].
  - simpl. split; apply Hprf.
Qed.

(** The password enters the derivation through its HMAC key block only. *)
Lemma pbkdf2_key_block (p1 p2 salt : bytes) (c : N) :
  HMAC.key_block p1 = HMAC.key_block p2 ->
  PBKDF2.pbkdf2_hmac_sha256 p1 salt c = PBKDF2.pbkdf2_hmac_sha256 p2 salt c.
Proof.
  intros E. unfold PBKDF2.pbkdf2_hmac_sha256, HMAC.hmac_sha256. now rewrite E.
Qed.

Lemma hash_password_salt (e : env) (p : string) (salt : option string) :
  snd (hash_password e p salt)
  = match salt with Some s => s | None => token_hex_32 e end.
Proof. destruct salt; reflexivity. Qed.

Lemma verify_password_true_iff (e : env) (p2 h s : string) :
  verify_password e p2 h (Some s) = true
  <-> hex (PBKDF2.pbkdf2_hmac_sha256 (encode_utf8 p2) (encode_utf8 s) iterations) = h.
Proof. unfold verify_password, hash_password. apply String.eqb_eq. Qed.

End Hashing.

(** From here on the derived key is a value, never computed. *)
#[global] Opaque PBKDF2.pbkdf2_hmac_sha256.

(** C2, as claimed, fails: the password a followed by a NUL character is a
    different password, and [verify_password] accepts it against the hash of
    a under the generated salt, where the claim says it returns false. *)
Lemma verify_password_accepts_nul_padded :
  nul_padded "a" <> "a"
  /\ verify_password env0 (nul_padded "a")
       (fst (hash_password env0 "a" None))
       (Some (snd (hash_password env0 "a" None))) = true.
Proof.
  split; [discriminate |].
  apply verify_password_true_iff. unfold hash_password. cbn [fst snd].
  apply (f_equal hex). apply pbkdf2_key_block. reflexivity.
Qed.

(** C2, amended: for a password [p] hashed under a given or a generated salt,
    [verify_password] returns true on [p]; on any [p2] it returns true exactly
    when PBKDF2-HMAC-SHA256 derives the same key from [p2] as from [p] under
    that salt, and false otherwise; two passwords with one HMAC key block (as
    [p] and [p] followed by NUL characters, up to 64 bytes) derive the same
    key. *)
Theorem verify_password_hash_password (e : env) (p : string) (salt : option string) :
  let h := fst (hash_password e p salt) in
  let s := snd (hash_password e p salt) in
  verify_password e p h (Some s) = true
  /\ (forall p2,
        verify_password e p2 h (Some s) = true
        <-> PBKDF2.pbkdf2_hmac_sha256 (encode_utf8 p2) (encode_utf8 s) iterations
            = PBKDF2.pbkdf2_hmac_sha256 (encode_utf8 p) (encode_utf8 s) iterations)
  /\ (forall p2,
        verify_password e p2 h (Some s) = false
        <-> PBKDF2.pbkdf2_hmac_sha256 (encode_utf8 p2) (encode_utf8 s) iterations
            <> PBKDF2.pbkdf2_hmac_sha256 (encode_utf8 p) (encode_utf8 s) iterations)
  /\ (forall p2,
        HMAC.key_block (encode_utf8 p2) = HMAC.key_block (encode_utf8 p) ->
        verify_password e p2 h (Some s) = true).
Proof.
  intros h s.
  set (key := fun q => PBKDF2.pbkdf2_hmac_sha256 (encode_utf8 q) (encode_utf8 s) iterations).
  assert (h = hex (key p)) as Hh by (subst key h s; destruct salt; reflexivity).
  assert (forall p2, verify_password e p2 h (Some s) = true <-> key p2 = key p) as Hiff.
  { intros p2. rewrite verify_password_true_iff, Hh. fold (key p2). split.
    - intros E. exact (hex_inj _ _ (pbkdf2_is_byte _ _ _) (pbkdf2_is_byte _ _ _) E).
    - intros E. rewrite E. reflexivity. }
  split; [apply Hiff; reflexivity |]. split; [exact Hiff |]. split.
  - intros p2. split.
    + intros Hv E. apply (proj2 (Hiff p2)) in E. congruence.
    + intros Hn. destruct (verify_password e p2 h (Some s)) eqn:V; [| reflexivity].
      exfalso. apply Hn. exact (proj1 (Hiff p2) V).
  - intros p2 E. apply Hiff. exact (pbkdf2_key_block _ _ _ _ E).
Qed.

(* --------------------------------------------------------------------- *)
(** ** Audit logging *)

(** Unfolds the plumbing of a method down to the statements it runs. *)
Ltac run_method :=
  unfold bind, ret, raise, try_except, execute_query, run_sql; cbn.

(** What [log_security_event] does, case by case. *)
Lemma log_security_event_eq e user_id event_type ip_address user_agent success
      failure_reason metadata db :
  log_security_event e user_id event_type ip_address user_agent success
    failure_reason metadata db
  = match metadata_column metadata with
    | None => (Raise TypeError, db)
    | Some column =>
        if user_ref_ok db user_id
        then (Return tt,
              with_log db (log_row e db user_id event_type ip_address user_agent
                             success failure_reason column))
        else (Raise (user_ref_error user_id), db)
    end.
Proof.
  unfold log_security_event, metadata_column, user_ref_ok, user_ref_error,
    unknown_user_error, with_log, log_row.
  destruct metadata as [[| x r] |];
    [| destruct (Json.dumps (PyDict (x :: r))); [| reflexivity] |];
    unfold bind, ret, raise, execute_query, parameters_bind, binds_user_id, run_sql;
    (destruct user_id as [u |];
     [destruct (user_exists db u);
      [rewrite orb_true_r | rewrite orb_false_r; destruct (int64 u)] |];
     reflexivity).
Qed.

(** C10: with [metadata] an empty dict the call does what it does with no
    metadata at all, and the row it writes has NULL in the metadata column;
    the column holds text only for a non-empty dict, and then its JSON
    serialization. *)
Theorem log_security_event_empty_metadata e user_id event_type ip_address user_agent
        success failure_reason metadata db db' :
  log_security_event e user_id event_type ip_address user_agent success
    failure_reason metadata db = (Return tt, db') ->
  log_security_event e user_id event_type ip_address user_agent success
    failure_reason (Some []) db
  = log_security_event e user_id event_type ip_address user_agent success
      failure_reason None db
  /\ exists l,
       user_security_logs db' = user_security_logs db ++ [l]
       /\ (metadata = Some [] \/ metadata = None -> Logs.metadata l = None)
       /\ (forall d, metadata = Some d -> d <> [] ->
             Logs.metadata l = Json.dumps (PyDict d)
             /\ Logs.metadata l <> None)
       /\ (Logs.metadata l <> None -> exists d, metadata = Some d /\ d <> []).
Proof.
  intros H. split; [rewrite !log_security_event_eq; reflexivity |].
  rewrite log_security_event_eq in H.
  destruct (metadata_column metadata) as [column |] eqn:C; [| discriminate].
  destruct (user_ref_ok db user_id); [| discriminate].
  injection H as <-.
  eexists. split; [reflexivity |]. unfold log_row. cbn [Logs.metadata].
  unfold metadata_column in C.
  destruct metadata as [[| x r] |].
  - injection C as <-.
    refine (conj _ (conj _ _)); try congruence; intros d [= <-] Hd; congruence.
  - destruct (Json.dumps (PyDict (x :: r))) as [s |] eqn:J; [| discriminate].
    injection C as <-. refine (conj _ (conj _ _)).
    + intros [? | ?]; discriminate.
    + intros d [= <-] _. rewrite J. split; [reflexivity | discriminate].
    + intros _. exists (x :: r). split; [reflexivity | discriminate].
  - injection C as <-.
    refine (conj _ (conj _ _)); try congruence; intros d [=].
Qed.

Lemma log_security_event_empty_metadata_witness :
  log_security_event env0 None "login_failed" None None true None (Some []) db_new
  = (Return tt,
     with_log db_new (log_row env0 db_new None "login_failed" None None true None None))
  /\ exists l,
       user_security_logs
         (with_log db_new (log_row env0 db_new None "login_failed" None None true None None))
       = user_security_logs db_new ++ [l]
       /\ Logs.metadata l = None.
Proof.
  assert (log_security_event env0 None "login_failed" None None true None (Some []) db_new
          = (Return tt,
             with_log db_new
               (log_row env0 db_new None "login_failed" None None true None None)))
    as H by reflexivity.
  split; [exact H |].
  destruct (log_security_event_empty_metadata _ _ _ _ _ _ _ _ _ _ H)
    as [_ [l [Hl [Hnone _]]]].
  exists l. split; [exact Hl | apply Hnone; left; reflexivity].
Defined.

(** C8, as claimed, fails: a [user_id] that is the id of no user makes the
    insert fail on its foreign key, a metadata value [json.dumps] has no
    rule for makes it raise, and a [user_id] outside the 64 bits of an SQLite
    INTEGER does not bind; the three errors reach the caller and no record is
    appended. *)
Lemma log_security_event_raises :
  log_security_event env0 (Some 999) "login" None None true None None db_new
  = (Raise IntegrityError, db_new)
  /\ log_security_event env0 None "login" None None true None
       (Some [("addresses", PyObject "set")]) db_new
     = (Raise TypeError, db_new)
  /\ log_security_event env0 (Some (2 ^ 63)) "login" None None true None None db_new
     = (Raise OverflowError, db_new).
Proof. split; [| split]; reflexivity. Qed.

(** C8, amended: [log_security_event] returns and appends exactly one record
    when [user_id] is None or the id of a user and [metadata] is None, empty
    or JSON serializable; with a non-empty [metadata] that is not
    serializable it raises [TypeError]; otherwise, with a [user_id] that
    names no user, it raises [IntegrityError] when the id fits the 64 bits of
    an SQLite INTEGER and [OverflowError] when it does not; in all three
    cases the store is left as it was. *)
Theorem log_security_event_outcome e user_id event_type ip_address user_agent success
        failure_reason metadata db :
  let r := log_security_event e user_id event_type ip_address user_agent success
             failure_reason metadata db in
  match metadata_column metadata, user_ref_ok db user_id with
  | Some column, true =>
      fst r = Return tt
      /\ user_security_logs (snd r)
         = user_security_logs db
           ++ [log_row e db user_id event_type ip_address user_agent success
                 failure_reason column]
      /\ List.length (user_security_logs (snd r))
         = S (List.length (user_security_logs db))
      /\ users (snd r) = users db
      /\ user_sessions (snd r) = user_sessions db
      /\ roles (snd r) = roles db
      /\ user_roles (snd r) = user_roles db
  | Some _, false =>
      exists u,
        user_id = Some u
        /\ user_exists db u = false
        /\ r = (Raise (if int64 u then IntegrityError else OverflowError), db)
  | None, _ => r = (Raise TypeError, db)
  end.
Proof.
  intros r. subst r. rewrite log_security_event_eq.
  destruct (metadata_column metadata) as [column |]; [| reflexivity].
  destruct (user_ref_ok db user_id) eqn:U.
  - cbn. repeat split. rewrite length_app. cbn. lia.
  - destruct user_id as [u |]; [| discriminate].
    exists u. repeat split. exact U.
Qed.

(* --------------------------------------------------------------------- *)
(** ** Sessions *)

Lemma filter_idempotent {A : Type} (f : A -> bool) (l : list A) :
  filter f (filter f l) = filter f l.
Proof.
  induction l as [| x l IH]; cbn; [reflexivity |].
  destruct (f x) eqn:E; cbn; rewrite ?E, IH; reflexivity.
Qed.

Lemma filter_negb_nil {A : Type} (f : A -> bool) (l : list A) :
  filter f (filter (fun x => negb (f x)) l) = [].
Proof.
  induction l as [| x l IH]; cbn; [reflexivity |].
  destruct (f x) eqn:E; cbn; rewrite ?E; exact IH.
Qed.

Lemma filter_split_length {A : Type} (f : A -> bool) (l : list A) :
  List.length l
  = (List.length (filter (fun x => negb (f x)) l) + List.length (filter f l))%nat.
Proof.
  induction l as [| x l IH]; cbn; [reflexivity |].
  destruct (f x); cbn; lia.
Qed.

Lemma filter_none {A : Type} (f : A -> bool) (l : list A) :
  (forall x, In x l -> f x = false) -> filter f l = [].
Proof.
  induction l as [| x l IH]; cbn; intros H; [reflexivity |].
  rewrite (H x (or_introl eq_refl)). apply IH. intros y Hy. apply H. now right.
Qed.

Lemma filter_keep_all {A : Type} (f : A -> bool) (l : list A) :
  (forall x, In x l -> f x = true) -> filter f l = l.
Proof.
  induction l as [| x l IH]; cbn; intros H; [reflexivity |].
  rewrite (H x (or_introl eq_refl)). f_equal. apply IH. intros y Hy. apply H. now right.
Qed.

(** X22: [cleanup_expired_sessions] deletes exactly the sessions whose
    stored [expires_at] is before the database's current timestamp, keeps
    every other session as it is and in order, touches no other table, and
    returns the number of sessions it deleted; called again at the same
    timestamp, or at a later one before which none of the remaining sessions
    expires, it deletes nothing and returns zero. *)
Theorem cleanup_expired_sessions_spec (e : env) (db : database) :
  let now := CURRENT_TIMESTAMP e in
  let r := cleanup_expired_sessions e db in
  let deleted := filter (expired now) (user_sessions db) in
  fst r = Return (Z.of_nat (List.length deleted))
  /\ user_sessions (snd r) = filter (fun s => negb (expired now s)) (user_sessions db)
  /\ (forall s, In s (user_sessions (snd r))
                <-> In s (user_sessions db) /\ now <= Sessions.expires_at s)
  /\ (forall s, In s deleted
                <-> In s (user_sessions db) /\ Sessions.expires_at s < now)
  /\ List.length (user_sessions db)
     = (List.length (user_sessions (snd r)) + List.length deleted)%nat
  /\ users (snd r) = users db
  /\ roles (snd r) = roles db
  /\ user_roles (snd r) = user_roles db
  /\ user_security_logs (snd r) = user_security_logs db
  /\ cleanup_expired_sessions e (snd r) = (Return 0, snd r)
  /\ (forall e2,
        (forall s, In s (user_sessions db) -> now <= Sessions.expires_at s ->
                   CURRENT_TIMESTAMP e2 <= Sessions.expires_at s) ->
        cleanup_expired_sessions e2 (snd r) = (Return 0, snd r)).
Proof.
  intros now r deleted. subst r deleted.
  unfold cleanup_expired_sessions. run_method. fold now.
  split; [reflexivity |]. split; [reflexivity |]. split; [| split].
  - intros s. rewrite filter_In. unfold expired. fold now.
    rewrite negb_true_iff, Z.ltb_ge. reflexivity.
  - intros s. rewrite filter_In. unfold expired. fold now.
    rewrite Z.ltb_lt. reflexivity.
  - split; [apply filter_split_length |]. repeat (split; [reflexivity |]).
    unfold set_user_sessions; cbn. fold now. split.
    + rewrite filter_negb_nil, filter_idempotent. reflexivity.
    + intros e2 Hlater.
      assert (forall s, In s (filter (fun s => negb (expired now s)) (user_sessions db)) ->
                        expired (CURRENT_TIMESTAMP e2) s = false) as Hnone.
      { intros s Hs. apply filter_In in Hs. destruct Hs as [Hin Hs].
        apply negb_true_iff in Hs. unfold expired in *. fold now in Hs.
        apply Z.ltb_ge in Hs. apply Z.ltb_ge. now apply Hlater. }
      rewrite (filter_none _ _ Hnone). rewrite filter_keep_all; [reflexivity |].
      intros s Hs. now rewrite (Hnone s Hs).
Qed.

Lemma user_exists_with_last_login e db user_id u :
  user_exists (with_last_login e db user_id) u = user_exists db u.
Proof.
  unfold user_exists, with_last_login. cbn.
  induction (users db) as [| x l IH]; cbn; [reflexivity |].
  rewrite IH. destruct (Users.id x =? user_id); reflexivity.
Qed.

Lemma binds_user_id_exists db n : user_exists db n = true -> binds_user_id db n = true.
Proof. intros H. unfold binds_user_id. rewrite H. apply orb_true_r. Qed.

Lemma binds_user_id_unknown db n :
  user_exists db n = false -> binds_user_id db n = int64 n.
Proof. intros H. unfold binds_user_id. rewrite H. apply orb_false_r. Qed.

(** What [create_session] does, case by case. *)
Lemma create_session_eq e user_id device_info ip_address duration_hours db :
  create_session e user_id device_info ip_address duration_hours db
  = match datetime_add (datetime_now e) (timedelta_hours duration_hours) with
    | None => (Raise OverflowError, db)
    | Some expires_at =>
        if session_id_taken db (uuid4 e) || negb (user_exists db user_id)
        then (Raise (if binds_user_id db user_id then IntegrityError else OverflowError),
              db)
        else
          let db1 := with_session db
                       (session_row e user_id device_info ip_address expires_at) in
          let db2 := with_last_login e db1 user_id in
          (Return (uuid4 e),
           with_log db2 (log_row e db2 (Some user_id) "login" ip_address None
                           true None None))
    end.
Proof.
  unfold create_session.
  destruct (datetime_add (datetime_now e) (timedelta_hours duration_hours))
    as [expires_at |]; [| reflexivity].
  unfold session_id_taken.
  unfold bind at 1. unfold execute_query at 1. unfold parameters_bind.
  destruct (user_exists db user_id) eqn:U.
  2:{ rewrite (binds_user_id_unknown _ _ U), orb_true_r.
      destruct (int64 user_id); [| reflexivity].
      unfold run_sql. rewrite U.
      destruct (existsb _ (user_sessions db)); reflexivity. }
  rewrite (binds_user_id_exists _ _ U). unfold run_sql. rewrite U.
  destruct (existsb _ (user_sessions db)); [reflexivity |].
  cbn [orb negb].
  unfold bind at 1. unfold execute_query at 1. unfold parameters_bind.
  rewrite (binds_user_id_exists _ user_id) by exact U.
  unfold run_sql.
  unfold bind at 1. rewrite log_security_event_eq.
  cbn [metadata_column user_ref_ok].
  change (set_users _ _ _)
    with (with_last_login e
            (with_session db
               (session_row e user_id device_info ip_address expires_at)) user_id).
  rewrite user_exists_with_last_login.
  unfold with_session at 1, user_exists. cbn [users set_user_sessions].
  fold (user_exists db user_id). rewrite U. reflexivity.
Qed.




(** On a machine west of UTC the stored expiry is behind the database's
    clock from the start: a one-hour session is deleted by a clean-up that
    runs at the instant the session is created. *)
Example create_session_west_of_utc :
  let db1 := snd (create_session env_west 1 None None 1 db_john) in
  List.length (user_sessions db1) = 1%nat
  /\ cleanup_expired_sessions env_west db1
     = (Return 1, set_user_sessions [] db1).
Proof. split; reflexivity. Qed.

(** C6: the code breaks the claim.  [create_session] writes [expires_at] from
    the local clock of [datetime.now()], and the DELETE of
    [cleanup_expired_sessions] compares it with SQLite's CURRENT_TIMESTAMP,
    which is UTC.  On a machine two hours west of UTC, a session of one hour,
    whose expiry is an hour ahead on the clock that wrote it, is deleted by a
    clean-up that runs at the instant of its creation. *)
Theorem cleanup_expired_sessions_deletes_future_session :
  exists db1 s,
    create_session env_west 1 None None 1 db_john = (Return (uuid4 env_west), db1)
    /\ user_sessions db1 = [s]
    /\ Sessions.expires_at s = datetime_now env_west + timedelta_hours 1
    /\ datetime_now env_west < Sessions.expires_at s
    /\ cleanup_expired_sessions env_west db1 = (Return 1, set_user_sessions [] db1).
Proof.
  eexists. eexists. split; [reflexivity |]. split; [reflexivity |].
  split; [reflexivity |]. split; reflexivity.
Qed.

(* --------------------------------------------------------------------- *)
(** ** Role assignment *)

Lemma role_id_of_exists db name role_id :
  role_id_of db name = Some role_id -> role_exists db role_id = true.
Proof.
  unfold role_id_of, role_exists, fetchone.
  induction (roles db) as [| r l IH]; cbn; [discriminate |].
  destruct (String.eqb (Roles.name r) name); cbn.
  - intros [= <-]. now rewrite Z.eqb_refl.
  - intros H. rewrite (IH H). apply orb_true_r.
Qed.

Lemma role_id_of_has_role db name :
  has_role db name <-> exists role_id, role_id_of db name = Some role_id.
Proof.
  unfold has_role, role_id_of, fetchone. split.
  - intros [r [Hin Hn]].
    destruct (filter (fun r => String.eqb (Roles.name r) name) (roles db))
      as [| r0 l] eqn:F.
    + assert (In r []) as [].
      rewrite <- F. apply filter_In. split; [exact Hin |]. now apply String.eqb_eq.
    + exists (Roles.id r0). reflexivity.
  - intros [role_id H].
    destruct (filter (fun r => String.eqb (Roles.name r) name) (roles db))
      as [| r0 l] eqn:F; [discriminate |].
    assert (In r0 (r0 :: l)) as Hin by (left; reflexivity).
    rewrite <- F in Hin. apply filter_In in Hin. destruct Hin as [Hin Hn].
    exists r0. split; [exact Hin | now apply String.eqb_eq].
Qed.

Lemma role_id_of_named db name role_id :
  role_id_of db name = Some role_id ->
  exists r, In r (roles db) /\ Roles.name r = name /\ Roles.id r = role_id.
Proof.
  unfold role_id_of, fetchone.
  destruct (filter (fun r => String.eqb (Roles.name r) name) (roles db))
    as [| r0 l] eqn:F; [discriminate |].
  intros [= <-].
  assert (In r0 (r0 :: l)) as Hin by (left; reflexivity).
  rewrite <- F in Hin. apply filter_In in Hin. destruct Hin as [Hin Hn].
  exists r0. repeat split; [exact Hin | now apply String.eqb_eq].
Qed.

(** What [assign_role_to_user] does, case by case. *)
Lemma assign_role_to_user_eq e user_id role_name assigned_by db :
  assign_role_to_user e user_id role_name assigned_by db
  = match role_id_of db role_name with
    | None => (Return false, db)
    | Some role_id =>
        if user_exists db user_id && user_exists db assigned_by
        then (Return true,
              with_user_role db (user_role_row e user_id role_id assigned_by))
        else if binds_user_id db user_id && binds_user_id db assigned_by
             then (Return false, db)
             else (Raise OverflowError, db)
    end.
Proof.
  unfold assign_role_to_user, try_except, bind at 1, execute_query at 1.
  cbn [parameters_bind]. unfold run_sql.
  cbn [fetched_ids]. fold (role_id_of db role_name).
  destruct (role_id_of db role_name) as [role_id |] eqn:R; [| reflexivity].
  unfold bind, execute_query, parameters_bind, binds_role_id, binds_user_id, run_sql.
  rewrite (role_id_of_exists _ _ _ R), orb_true_r.
  destruct (user_exists db user_id), (user_exists db assigned_by),
    (int64 user_id), (int64 assigned_by); reflexivity.
Qed.

Lemma count_key_with_user_role db x :
  List.length
    (filter (UserRoles.has_key (UserRoles.user_id x) (UserRoles.role_id x))
            (user_roles (with_user_role db x))) = 1%nat.
Proof.
  unfold with_user_role. cbn [user_roles set_user_roles].
  rewrite filter_app, filter_negb_nil. cbn.
  unfold UserRoles.has_key. now rewrite !Z.eqb_refl.
Qed.

Lemma has_key_iff u r x :
  UserRoles.has_key u r x = true <-> user_role_key x = (u, r).
Proof.
  unfold UserRoles.has_key, user_role_key.
  rewrite andb_true_iff, !Z.eqb_eq. split; [intros [-> ->]; reflexivity |].
  intros [= -> ->]. split; reflexivity.
Qed.

(** Deleting rows keeps a key unique. *)
Lemma unique_key_filter {K V : Type} (key : V -> K) (rows : list V) (keep : V -> bool) :
  NoDup (map key rows) -> NoDup (map key (filter keep rows)).
Proof.
  induction rows as [| x rows IH]; cbn; [trivial |].
  intros H. inversion H as [| ? ? Hnin Hnd]; subst.
  destruct (keep x); cbn; [| now apply IH].
  constructor; [| now apply IH].
  intros Hin. apply Hnin. apply in_map_iff in Hin. destruct Hin as [y [Hy Hin]].
  apply in_map_iff. exists y. split; [exact Hy |]. now apply filter_In in Hin.
Qed.

Lemma NoDup_app_one {B : Type} (l : list B) (b : B) :
  NoDup l -> ~ In b l -> NoDup (l ++ [b]).
Proof.
  induction l as [| x l IH]; cbn; intros Hnd Hnin.
  - constructor; [intros [] | constructor].
  - inversion Hnd as [| ? ? Hx Hl]; subst. constructor.
    + rewrite in_app_iff. cbn. intros [H | [H | []]]; [now apply Hx |].
      apply Hnin. left. symmetry. exact H.
    + apply IH; [exact Hl |]. intros H. apply Hnin. right. exact H.
Qed.

Lemma user_roles_key_unique_with_user_role db x :
  NoDup (map user_role_key (user_roles db)) ->
  NoDup (map user_role_key (user_roles (with_user_role db x))).
Proof.
  intros H. unfold with_user_role. cbn [user_roles set_user_roles].
  rewrite map_app. cbn. apply NoDup_app_one; [now apply unique_key_filter |].
  intros Hin. apply in_map_iff in Hin. destruct Hin as [y [Hy Hin]].
  apply filter_In in Hin. destruct Hin as [_ Hneg].
  apply negb_true_iff in Hneg.
  assert (UserRoles.has_key (UserRoles.user_id x) (UserRoles.role_id x) y = true)
    as Hk by (apply has_key_iff; exact Hy).
  congruence.
Qed.

(** C7, as claimed, fails: the role admin exists, but the user id is the id
    of no user, so the foreign key rejects the insert and the method returns
    false where the claim says true; and a user id outside the 64 bits of an
    SQLite INTEGER does not bind, which raises an error the method does not
    catch. *)
Lemma assign_role_to_user_unknown_user :
  has_role db_john "admin"
  /\ assign_role_to_user env0 42 "admin" 1 db_john = (Return false, db_john)
  /\ assign_role_to_user env0 (2 ^ 63) "admin" 1 db_john = (Raise OverflowError, db_john).
Proof.
  split; [| split; reflexivity].
  apply role_id_of_has_role. eexists. reflexivity.
Qed.

(** C7, amended: for a role name with no row in [roles],
    [assign_role_to_user] returns false and leaves the store unchanged; for an
    existing role name, when [user_id] and [assigned_by] are ids of users, it
    returns true and upserts the association: the rows of other (user, role)
    pairs stay, any row of this pair is replaced, and exactly one row of the
    pair remains, so the pairs stay unique; for an existing role name and a
    [user_id] or [assigned_by] that names no user it leaves the store
    unchanged, and returns false when both ids bind (they fit the 64 bits of
    an SQLite INTEGER) and raises [OverflowError] when one does not.  It
    raises nothing else, and nothing when both ids fit 64 bits. *)
Theorem assign_role_to_user_spec e user_id role_name assigned_by db :
  let r := assign_role_to_user e user_id role_name assigned_by db in
  (~ has_role db role_name -> r = (Return false, db))
  /\ (forall role_id,
        role_id_of db role_name = Some role_id ->
        user_exists db user_id = true ->
        user_exists db assigned_by = true ->
        fst r = Return true
        /\ user_roles (snd r)
           = filter (fun y => negb (UserRoles.has_key user_id role_id y)) (user_roles db)
             ++ [user_role_row e user_id role_id assigned_by]
        /\ List.length (filter (UserRoles.has_key user_id role_id) (user_roles (snd r)))
           = 1%nat
        /\ (forall y, user_role_key y <> (user_id, role_id) ->
                      (In y (user_roles (snd r)) <-> In y (user_roles db)))
        /\ (NoDup (map user_role_key (user_roles db)) ->
            NoDup (map user_role_key (user_roles (snd r))))
        /\ users (snd r) = users db
        /\ roles (snd r) = roles db)
  /\ (has_role db role_name ->
      user_exists db user_id = false \/ user_exists db assigned_by = false ->
      (binds_user_id db user_id && binds_user_id db assigned_by = true ->
       r = (Return false, db))
      /\ (binds_user_id db user_id && binds_user_id db assigned_by = false ->
          r = (Raise OverflowError, db)))
  /\ (forall x, fst r = Raise x -> x = OverflowError /\ snd r = db)
  /\ (int64 user_id = true -> int64 assigned_by = true -> exists b, fst r = Return b).
Proof.
  intros r. subst r. rewrite assign_role_to_user_eq.
  split; [| split; [| split; [| split]]].
  - intros Hno. destruct (role_id_of db role_name) as [role_id |] eqn:R; [| reflexivity].
    elim Hno. apply role_id_of_has_role. now exists role_id.
  - intros role_id -> -> ->. cbn [andb fst snd].
    split; [reflexivity |]. split; [reflexivity |].
    split; [exact (count_key_with_user_role db (user_role_row e user_id role_id assigned_by)) |].
    split; [| split; [| split; reflexivity]].
    + intros y Hy. unfold with_user_role. cbn [user_roles set_user_roles user_role_row
        UserRoles.user_id UserRoles.role_id].
      rewrite in_app_iff, filter_In, negb_true_iff. split.
      * intros [[Hin _] | [<- | []]]; [exact Hin |]. now elim Hy.
      * intros Hin. left. split; [exact Hin |].
        destruct (UserRoles.has_key user_id role_id y) eqn:K; [| reflexivity].
        elim Hy. now apply has_key_iff.
    + apply user_roles_key_unique_with_user_role.
  - intros Hrole Huser. apply role_id_of_has_role in Hrole.
    destruct Hrole as [role_id ->].
    assert (user_exists db user_id && user_exists db assigned_by = false) as ->.
    { destruct Huser as [-> | ->]; [reflexivity | apply andb_false_r]. }
    split; intros ->; reflexivity.
  - intros x. destruct (role_id_of db role_name); [| discriminate].
    destruct (user_exists db user_id && user_exists db assigned_by); [discriminate |].
    destruct (binds_user_id db user_id && binds_user_id db assigned_by);
      [discriminate |].
    intros [= <-]. split; reflexivity.
  - intros I1 I2. destruct (role_id_of db role_name); [| now exists false].
    destruct (user_exists db user_id && user_exists db assigned_by);
      [now exists true |].
    unfold binds_user_id. rewrite I1, I2. now exists false.
Qed.

Lemma assign_role_to_user_spec_witness :
  role_id_of db_john "admin" = Some 1
  /\ user_exists db_john 1 = true
  /\ fst (assign_role_to_user env0 1 "admin" 1 db_john) = Return true
  /\ user_roles (snd (assign_role_to_user env0 1 "admin" 1 db_john))
     = [user_role_row env0 1 1 1]
  /\ ~ has_role db_john "root"
  /\ assign_role_to_user env0 1 "root" 1 db_john = (Return false, db_john).
Proof.
  assert (role_id_of db_john "admin" = Some 1) as R by (vm_compute; reflexivity).
  assert (user_exists db_john 1 = true) as U by (vm_compute; reflexivity).
  assert (role_id_of db_john "root" = None) as R0 by (vm_compute; reflexivity).
  assert (~ has_role db_john "root") as Hroot.
  { intros Hr. apply role_id_of_has_role in Hr. destruct Hr as [i Hi]. congruence. }
  pose proof (assign_role_to_user_spec env0 1 "admin" 1 db_john) as [_ [H _]].
  pose proof (assign_role_to_user_spec env0 1 "root" 1 db_john) as [H0 _].
  specialize (H 1 R U U). destruct H as [H1 [H2 _]].
  split; [exact R |]. split; [exact U |]. split; [exact H1 |].
  split; [rewrite H2; vm_compute; reflexivity |].
  split; [exact Hroot | exact (H0 Hroot)].
Defined.

(* --------------------------------------------------------------------- *)
(** ** Account creation *)

Lemma assign_role_to_user_returns e user_id role_name assigned_by db :
  user_exists db user_id = true -> user_exists db assigned_by = true ->
  exists b db',
    assign_role_to_user e user_id role_name assigned_by db = (Return b, db')
    /\ users db' = users db
    /\ users_seq db' = users_seq db
    /\ roles db' = roles db
    /\ user_sessions db' = user_sessions db
    /\ user_security_logs db' = user_security_logs db
    /\ user_security_logs_seq db' = user_security_logs_seq db.
Proof.
  intros U1 U2. rewrite assign_role_to_user_eq, U1, U2. cbn [andb].
  destruct (role_id_of db role_name); [| exists false, db; repeat split].
  eexists. eexists. split; [reflexivity |]. repeat split.
Qed.

Lemma user_exists_with_user db u :
  user_exists (with_user db u) (Users.id u) = true.
Proof.
  unfold user_exists, with_user. cbn [users set_users].
  rewrite existsb_app. cbn. rewrite Z.eqb_refl. apply orb_true_r.
Qed.

(** What [create_user] does, case by case: it never raises. *)
Lemma create_user_eq e username email password first_name last_name db :
  create_user e username email password first_name last_name db
  = if username_taken db username || email_taken db email
    then (Return None, db)
    else
      let u := user_row e db username email password first_name last_name in
      let db2 := snd (assign_role_to_user e (Users.id u) "user" (Users.id u)
                        (with_user db u)) in
      (Return (Some (Users.id u)),
       with_log db2 (log_row e db2 (Some (Users.id u)) "user_created" None None
                       true None None)).
Proof.
  unfold create_user, try_except.
  rewrite (surjective_pairing (hash_password e password None)).
  unfold bind at 1, execute_query at 1. cbn [parameters_bind]. unfold run_sql.
  fold (username_taken db username) (email_taken db email).
  destruct (username_taken db username || email_taken db email); [reflexivity |].
  cbn [lastrowid no_rows].
  change (set_users _ _ db)
    with (with_user db (user_row e db username email password first_name last_name)).
  set (u := user_row e db username email password first_name last_name).
  change (next_rowid (users_seq db) (map Users.id (users db))) with (Users.id u).
  cbn zeta. unfold bind at 1.
  destruct (assign_role_to_user_returns e (Users.id u) "user" (Users.id u) (with_user db u)
              (user_exists_with_user db u) (user_exists_with_user db u))
    as [b [db2 [A [Husers _]]]].
  rewrite A. cbn [snd]. unfold bind at 1. rewrite log_security_event_eq.
  cbn [metadata_column user_ref_ok].
  assert (user_exists db2 (Users.id u) = true) as U.
  { unfold user_exists. rewrite Husers. apply user_exists_with_user. }
  rewrite U. reflexivity.
Qed.

Lemma existsb_eqb_In {A : Type} (f : A -> string) (l : list A) (s : string) :
  existsb (fun x => String.eqb (f x) s) l = true <-> In s (map f l).
Proof.
  rewrite existsb_exists, in_map_iff. split.
  - intros [x [Hin E]]. exists x. split; [now apply String.eqb_eq | exact Hin].
  - intros [x [E Hin]]. exists x. split; [exact Hin | now apply String.eqb_eq].
Qed.

(** C3: when a user with the given username or the given email exists,
    [create_user] returns None, raises nothing, and leaves the whole store,
    the [users] table and the existing user's row included, as it was. *)
Theorem create_user_duplicate e username email password first_name last_name db :
  (exists u, In u (users db)
             /\ (Users.username u = username \/ Users.email u = email)) ->
  create_user e username email password first_name last_name db = (Return None, db).
Proof.
  intros [u [Hin Hdup]]. rewrite create_user_eq.
  assert (username_taken db username || email_taken db email = true) as ->;
    [| reflexivity].
  apply orb_true_iff. unfold username_taken, email_taken.
  rewrite !existsb_eqb_In.
  destruct Hdup as [<- | <-]; [left | right]; now apply in_map.
Qed.

Lemma create_user_duplicate_witness :
  (exists u, In u (users db_john)
             /\ (Users.username u = "johnny" \/ Users.email u = "john@example.com"))
  /\ create_user env1 "johnny" "john@example.com" "hunter2" None None db_john
     = (Return None, db_john).
Proof.
  assert (exists u, In u (users db_john)
                    /\ (Users.username u = "johnny"
                        \/ Users.email u = "john@example.com")) as H.
  { exists john. split; [left; reflexivity | right; reflexivity]. }
  split; [exact H | exact (create_user_duplicate _ _ _ _ _ _ _ H)].
Defined.

(** The insert of [create_user] succeeds exactly on a fresh username and
    email. *)
Lemma insert_user_outcome e username email password first_name last_name db :
  execute_query e
    (INSERT_INTO_users username email (fst (hash_password e password None))
       (snd (hash_password e password None)) first_name last_name) db
  = if username_taken db username || email_taken db email
    then (Raise IntegrityError, db)
    else
      let u := user_row e db username email password first_name last_name in
      (Return (no_rows (Users.id u) 1), with_user db u).
Proof.
  unfold execute_query, run_sql.
  fold (username_taken db username) (email_taken db email).
  destruct (username_taken db username || email_taken db email); reflexivity.
Qed.

Lemma not_has_role_role_id_of db name :
  ~ has_role db name -> role_id_of db name = None.
Proof.
  intros H. destruct (role_id_of db name) as [i |] eqn:R; [| reflexivity].
  elim H. apply role_id_of_has_role. now exists i.
Qed.

(** C9: whenever the insert into [users] succeeds, [create_user] returns the
    new id, whatever [assign_role_to_user] returned; when the role user has
    no row, [assign_role_to_user] returns false, [user_roles] stays as it was,
    and the id is returned all the same. *)
Theorem create_user_ignores_role_assignment e username email password
        first_name last_name db cursor db1 :
  execute_query e
    (INSERT_INTO_users username email (fst (hash_password e password None))
       (snd (hash_password e password None)) first_name last_name) db
  = (Return cursor, db1) ->
  let user_id := lastrowid cursor in
  let r := create_user e username email password first_name last_name db in
  fst r = Return (Some user_id)
  /\ (exists b, fst (assign_role_to_user e user_id "user" user_id db1) = Return b)
  /\ user_roles (snd r)
     = user_roles (snd (assign_role_to_user e user_id "user" user_id db1))
  /\ (~ has_role db "user" ->
      assign_role_to_user e user_id "user" user_id db1 = (Return false, db1)
      /\ user_roles (snd r) = user_roles db
      /\ In user_id (map Users.id (users (snd r)))).
Proof.
  rewrite insert_user_outcome, create_user_eq.
  destruct (username_taken db username || email_taken db email); [discriminate |].
  cbn zeta. intros [= <- <-]. cbn [lastrowid no_rows fst snd].
  set (u := user_row e db username email password first_name last_name).
  change (next_rowid (users_seq db) (map Users.id (users db))) with (Users.id u).
  split; [reflexivity |]. split; [| split; [reflexivity |]].
  - destruct (assign_role_to_user_returns e (Users.id u) "user" (Users.id u)
                (with_user db u) (user_exists_with_user db u)
                (user_exists_with_user db u)) as [b [db2 [A _]]].
    exists b. rewrite A. reflexivity.
  - intros Hno.
    assert (assign_role_to_user e (Users.id u) "user" (Users.id u) (with_user db u)
            = (Return false, with_user db u)) as A.
    { rewrite assign_role_to_user_eq.
      assert (role_id_of (with_user db u) "user" = None) as ->; [| reflexivity].
      apply not_has_role_role_id_of. exact Hno. }
    split; [exact A |]. rewrite A. cbn [snd].
    split; [reflexivity |].
    unfold with_log, with_user. cbn [users set_user_security_logs set_users].
    rewrite map_app, in_app_iff. right. left. reflexivity.
Qed.

Lemma create_user_ignores_role_assignment_witness :
  let db := without_roles db_john in
  let u := user_row env1 db "janedoe" "jane@example.com" "securepass456"
             (Some "Jane") (Some "Doe") in
  ~ has_role db "user"
  /\ Users.id u = 2
  /\ fst (create_user env1 "janedoe" "jane@example.com" "securepass456"
            (Some "Jane") (Some "Doe") db) = Return (Some 2)
  /\ user_roles (snd (create_user env1 "janedoe" "jane@example.com" "securepass456"
                        (Some "Jane") (Some "Doe") db)) = [].
Proof.
  intros db u.
  assert (~ has_role db "user") as Hno by (intros [r [[] _]]).
  assert (username_taken db "janedoe" || email_taken db "jane@example.com" = false)
    as Hfresh by (vm_compute; reflexivity).
  pose proof (insert_user_outcome env1 "janedoe" "jane@example.com" "securepass456"
                (Some "Jane") (Some "Doe") db) as Hins.
  rewrite Hfresh in Hins. cbn zeta in Hins.
  destruct (create_user_ignores_role_assignment _ _ _ _ _ _ _ _ _ Hins)
    as [H1 [_ [_ H2]]].
  destruct (H2 Hno) as [_ [H3 _]].
  split; [exact Hno |]. split; [reflexivity |]. split; [exact H1 | exact H3].
Defined.

(* --------------------------------------------------------------------- *)
(** ** The invariant of the store *)

Section Keeps.

Context (P : database -> Prop).

Lemma keeps_ret {A : Type} (a : A) : keeps P (ret a).
Proof. intros db H. exact H. Qed.

Lemma keeps_raise {A : Type} (x : exn) : keeps P (@raise A x).
Proof. intros db H. exact H. Qed.

Lemma keeps_bind {A B : Type} (m : M A) (k : A -> M B) :
  keeps P m -> (forall a, keeps P (k a)) -> keeps P (bind m k).
Proof.
  intros Hm Hk db H. unfold bind. specialize (Hm db H).
  destruct (m db) as [[a | x] db1]; cbn in *; [now apply Hk | exact Hm].
Qed.

Lemma keeps_try_except {A : Type} (body handler : M A) (handles : exn -> bool) :
  keeps P body -> keeps P handler -> keeps P (try_except body handles handler).
Proof.
  intros Hb Hh db H. unfold try_except. specialize (Hb db H).
  destruct (body db) as [[a | x] db1]; cbn in *; [exact Hb |].
  destruct (handles x); [now apply Hh | exact Hb].
Qed.

Lemma keeps_execute_query (e : env) (q : sql) :
  (forall db c db', P db -> run_sql e q db = inr (c, db') -> P db') ->
  keeps P (execute_query e q).
Proof.
  intros Hq db H. unfold execute_query.
  destruct (parameters_bind db q); [| exact H].
  destruct (run_sql e q db) as [x | [c db']] eqn:R; cbn; [exact H |].
  exact (Hq _ _ _ H R).
Qed.

Lemma keeps_for_each {A : Type} (l : list A) (body : A -> M unit) :
  (forall a, keeps P (body a)) -> keeps P (for_each l body).
Proof.
  intros Hb. induction l as [| a l IH]; cbn [for_each].
  - apply keeps_ret.
  - apply keeps_bind; [apply Hb | intros _; exact IH].
Qed.

End Keeps.

Lemma fold_max_ge (seq : Z) (ids : list Z) :
  seq <= fold_right Z.max seq ids /\ Forall (fun i => i <= fold_right Z.max seq ids) ids.
Proof.
  induction ids as [| i ids [IH1 IH2]]; cbn; [split; [lia | constructor] |].
  split; [lia |]. constructor; [lia |].
  eapply Forall_impl; [| exact IH2]. cbn. intros; lia.
Qed.

(** An AUTOINCREMENT id is new to the table. *)
Lemma next_rowid_fresh (seq : Z) (ids : list Z) : ~ In (next_rowid seq ids) ids.
Proof.
  intros Hin. destruct (fold_max_ge seq ids) as [_ H].
  rewrite Forall_forall in H. specialize (H _ Hin). unfold next_rowid in H. lia.
Qed.

Lemma existsb_eqb_false_not_In {A : Type} (f : A -> string) (l : list A) (s : string) :
  existsb (fun x => String.eqb (f x) s) l = false -> ~ In s (map f l).
Proof.
  intros E Hin. apply existsb_eqb_In in Hin. congruence.
Qed.

Lemma existsb_app_l {A : Type} (f : A -> bool) (l l' : list A) :
  existsb f l = true -> existsb f (l ++ l') = true.
Proof. intros H. rewrite existsb_app, H. reflexivity. Qed.

Lemma map_id_set_last_login (t : timestamp) (user_id : Z) (l : list Users.row) :
  map Users.id
    (map (fun u => if Users.id u =? user_id then Users.set_last_login_at t u else u) l)
  = map Users.id l
  /\ map Users.username
       (map (fun u => if Users.id u =? user_id then Users.set_last_login_at t u else u) l)
     = map Users.username l
  /\ map Users.email
       (map (fun u => if Users.id u =? user_id then Users.set_last_login_at t u else u) l)
     = map Users.email l.
Proof.
  rewrite !map_map. repeat split; apply map_ext; intros u;
    destruct (Users.id u =? user_id); reflexivity.
Qed.

Lemma existsb_id_map (l : list Users.row) (u : Z) :
  existsb (fun x => Users.id x =? u) l = existsb (fun i => i =? u) (map Users.id l).
Proof. induction l as [| x l IH]; cbn; [reflexivity | now rewrite IH]. Qed.

Lemma refs_transfer (db db' : database) :
  (forall u, user_exists db u = true -> user_exists db' u = true) ->
  (forall r, role_exists db r = true -> role_exists db' r = true) ->
  (forall l, Forall (fun s => user_exists db (Sessions.user_id s) = true) l ->
             Forall (fun s => user_exists db' (Sessions.user_id s) = true) l)
  /\ (forall l, Forall (user_role_refs_ok db) l -> Forall (user_role_refs_ok db') l)
  /\ (forall l, Forall (log_user_ok db) l -> Forall (log_user_ok db') l).
Proof.
  intros Hu Hr. repeat split; intros l; apply Forall_impl.
  - intros s. apply Hu.
  - intros x [A [B C]]. repeat split; auto.
  - intros x. unfold log_user_ok. destruct (Logs.user_id x); auto.
Qed.

(** Every statement keeps the constraints of the schema. *)
Lemma run_sql_schema_ok e q db c db' :
  schema_ok db -> run_sql e q db = inr (c, db') -> schema_ok db'.
Proof.
  intros [Uid Uname Uemail Rid Rname Pid Pname Sid Kuniq Lid Sref Kref Lref] R.
  destruct q; unfold run_sql in R.
  - (* INSERT OR IGNORE INTO roles *)
    destruct (existsb _ (roles db)) eqn:E; injection R as <- <-;
      [constructor; assumption |].
    assert (forall r, role_exists db r = true ->
                      role_exists (set_roles (roles db ++ [Roles.Row
                        (next_rowid (roles_seq db) (map Roles.id (roles db)))
                        name (Some description) true (CURRENT_TIMESTAMP e)])
                        (next_rowid (roles_seq db) (map Roles.id (roles db))) db) r = true)
      as Hr.
    { intros r. unfold role_exists. cbn. apply existsb_app_l. }
    constructor; try assumption.
    + cbn. rewrite map_app. cbn. apply NoDup_app_one; [assumption | apply next_rowid_fresh].
    + cbn. rewrite map_app. cbn. apply NoDup_app_one; [assumption |].
      now apply existsb_eqb_false_not_In.
    + eapply refs_transfer; [| exact Hr | exact Kref]. intros ? Hx; exact Hx.
  - (* INSERT OR IGNORE INTO permissions *)
    destruct (existsb _ (permissions db)) eqn:E; injection R as <- <-;
      [constructor; assumption |].
    constructor; try assumption.
    + cbn. rewrite map_app. cbn. apply NoDup_app_one; [assumption | apply next_rowid_fresh].
    + cbn. rewrite map_app. cbn. apply NoDup_app_one; [assumption |].
      now apply existsb_eqb_false_not_In.
  - (* INSERT INTO users *)
    destruct (existsb _ (users db) || existsb _ (users db)) eqn:E; [discriminate |].
    apply orb_false_iff in E. destruct E as [E1 E2].
    injection R as <- <-.
    match goal with
    | |- schema_ok ?d =>
        assert (forall u, user_exists db u = true -> user_exists d u = true) as Hu
    end.
    { intros u. unfold user_exists. cbn. apply existsb_app_l. }
    constructor; try assumption.
    + cbn. rewrite map_app. cbn. apply NoDup_app_one; [assumption | apply next_rowid_fresh].
    + cbn. rewrite map_app. cbn. apply NoDup_app_one; [assumption |].
      now apply existsb_eqb_false_not_In.
    + cbn. rewrite map_app. cbn. apply NoDup_app_one; [assumption |].
      now apply existsb_eqb_false_not_In.
    + eapply refs_transfer; [exact Hu | | exact Sref]. intros ? Hx; exact Hx.
    + eapply refs_transfer; [exact Hu | | exact Kref]. intros ? Hx; exact Hx.
    + eapply refs_transfer; [exact Hu | | exact Lref]. intros ? Hx; exact Hx.
  - (* SELECT id FROM roles *)
    injection R as <- <-. constructor; assumption.
  - (* INSERT OR REPLACE INTO user_roles *)
    destruct (user_exists db user_id && role_exists db role_id
              && user_exists db assigned_by) eqn:E; [| discriminate].
    apply andb_true_iff in E. destruct E as [E E3].
    apply andb_true_iff in E. destruct E as [E1 E2].
    injection R as <- <-.
    constructor; try assumption.
    + exact (user_roles_key_unique_with_user_role db
               (UserRoles.Row user_id role_id assigned_by (CURRENT_TIMESTAMP e) None) Kuniq).
    + cbn. apply Forall_app. split.
      * apply Forall_forall. intros x Hx. apply filter_In in Hx.
        rewrite Forall_forall in Kref. exact (Kref x (proj1 Hx)).
      * constructor; [| constructor]. repeat split; assumption.
  - (* INSERT INTO user_sessions *)
    destruct (existsb _ (user_sessions db)) eqn:E; [discriminate |].
    destruct (user_exists db user_id) eqn:U; [| discriminate].
    injection R as <- <-.
    constructor; try assumption.
    + cbn. rewrite map_app. cbn. apply NoDup_app_one; [assumption |].
      now apply existsb_eqb_false_not_In.
    + cbn. apply Forall_app. split; [exact Sref |]. constructor; [exact U | constructor].
  - (* UPDATE users SET last_login_at *)
    injection R as <- <-.
    destruct (map_id_set_last_login (CURRENT_TIMESTAMP e) id (users db)) as [M1 [M2 M3]].
    match goal with
    | |- schema_ok ?d =>
        assert (forall u, user_exists d u = user_exists db u) as Hu
    end.
    { intros u. unfold user_exists. cbn. now rewrite !existsb_id_map, M1. }
    constructor; try assumption.
    + cbn. now rewrite M1.
    + cbn. now rewrite M2.
    + cbn. now rewrite M3.
    + eapply refs_transfer; [| | exact Sref]; [intros u; now rewrite Hu |].
      intros ? Hx; exact Hx.
    + eapply refs_transfer; [| | exact Kref]; [intros u; now rewrite Hu |].
      intros ? Hx; exact Hx.
    + eapply refs_transfer; [| | exact Lref]; [intros u; now rewrite Hu |].
      intros ? Hx; exact Hx.
  - (* INSERT INTO user_security_logs *)
    destruct (match user_id with Some u => user_exists db u | None => true end) eqn:U;
      [| discriminate].
    injection R as <- <-.
    constructor; try assumption.
    + cbn. rewrite map_app. cbn. apply NoDup_app_one; [assumption | apply next_rowid_fresh].
    + cbn. apply Forall_app. split; [exact Lref |]. constructor; [| constructor].
      unfold log_user_ok. cbn. destruct user_id; [exact U | exact I].
  - (* SELECT * FROM users *)
    injection R as <- <-. constructor; assumption.
  - (* DELETE FROM user_sessions *)
    injection R as <- <-.
    constructor; try assumption.
    + cbn. now apply unique_key_filter.
    + cbn. apply Forall_forall. intros s Hs. apply filter_In in Hs.
      rewrite Forall_forall in Sref. exact (Sref s (proj1 Hs)).
Qed.

(** No statement of the methods removes a role. *)
Lemma run_sql_roles e q db c db' :
  run_sql e q db = inr (c, db') -> incl (roles db) (roles db').
Proof.
  intros R r Hr. destruct q; unfold run_sql in R;
    repeat match type of R with
           | (if ?b then _ else _) = _ => destruct b; try discriminate
           end;
    injection R as <- <-; cbn; try exact Hr.
  apply in_or_app. left. exact Hr.
Qed.

Lemma run_sql_invariant e q db c db' :
  invariant db -> run_sql e q db = inr (c, db') -> invariant db'.
Proof.
  intros [Hs Hd] R. split; [exact (run_sql_schema_ok _ _ _ _ _ Hs R) |].
  intros n Hn. destruct (Hd n Hn) as [r [Hr Hname]].
  exists r. split; [exact (run_sql_roles _ _ _ _ _ R r Hr) | exact Hname].
Qed.

Section Methods.

(** A property every statement keeps is kept by every method. *)
Context (P : database -> Prop).
Context (statements : forall e q db c db', P db -> run_sql e q db = inr (c, db') -> P db').

Lemma keeps_query e q : keeps P (execute_query e q).
Proof. apply keeps_execute_query. intros db c db'. apply statements. Qed.

Lemma keeps_log_security_event e user_id event_type ip_address user_agent success
      failure_reason metadata :
  keeps P (log_security_event e user_id event_type ip_address user_agent success
             failure_reason metadata).
Proof.
  unfold log_security_event. apply keeps_bind.
  - destruct metadata as [[| x d] |]; try apply keeps_ret.
    destruct (Json.dumps (PyDict (x :: d))); [apply keeps_ret | apply keeps_raise].
  - intros column. apply keeps_bind; [apply keeps_query | intros _; apply keeps_ret].
Qed.

Lemma keeps_assign_role_to_user e user_id role_name assigned_by :
  keeps P (assign_role_to_user e user_id role_name assigned_by).
Proof.
  unfold assign_role_to_user. apply keeps_try_except; [| apply keeps_ret].
  apply keeps_bind; [apply keeps_query |]. intros cursor.
  destruct (fetchone (fetched_ids cursor)); [| apply keeps_ret].
  apply keeps_bind; [apply keeps_query | intros _; apply keeps_ret].
Qed.

Lemma keeps_create_user e username email password first_name last_name :
  keeps P (create_user e username email password first_name last_name).
Proof.
  unfold create_user. destruct (hash_password e password None) as [password_hash salt].
  apply keeps_try_except; [| apply keeps_ret].
  apply keeps_bind; [apply keeps_query |]. intros cursor.
  apply keeps_bind; [apply keeps_assign_role_to_user |]. intros _.
  apply keeps_bind; [apply keeps_log_security_event | intros _; apply keeps_ret].
Qed.

Lemma keeps_create_session e user_id device_info ip_address duration_hours :
  keeps P (create_session e user_id device_info ip_address duration_hours).
Proof.
  unfold create_session.
  destruct (datetime_add (datetime_now e) (timedelta_hours duration_hours));
    [| apply keeps_raise].
  apply keeps_bind; [apply keeps_query |]. intros _.
  apply keeps_bind; [apply keeps_query |]. intros _.
  apply keeps_bind; [apply keeps_log_security_event | intros _; apply keeps_ret].
Qed.

Lemma keeps_authenticate_user e email password :
  keeps P (authenticate_user e email password).
Proof.
  unfold authenticate_user, get_user_by_email.
  apply keeps_bind.
  - apply keeps_bind; [apply keeps_query | intros c; apply keeps_ret].
  - intros [u |].
    + destruct (verify_password e password (Users.password_hash u) (Users.salt u));
        [apply keeps_ret |].
      apply keeps_bind; [apply keeps_log_security_event | intros _; apply keeps_ret].
    + apply keeps_bind; [apply keeps_log_security_event | intros _; apply keeps_ret].
Qed.

Lemma keeps_cleanup_expired_sessions e : keeps P (cleanup_expired_sessions e).
Proof.
  unfold cleanup_expired_sessions.
  apply keeps_bind; [apply keeps_query | intros c; apply keeps_ret].
Qed.

Lemma keeps_init e : keeps P (init e).
Proof.
  unfold init, create_default_roles_and_permissions.
  apply keeps_bind; [| intros _]; apply keeps_for_each.
  - intros [role_name description].
    apply keeps_try_except; [| apply keeps_ret].
    apply keeps_bind; [apply keeps_query | intros _; apply keeps_ret].
  - intros [[[perm_name description] resource] action].
    apply keeps_try_except; [| apply keeps_ret].
    apply keeps_bind; [apply keeps_query | intros _; apply keeps_ret].
Qed.

End Methods.

(** The constructor leaves the default roles in [roles]. *)
Lemma insert_default_roles e (l : list (string * string)) :
  forall db,
    let r := for_each l (fun '(role_name, description) =>
               try_except
                 (execute_query e (INSERT_OR_IGNORE_INTO_roles role_name description) ;;
                  ret tt)
                 is_sqlite3_Error (ret tt)) db in
    fst r = Return tt
    /\ incl (roles db) (roles (snd r))
    /\ forall n, In n (map fst l) -> has_role (snd r) n.
Proof.
  set (body := fun '(role_name, description) =>
                 try_except
                   (execute_query e (INSERT_OR_IGNORE_INTO_roles role_name description) ;;
                    ret tt)
                   is_sqlite3_Error (ret tt)).
  induction l as [| [name description] l IH]; intros db; cbn zeta.
  - cbn. repeat split; [apply incl_refl | intros n []].
  - destruct (run_sql e (INSERT_OR_IGNORE_INTO_roles name description) db)
      as [x | [c db1]] eqn:R.
    { unfold run_sql in R. destruct (existsb _ (roles db)); discriminate. }
    assert (for_each ((name, description) :: l) body db = for_each l body db1) as ->.
    { cbn [for_each]. unfold bind at 1. unfold body at 1.
      unfold try_except, bind, execute_query. rewrite R. reflexivity. }
    destruct (IH db1) as [H1 [H2 H3]].
    split; [exact H1 |].
    assert (incl (roles db) (roles db1)) as Hincl by exact (run_sql_roles _ _ _ _ _ R).
    split; [exact (incl_tran Hincl H2) |].
    intros n [<- | Hn]; [| now apply H3]. cbn [fst].
    assert (has_role db1 name) as [r [Hr Hname]].
    { unfold run_sql in R. destruct (existsb _ (roles db)) eqn:E; injection R as <- <-.
      - apply existsb_exists in E. destruct E as [r [Hr E]].
        exists r. split; [exact Hr | now apply String.eqb_eq].
      - eexists. split; [cbn; apply in_or_app; right; left; reflexivity | reflexivity]. }
    exists r. split; [apply H2; exact Hr | exact Hname].
Qed.

Lemma schema_ok_empty : schema_ok empty_database.
Proof. constructor; cbn; constructor. Qed.

Lemma init_invariant e db : schema_ok db -> invariant (snd (init e db)).
Proof.
  intros Hs. split; [exact (keeps_init schema_ok run_sql_schema_ok e db Hs) |].
  intros n Hn. unfold init, create_default_roles_and_permissions, bind.
  match goal with
  | |- has_role (snd (match ?m with _ => _ end)) _ =>
      assert (fst m = Return tt
              /\ forall k, In k (map fst default_roles) -> has_role (snd m) k)
        as [H1 H3]
        by (destruct (insert_default_roles e default_roles db) as [A [_ B]];
            split; [exact A | exact B]);
      destruct m as [[[] | x] db1]; [| discriminate H1]
  end.
  cbn [snd] in H3.
  apply (keeps_for_each (fun d => has_role d n)); [| exact (H3 n Hn)].
  intros [[[perm_name description] resource] action].
  apply keeps_try_except; [| apply keeps_ret].
  apply keeps_bind; [| intros _; apply keeps_ret].
  apply keeps_execute_query. intros d c d' [r [Hr Hname]] R.
  exists r. split; [exact (run_sql_roles _ _ _ _ _ R r Hr) | exact Hname].
Qed.

(** Every store a [DatabaseManager] can hold satisfies the invariant. *)
Lemma reachable_invariant db : reachable db -> invariant db.
Proof.
  induction 1 as [e | e db _ IH | e a b c d f db _ IH | e a b c db _ IH
                  | e a b c d db _ IH | e a b c d f g h db _ IH | e a b db _ IH
                  | e db _ IH].
  - apply init_invariant, schema_ok_empty.
  - apply init_invariant, IH.
  - exact (keeps_create_user invariant run_sql_invariant _ _ _ _ _ _ db IH).
  - exact (keeps_assign_role_to_user invariant run_sql_invariant _ _ _ _ db IH).
  - exact (keeps_create_session invariant run_sql_invariant _ _ _ _ _ db IH).
  - exact (keeps_log_security_event invariant run_sql_invariant _ _ _ _ _ _ _ _ db IH).
  - exact (keeps_authenticate_user invariant run_sql_invariant _ _ _ db IH).
  - exact (keeps_cleanup_expired_sessions invariant run_sql_invariant _ db IH).
Qed.

Lemma user_exists_In db i :
  user_exists db i = true <-> In i (map Users.id (users db)).
Proof.
  unfold user_exists. rewrite existsb_exists, in_map_iff. split.
  - intros [u [Hin E]]. exists u. split; [now apply Z.eqb_eq | exact Hin].
  - intros [u [E Hin]]. exists u. split; [exact Hin | now apply Z.eqb_eq].
Qed.

(** C4: on a store a [DatabaseManager] can hold, [create_user] with a
    username and an email no user has returns the id of the one row it adds to
    [users]; the row carries the hash and the salt [hash_password] returns for
    the password; the new user gets the role user in [user_roles], assigned by
    the user itself; and one user_created entry for the user is appended to
    the security log. *)
Theorem create_user_fresh e username email password first_name last_name db :
  reachable db ->
  (forall u, In u (users db) ->
             Users.username u <> username /\ Users.email u <> email) ->
  let r := create_user e username email password first_name last_name db in
  let u := user_row e db username email password first_name last_name in
  exists role_id,
    role_id_of db "user" = Some role_id
    /\ fst r = Return (Some (Users.id u))
    /\ users (snd r) = users db ++ [u]
    /\ ~ In (Users.id u) (map Users.id (users db))
    /\ Users.username u = username
    /\ Users.email u = email
    /\ Users.password_hash u = fst (hash_password e password None)
    /\ Users.salt u = Some (snd (hash_password e password None))
    /\ user_roles (snd r)
       = user_roles db ++ [user_role_row e (Users.id u) role_id (Users.id u)]
    /\ user_security_logs (snd r)
       = user_security_logs db
         ++ [log_row e db (Some (Users.id u)) "user_created" None None true None None]
    /\ user_sessions (snd r) = user_sessions db
    /\ roles (snd r) = roles db.
Proof.
  intros Hreach Hfresh r u. subst r.
  destruct (reachable_invariant db Hreach) as [Hs Hd].
  assert (has_role db "user") as Hrole by (apply Hd; cbn; tauto).
  apply role_id_of_has_role in Hrole. destruct Hrole as [role_id Hrole].
  exists role_id. split; [exact Hrole |].
  rewrite create_user_eq.
  assert (username_taken db username || email_taken db email = false) as ->.
  { apply orb_false_iff. unfold username_taken, email_taken.
    split; apply not_true_is_false; intros E; apply existsb_exists in E;
      destruct E as [x [Hx E]]; apply String.eqb_eq in E;
      destruct (Hfresh x Hx) as [A B]; congruence. }
  cbn zeta. fold u.
  assert (~ In (Users.id u) (map Users.id (users db))) as Hnew
    by apply next_rowid_fresh.
  rewrite assign_role_to_user_eq.
  assert (role_id_of (with_user db u) "user" = Some role_id) as -> by exact Hrole.
  rewrite user_exists_with_user. cbn [andb fst snd].
  split; [reflexivity |]. split; [reflexivity |]. split; [exact Hnew |].
  repeat (split; [reflexivity |]).
  split; [| repeat split].
  unfold with_log, with_user_role, with_user.
  cbn [user_roles set_user_security_logs set_user_roles set_users
       user_role_row UserRoles.user_id UserRoles.role_id].
  f_equal. apply filter_keep_all. intros x Hx. apply negb_true_iff.
  destruct (UserRoles.has_key (Users.id u) role_id x) eqn:K; [| reflexivity].
  apply has_key_iff in K. injection K as K1 K2.
  elim Hnew. apply user_exists_In.
  pose proof (user_roles_refs db Hs) as Hrefs. rewrite Forall_forall in Hrefs.
  destruct (Hrefs x Hx) as [Hu _]. now rewrite K1 in Hu.
Qed.

Lemma create_user_fresh_witness :
  reachable db_new
  /\ (forall u, In u (users db_new) ->
                Users.username u <> "johndoe" /\ Users.email u <> "john@example.com")
  /\ fst (create_user env0 "johndoe" "john@example.com" "password123"
            (Some "John") (Some "Doe") db_new) = Return (Some 1)
  /\ user_roles (snd (create_user env0 "johndoe" "john@example.com" "password123"
                        (Some "John") (Some "Doe") db_new))
     = [user_role_row env0 1 3 1].
Proof.
  assert (reachable db_new) as Hreach by apply reach_new.
  assert (forall u, In u (users db_new) ->
                    Users.username u <> "johndoe" /\ Users.email u <> "john@example.com")
    as Hfresh.
  { assert (users db_new = []) as Hu by (vm_compute; reflexivity).
    intros u Hin. rewrite Hu in Hin. destruct Hin. }
 
  destruct (create_user_fresh env0 "johndoe" "john@example.com" "password123"
              (Some "John") (Some "Doe") db_new Hreach Hfresh)
    as [role_id [H0 [H1 [_ [_ [_ [_ [_ [_ [H2 _]]]]]]]]]].
  assert (role_id = 3) as -> by (vm_compute in H0; congruence).
  split; [exact Hreach |]. split; [exact Hfresh |]. split; [exact H1 | exact H2].
Defined.

(* --------------------------------------------------------------------- *)
(** ** Authentication *)

Lemma get_user_by_email_eq e email db :
  get_user_by_email e email db = (Return (find_active_user db email), db).
Proof. reflexivity. Qed.

Lemma find_active_user_In db email u :
  find_active_user db email = Some u ->
  In u (users db) /\ Users.email u = email
  /\ Users.is_active u = true /\ Users.is_deleted u = false.
Proof.
  unfold find_active_user, fetchone. intros H.
  destruct (filter (active_with_email email) (users db)) as [| x l] eqn:F;
    [discriminate |].
  injection H as ->.
  assert (In u (u :: l)) as Hin by (left; reflexivity).
  rewrite <- F in Hin. apply filter_In in Hin. destruct Hin as [Hin Hp].
  unfold active_with_email in Hp.
  apply andb_true_iff in Hp. destruct Hp as [Hp Hd].
  apply andb_true_iff in Hp. destruct Hp as [He Ha].
  apply String.eqb_eq in He. apply negb_true_iff in Hd. tauto.
Qed.

Lemma find_active_user_None db email u :
  find_active_user db email = None ->
  In u (users db) -> Users.email u = email ->
  Users.is_active u = true -> Users.is_deleted u = false -> False.
Proof.
  unfold find_active_user, fetchone. intros H Hin He Ha Hd.
  destruct (filter (active_with_email email) (users db)) as [| x l] eqn:F;
    [| discriminate].
  assert (In u []) as [].
  rewrite <- F. apply filter_In. split; [exact Hin |].
  unfold active_with_email. rewrite Ha, Hd. cbn [negb].
  rewrite !andb_true_r. now apply String.eqb_eq.
Qed.

(** Rows of a table are told apart by a unique column. *)
Lemma unique_column_eq {V K : Type} (key : V -> K) (rows : list V) (x y : V) :
  NoDup (map key rows) -> In x rows -> In y rows -> key x = key y -> x = y.
Proof.
  induction rows as [| z rows IH]; cbn; [intros _ [] |].
  intros Hnd Hx Hy E. inversion Hnd as [| ? ? Hz Hrest]; subst.
  destruct Hx as [-> | Hx], Hy as [-> | Hy].
  - reflexivity.
  - elim Hz. rewrite E. now apply in_map.
  - elim Hz. rewrite <- E. now apply in_map.
  - now apply IH.
Qed.

(** What [authenticate_user] does, case by case: it never raises. *)
Lemma authenticate_user_eq e email password db :
  authenticate_user e email password db
  = match find_active_user db email with
    | None =>
        (Return None,
         with_log db (log_row e db None "login_failed" None None true
                        (Some "User not found") None))
    | Some u =>
        if verify_password e password (Users.password_hash u) (Users.salt u)
        then (Return (Some u), db)
        else
          (Return None,
           with_log db (log_row e db (Some (Users.id u)) "login_failed" None None true
                          (Some "Invalid password") None))
    end.
Proof.
  unfold authenticate_user. unfold bind at 1. rewrite get_user_by_email_eq.
  destruct (find_active_user db email) as [u |] eqn:F.
  - destruct (verify_password e password (Users.password_hash u) (Users.salt u));
      [reflexivity |].
    unfold bind. rewrite log_security_event_eq. cbn [metadata_column user_ref_ok].
    assert (user_exists db (Users.id u) = true) as ->; [| reflexivity].
    apply user_exists_In. apply in_map. now apply find_active_user_In in F.
  - unfold bind. rewrite log_security_event_eq. reflexivity.
Qed.

(** C1: on a store whose emails are unique (the UNIQUE constraint of
    [users.email]), [authenticate_user] returns a user record exactly when
    that record is the stored row of an active, non-deleted user with the
    given email and the password verifies against the row's hash and salt;
    when there is no such user it returns None and appends a login_failed
    entry with reason User not found; when there is one and the password does
    not verify it returns None and appends a login_failed entry for that user
    with reason Invalid password; it never raises and never touches
    [user_sessions]. *)
Theorem authenticate_user_spec e email password db :
  NoDup (map Users.email (users db)) ->
  let r := authenticate_user e email password db in
  let stored u := In u (users db) /\ Users.email u = email
                  /\ Users.is_active u = true /\ Users.is_deleted u = false in
  let verifies u :=
    verify_password e password (Users.password_hash u) (Users.salt u) in
  (forall u, fst r = Return (Some u) <-> stored u /\ verifies u = true)
  /\ (forall u, stored u -> verifies u = true -> r = (Return (Some u), db))
  /\ ((forall u, ~ stored u) ->
      fst r = Return None
      /\ user_security_logs (snd r)
         = user_security_logs db
           ++ [log_row e db None "login_failed" None None true
                 (Some "User not found") None])
  /\ (forall u, stored u -> verifies u = false ->
      fst r = Return None
      /\ user_security_logs (snd r)
         = user_security_logs db
           ++ [log_row e db (Some (Users.id u)) "login_failed" None None true
                 (Some "Invalid password") None])
  /\ user_sessions (snd r) = user_sessions db
  /\ users (snd r) = users db
  /\ (exists result, fst r = Return result).
Proof.
  intros Hunique r stored verifies. subst r.
  rewrite authenticate_user_eq.
  assert (forall u v, find_active_user db email = Some u -> stored v -> v = u) as Hsame.
  { intros u v F [Hin [He _]]. apply find_active_user_In in F.
    destruct F as [Hin' [He' _]].
    apply (unique_column_eq Users.email (users db)); congruence. }
  destruct (find_active_user db email) as [u0 |] eqn:F.
  - pose proof (find_active_user_In _ _ _ F) as Hstored. fold (stored u0) in Hstored.
    fold (verifies u0).
    split; [| split; [| split; [| split]]].
    + intros u. destruct (verifies u0) eqn:V; cbn [fst]; split.
      * intros [= <-]. split; assumption.
      * intros [Hs _]. now rewrite (Hsame u0 u eq_refl Hs).
      * discriminate.
      * intros [Hs Hv]. rewrite (Hsame u0 u eq_refl Hs) in Hv. congruence.
    + intros u Hs Hv. rewrite (Hsame u0 u eq_refl Hs) in *. now rewrite Hv.
    + intros Hnone. elim (Hnone u0 Hstored).
    + intros u Hs Hv. rewrite (Hsame u0 u eq_refl Hs) in *. rewrite Hv.
      split; reflexivity.
    + destruct (verifies u0); repeat split; eexists; reflexivity.
  - split; [| split; [| split; [| split]]].
    + intros u. cbn [fst]. split; [discriminate |].
      intros [[Hin [He [Ha Hd]]] _].
      elim (find_active_user_None _ _ _ F Hin He Ha Hd).
    + intros u [Hin [He [Ha Hd]]] _.
      elim (find_active_user_None _ _ _ F Hin He Ha Hd).
    + intros _. split; reflexivity.
    + intros u [Hin [He [Ha Hd]]] _.
      elim (find_active_user_None _ _ _ F Hin He Ha Hd).
    + repeat split. eexists; reflexivity.
Qed.

Lemma authenticate_user_spec_witness :
  NoDup (map Users.email (users db_john))
  /\ fst (authenticate_user env1 "jane@example.com" "password123" db_john) = Return None
  /\ user_security_logs (snd (authenticate_user env1 "jane@example.com" "password123"
                                db_john))
     = [log_row env1 db_john None "login_failed" None None true
          (Some "User not found") None]
  /\ user_sessions (snd (authenticate_user env1 "jane@example.com" "password123"
                           db_john)) = [].
Proof.
  assert (NoDup (map Users.email (users db_john))) as Hunique
    by (cbn; constructor; [intros [] | constructor]).
  destruct (authenticate_user_spec env1 "jane@example.com" "password123" db_john Hunique)
    as [_ [_ [Hnone [_ [Hsessions _]]]]].
  assert (forall u,
             ~ (In u (users db_john) /\ Users.email u = "jane@example.com"
                /\ Users.is_active u = true /\ Users.is_deleted u = false)) as Hno.
  { intros u [[<- | []] [He _]]. discriminate He. }
  destruct (Hnone Hno) as [H1 H2].
  split; [exact Hunique |]. split; [exact H1 |]. split; [exact H2 | exact Hsessions].
Defined.

(* --------------------------------------------------------------------- *)
(** ** More on password hashing *)

Section HashFormat.

#[local] Transparent PBKDF2.pbkdf2_hmac_sha256.

Lemma be_bytes_length (n : nat) (x : Z) : List.length (SHA256.be_bytes n x) = n.
Proof. induction n as [| n IH]; cbn; [reflexivity | now rewrite IH]. Qed.

Lemma sha256_length (msg : bytes) : List.length (SHA256.sha256 msg) = 32%nat.
Proof.
  unfold SHA256.sha256, SHA256.digest_bytes. cbn [flat_map].
  rewrite !length_app, !be_bytes_length. reflexivity.
Qed.

Lemma xor_bytes_length (a : bytes) :
  forall b, List.length a = List.length b ->
            List.length (PBKDF2.xor_bytes a b) = List.length a.
Proof.
  induction a as [| x a IH]; intros [| y b] E; cbn in *; try discriminate;
    [reflexivity |].
  f_equal. apply IH. now injection E.
Qed.

Lemma pbkdf2_length (password salt : bytes) (c : N) :
  List.length (PBKDF2.pbkdf2_hmac_sha256 password salt c) = 32%nat.
Proof.
  unfold PBKDF2.pbkdf2_hmac_sha256, PBKDF2.first_block.
  set (prf := HMAC.hmac_sha256 password).
  assert (forall m, List.length (prf m) = 32%nat) as Hprf
    by (intros m; apply sha256_length).
  apply (N.iter_invariant (c - 1) _ (PBKDF2.step prf)
           (fun st => List.length (snd st) = 32%nat)).
  - intros [u t] Ht. unfold PBKDF2.step. cbn [fst snd] in *.
    rewrite xor_bytes_length; [exact Ht |]. rewrite Ht, Hprf. reflexivity.
  - cbn [snd]. apply Hprf.
Qed.

End HashFormat.

#[global] Opaque PBKDF2.pbkdf2_hmac_sha256.

Lemma hex_length (b : bytes) : String.length (hex b) = (2 * List.length b)%nat.
Proof. induction b as [| x b IH]; cbn [hex String.length List.length]; lia. Qed.

Lemma hex_digit_in_digits (d : Z) :
  0 <= d < 16 -> In (hex_digit d) (list_ascii_of_string hex_digits).
Proof.
  intros H.
  assert (d = 0 \/ d = 1 \/ d = 2 \/ d = 3 \/ d = 4 \/ d = 5 \/ d = 6 \/ d = 7 \/
          d = 8 \/ d = 9 \/ d = 10 \/ d = 11 \/ d = 12 \/ d = 13 \/ d = 14 \/ d = 15)
    as Hd by lia.
  repeat (destruct Hd as [-> | Hd]; [cbn; tauto |]).
  subst d. cbn. tauto.
Qed.

Lemma hex_chars (b : bytes) :
  Forall is_byte b ->
  forall c, In c (list_ascii_of_string (hex b)) -> In c (list_ascii_of_string hex_digits).
Proof.
  induction 1 as [| x b Hx Hb IH]; cbn [hex list_ascii_of_string]; intros c Hc;
    [destruct Hc |].
  unfold is_byte in Hx.
  destruct Hc as [<- | [<- | Hc]]; [| | now apply IH].
  - apply hex_digit_in_digits.
    split; [apply Z.div_pos | apply Z.div_lt_upper_bound]; lia.
  - apply hex_digit_in_digits. apply Z.mod_pos_bound. lia.
Qed.

(** X1: the hash [hash_password] returns is a string of 64 lowercase
    hexadecimal digits, whatever the password and the salt; the salt it
    returns is the one it was given, or the generated token when it was given
    none. *)
Theorem hash_password_format (e : env) (password : string) (salt : option string) :
  String.length (fst (hash_password e password salt)) = 64%nat
  /\ (forall c, In c (list_ascii_of_string (fst (hash_password e password salt))) ->
                In c (list_ascii_of_string hex_digits))
  /\ snd (hash_password e password salt)
     = match salt with Some s => s | None => token_hex_32 e end.
Proof.
  unfold hash_password. cbn [fst snd]. split; [| split; [| reflexivity]].
  - rewrite hex_length, pbkdf2_length. reflexivity.
  - apply hex_chars, pbkdf2_is_byte.
Qed.

Lemma encode_utf8_app (a b : string) :
  encode_utf8 (a ++ b) = encode_utf8 a ++ encode_utf8 b.
Proof.
  unfold encode_utf8. induction a as [| c a IH]; cbn; [reflexivity |].
  now rewrite IH.
Qed.

Lemma encode_utf8_length (a : string) : List.length (encode_utf8 a) = String.length a.
Proof.
  unfold encode_utf8. induction a as [| c a IH]; cbn; [reflexivity | now rewrite IH].
Qed.

Lemma key_block_nul_padded (p : string) :
  (String.length p < 64)%nat ->
  HMAC.key_block (encode_utf8 (nul_padded p)) = HMAC.key_block (encode_utf8 p).
Proof.
  intros Hlen. unfold nul_padded. rewrite encode_utf8_app.
  change (encode_utf8 (String zero "")) with [0].
  unfold HMAC.key_block, HMAC.block_size. cbv zeta.
  rewrite length_app, encode_utf8_length. cbn [List.length].
  assert ((64 <? String.length p + 1)%nat = false) as H1 by (apply Nat.ltb_ge; lia).
  assert ((64 <? String.length p)%nat = false) as H2 by (apply Nat.ltb_ge; lia).
  rewrite H1, H2, length_app, encode_utf8_length. cbn [List.length].
  rewrite <- app_assoc. apply (f_equal (app (encode_utf8 p))).
  assert (64 - String.length p = S (64 - (String.length p + 1)))%nat as -> by lia.
  reflexivity.
Qed.

(** X2: a password of fewer than 64 bytes and the same password followed by
    a NUL character hash alike under every salt, so [verify_password] and
    [authenticate_user] do not tell them apart. *)
Theorem nul_padded_password_equivalent (e : env) (p : string) :
  (String.length p < 64)%nat ->
  (forall salt, hash_password e (nul_padded p) salt = hash_password e p salt)
  /\ (forall h salt, verify_password e (nul_padded p) h salt = verify_password e p h salt)
  /\ (forall email db,
        authenticate_user e email (nul_padded p) db = authenticate_user e email p db).
Proof.
  intros Hlen.
  assert (forall salt, hash_password e (nul_padded p) salt = hash_password e p salt) as Hh.
  { intros salt. unfold hash_password.
    set (s := match salt with Some s => s | None => token_hex_32 e end).
    rewrite (pbkdf2_key_block (encode_utf8 (nul_padded p)) (encode_utf8 p)
               (encode_utf8 s) iterations (key_block_nul_padded p Hlen)).
    reflexivity. }
  assert (forall h salt,
             verify_password e (nul_padded p) h salt = verify_password e p h salt) as Hv.
  { intros h salt. unfold verify_password. rewrite Hh. reflexivity. }
  split; [exact Hh |]. split; [exact Hv |].
  intros email db. rewrite !authenticate_user_eq.
  destruct (find_active_user db email) as [u |]; [| reflexivity].
  rewrite Hv. reflexivity.
Qed.

Lemma nul_padded_password_equivalent_witness :
  (String.length "password123" < 64)%nat
  /\ hash_password env0 (nul_padded "password123") (Some "s")
     = hash_password env0 "password123" (Some "s").
Proof.
  assert (String.length "password123" < 64)%nat as H by (cbn; lia).
  split; [exact H |].
  exact (proj1 (nul_padded_password_equivalent env0 "password123" H) (Some "s")).
Defined.

(* --------------------------------------------------------------------- *)
(** ** More on account creation *)

(** What a successful [create_user] leaves behind. *)
Lemma create_user_success e username email password first_name last_name db id db1 :
  create_user e username email password first_name last_name db
  = (Return (Some id), db1) ->
  let u := user_row e db username email password first_name last_name in
  username_taken db username = false
  /\ email_taken db email = false
  /\ id = Users.id u
  /\ users db1 = users db ++ [u]
  /\ users_seq db1 = id
  /\ user_sessions db1 = user_sessions db
  /\ roles db1 = roles db.
Proof.
  rewrite create_user_eq.
  destruct (username_taken db username || email_taken db email) eqn:T;
    [discriminate |].
  apply orb_false_iff in T. destruct T as [T1 T2].
  cbn zeta. set (u := user_row e db username email password first_name last_name).
  destruct (assign_role_to_user_returns e (Users.id u) "user" (Users.id u)
              (with_user db u) (user_exists_with_user db u)
              (user_exists_with_user db u)) as [b [db2 [A [Hu [Hseq [Hr [Hs _]]]]]]].
  rewrite A. cbn [snd]. intros [= <- <-].
  unfold with_log. cbn [users users_seq user_sessions roles set_user_security_logs].
  rewrite Hu, Hseq, Hr, Hs. repeat split; assumption.
Qed.

Lemma fst_create_user_jane :
  fst (create_user env1 "janedoe" "jane@example.com" "securepass456"
         (Some "Jane") (Some "Doe") db_john) = Return (Some 2).
Proof.
  rewrite create_user_eq.
  assert (username_taken db_john "janedoe" || email_taken db_john "jane@example.com"
          = false) as -> by (vm_compute; reflexivity).
  cbn zeta. cbn [fst]. unfold user_row. cbn [Users.id].
  assert (next_rowid (users_seq db_john) (map Users.id (users db_john)) = 2) as ->
    by (vm_compute; reflexivity).
  reflexivity.
Qed.

(** The sample sign-up succeeds with id 2. *)
Lemma create_user_jane :
  create_user env1 "janedoe" "jane@example.com" "securepass456"
    (Some "Jane") (Some "Doe") db_john = (Return (Some 2), db_jane).
Proof.
  unfold db_jane. rewrite <- fst_create_user_jane. apply surjective_pairing.
Qed.

(** X3: [create_user] never raises; it returns None exactly when a user with
    the username or with the email exists, and then leaves the store as it
    was; otherwise it returns an id. *)
Theorem create_user_outcome e username email password first_name last_name db :
  let r := create_user e username email password first_name last_name db in
  let taken := exists u, In u (users db)
                         /\ (Users.username u = username \/ Users.email u = email) in
  (exists result, fst r = Return result)
  /\ (fst r = Return None <-> taken)
  /\ ((exists id, fst r = Return (Some id)) <-> ~ taken)
  /\ (fst r = Return None -> snd r = db).
Proof.
  intros r taken. subst r.
  assert (username_taken db username || email_taken db email = true <-> taken) as Ht.
  { unfold taken, username_taken, email_taken.
    rewrite orb_true_iff, !existsb_exists. split.
    - intros [[u [Hin E]] | [u [Hin E]]]; apply String.eqb_eq in E; exists u; tauto.
    - intros [u [Hin [E | E]]]; [left | right]; exists u;
        (split; [exact Hin | now apply String.eqb_eq]). }
  rewrite create_user_eq.
  destruct (username_taken db username || email_taken db email); cbn [fst snd].
  - assert taken as T by now apply Ht.
    split; [eexists; reflexivity |]. split; [tauto |]. split; [| reflexivity].
    split; [intros [id H]; discriminate H | tauto].
  - assert (~ taken) as T by (intros T; apply Ht in T; discriminate T).
    split; [eexists; reflexivity |]. split; [split; [discriminate | tauto] |].
    split; [| discriminate]. split; [intros _; exact T | intros _; eexists; reflexivity].
Qed.

(** X4: the id a successful [create_user] returns is larger than the id of
    every row of [users] and than every id the table gave out before, so a
    later sign-up gets a larger id still. *)
Theorem create_user_id_increases e username email password first_name last_name
        db id db1 :
  create_user e username email password first_name last_name db
  = (Return (Some id), db1) ->
  (forall u, In u (users db) -> Users.id u < id)
  /\ users_seq db < id
  /\ users_seq db1 = id
  /\ (forall e2 username2 email2 password2 first_name2 last_name2 id2 db2,
        create_user e2 username2 email2 password2 first_name2 last_name2 db1
        = (Return (Some id2), db2) -> id < id2).
Proof.
  intros H.
  assert (forall e0 a b c d f db0 i db',
             create_user e0 a b c d f db0 = (Return (Some i), db') ->
             (forall u, In u (users db0) -> Users.id u < i) /\ users_seq db0 < i) as Hgt.
  { intros e0 a b c d f db0 i db' H0.
    destruct (create_user_success _ _ _ _ _ _ _ _ _ H0) as [_ [_ [-> _]]].
    unfold user_row. cbn [Users.id]. unfold next_rowid.
    destruct (fold_max_ge (users_seq db0) (map Users.id (users db0))) as [H1 H2].
    split; [| lia]. intros u Hu. rewrite Forall_forall in H2.
    specialize (H2 (Users.id u) (in_map Users.id _ _ Hu)). lia. }
  destruct (Hgt _ _ _ _ _ _ _ _ _ H) as [H1 H2].
  destruct (create_user_success _ _ _ _ _ _ _ _ _ H) as [_ [_ [_ [_ [Hseq _]]]]].
  split; [exact H1 |]. split; [exact H2 |]. split; [exact Hseq |].
  intros e2 a b c d f id2 db2 H'.
  destruct (Hgt _ _ _ _ _ _ _ _ _ H') as [_ H3]. rewrite Hseq in H3. exact H3.
Qed.

Lemma create_user_id_increases_witness :
  create_user env1 "janedoe" "jane@example.com" "securepass456"
    (Some "Jane") (Some "Doe") db_john = (Return (Some 2), db_jane)
  /\ (forall u, In u (users db_john) -> Users.id u < 2)
  /\ users_seq db_jane = 2.
Proof.
  destruct (create_user_id_increases _ _ _ _ _ _ _ _ _ create_user_jane)
    as [H1 [_ [H2 _]]].
  split; [exact create_user_jane |]. split; [exact H1 | exact H2].
Defined.

Lemma email_taken_appended db db1 u :
  users db1 = users db ++ [u] ->
  email_taken db1 (Users.email u) = true /\ username_taken db1 (Users.username u) = true.
Proof.
  intros Hu. unfold email_taken, username_taken. rewrite Hu, !existsb_app. cbn.
  rewrite !String.eqb_refl, !orb_true_r. split; reflexivity.
Qed.

(** X5: after a successful [create_user], a sign-up with the same username or
    the same email returns None and leaves the store, the first user's row
    included, as it was. *)
Theorem create_user_twice e username email password first_name last_name db id db1 :
  create_user e username email password first_name last_name db
  = (Return (Some id), db1) ->
  In (user_row e db username email password first_name last_name) (users db1)
  /\ forall e2 username2 email2 password2 first_name2 last_name2,
       username2 = username \/ email2 = email ->
       create_user e2 username2 email2 password2 first_name2 last_name2 db1
       = (Return None, db1).
Proof.
  intros H. destruct (create_user_success _ _ _ _ _ _ _ _ _ H) as [_ [_ [_ [Hu _]]]].
  split; [rewrite Hu; apply in_or_app; right; left; reflexivity |].
  intros e2 username2 email2 password2 first_name2 last_name2 Hdup.
  destruct (email_taken_appended _ _ _ Hu) as [He Hn].
  unfold user_row in He, Hn. cbn [Users.email Users.username] in He, Hn.
  rewrite create_user_eq.
  destruct Hdup as [-> | ->]; [rewrite Hn | rewrite He, orb_true_r]; reflexivity.
Qed.

Lemma create_user_twice_witness :
  create_user env1 "janedoe" "jane@example.com" "securepass456"
    (Some "Jane") (Some "Doe") db_john = (Return (Some 2), db_jane)
  /\ create_user env0 "jane" "jane@example.com" "another" None None db_jane
     = (Return None, db_jane).
Proof.
  split; [exact create_user_jane |].
  apply (proj2 (create_user_twice _ _ _ _ _ _ _ _ _ create_user_jane)).
  right. reflexivity.
Defined.

(* --------------------------------------------------------------------- *)
(** ** Sign-up, then lookup and login *)

Lemma find_active_user_appended db db1 u email :
  users db1 = users db ++ [u] ->
  email_taken db email = false ->
  active_with_email email u = true ->
  find_active_user db1 email = Some u.
Proof.
  intros Hu Hfree Hact. unfold find_active_user. rewrite Hu, filter_app.
  rewrite (filter_none (active_with_email email) (users db)).
  - cbn. rewrite Hact. reflexivity.
  - intros x Hx. unfold active_with_email.
    assert (String.eqb (Users.email x) email = false) as ->; [| reflexivity].
    apply not_true_is_false. intros E.
    assert (email_taken db email = true) as T; [| congruence].
    unfold email_taken. apply existsb_exists. exists x. split; assumption.
Qed.

Lemma find_active_user_other_email db db1 u email :
  users db1 = users db ++ [u] ->
  Users.email u <> email ->
  find_active_user db1 email = find_active_user db email.
Proof.
  intros Hu Hne. unfold find_active_user. rewrite Hu, filter_app. cbn [filter].
  assert (active_with_email email u = false) as ->; [| now rewrite app_nil_r].
  unfold active_with_email.
  assert (String.eqb (Users.email u) email = false) as -> by now apply String.eqb_neq.
  reflexivity.
Qed.

Lemma verify_password_own_hash e e2 password salt :
  verify_password e2 password (fst (hash_password e password salt))
    (Some (snd (hash_password e password salt))) = true.
Proof.
  unfold verify_password, hash_password. cbn [fst snd]. apply String.eqb_refl.
Qed.

(** X6: after a successful [create_user], [get_user_by_email] with the email
    returns the new row, which carries the returned id, the username and the
    email, and is active; the lookup of any other email gives what it gave
    before; the lookup changes nothing. *)
Theorem get_user_by_email_after_create_user e username email password first_name
        last_name db id db1 :
  create_user e username email password first_name last_name db
  = (Return (Some id), db1) ->
  forall e2,
    let u := user_row e db username email password first_name last_name in
    get_user_by_email e2 email db1 = (Return (Some u), db1)
    /\ Users.id u = id
    /\ Users.username u = username
    /\ Users.email u = email
    /\ Users.is_active u = true
    /\ Users.is_deleted u = false
    /\ Users.last_login_at u = None
    /\ (forall email2, email2 <> email ->
          get_user_by_email e2 email2 db1 = (Return (find_active_user db email2), db1)).
Proof.
  intros H e2 u.
  destruct (create_user_success _ _ _ _ _ _ _ _ _ H) as [_ [Hfree [Hid [Hu _]]]].
  fold u in Hid, Hu. rewrite !get_user_by_email_eq.
  split; [| repeat split; try reflexivity; [now symmetry |]].
  - rewrite (find_active_user_appended db db1 u email Hu Hfree); [reflexivity |].
    unfold active_with_email, u, user_row.
    cbn [Users.email Users.is_active Users.is_deleted negb].
    rewrite String.eqb_refl. reflexivity.
  - intros email2 Hne. rewrite get_user_by_email_eq.
    rewrite (find_active_user_other_email db db1 u email2 Hu); [reflexivity |].
    intros E. apply Hne. symmetry. exact E.
Qed.

Lemma get_user_by_email_after_create_user_witness :
  create_user env1 "janedoe" "jane@example.com" "securepass456"
    (Some "Jane") (Some "Doe") db_john = (Return (Some 2), db_jane)
  /\ get_user_by_email env0 "jane@example.com" db_jane
     = (Return (Some (user_row env1 db_john "janedoe" "jane@example.com"
                        "securepass456" (Some "Jane") (Some "Doe"))), db_jane).
Proof.
  split; [exact create_user_jane |].
  exact (proj1 (get_user_by_email_after_create_user _ _ _ _ _ _ _ _ _
                  create_user_jane env0)).
Defined.

(** X7: after a successful [create_user], [authenticate_user] with the email
    and the password of the sign-up returns the new user's record and writes
    nothing; with any other password it returns that record when the password
    verifies against the stored hash and salt, and otherwise returns None and
    appends a login_failed entry for the user with reason Invalid password. *)
Theorem authenticate_user_after_create_user e username email password first_name
        last_name db id db1 :
  create_user e username email password first_name last_name db
  = (Return (Some id), db1) ->
  forall e2,
    let u := user_row e db username email password first_name last_name in
    authenticate_user e2 email password db1 = (Return (Some u), db1)
    /\ Users.id u = id
    /\ (forall password2,
          authenticate_user e2 email password2 db1
          = if verify_password e2 password2 (Users.password_hash u) (Users.salt u)
            then (Return (Some u), db1)
            else (Return None,
                  with_log db1 (log_row e2 db1 (Some id) "login_failed" None None true
                                  (Some "Invalid password") None))).
Proof.
  intros H e2 u.
  destruct (create_user_success _ _ _ _ _ _ _ _ _ H) as [_ [Hfree [Hid [Hu _]]]].
  fold u in Hid, Hu.
  assert (find_active_user db1 email = Some u) as Hfind.
  { apply (find_active_user_appended db db1 u email Hu Hfree).
    unfold active_with_email, u, user_row.
    cbn [Users.email Users.is_active Users.is_deleted negb].
    rewrite String.eqb_refl. reflexivity. }
  assert (forall password2,
          authenticate_user e2 email password2 db1
          = if verify_password e2 password2 (Users.password_hash u) (Users.salt u)
            then (Return (Some u), db1)
            else (Return None,
                  with_log db1 (log_row e2 db1 (Some id) "login_failed" None None true
                                  (Some "Invalid password") None))) as Hany.
  { intros password2. rewrite authenticate_user_eq, Hfind, Hid. reflexivity. }
  split; [| split; [symmetry; exact Hid | exact Hany]].
  rewrite Hany. unfold u, user_row. cbn [Users.password_hash Users.salt].
  rewrite verify_password_own_hash. reflexivity.
Qed.

Lemma authenticate_user_after_create_user_witness :
  create_user env1 "janedoe" "jane@example.com" "securepass456"
    (Some "Jane") (Some "Doe") db_john = (Return (Some 2), db_jane)
  /\ authenticate_user env0 "jane@example.com" "securepass456" db_jane
     = (Return (Some (user_row env1 db_john "janedoe" "jane@example.com"
                        "securepass456" (Some "Jane") (Some "Doe"))), db_jane).
Proof.
  split; [exact create_user_jane |].
  exact (proj1 (authenticate_user_after_create_user _ _ _ _ _ _ _ _ _
                  create_user_jane env0)).
Defined.

(* --------------------------------------------------------------------- *)
(** ** More on sessions *)

(** X8: [create_session] returns the new session id exactly when the expiry
    is a date of years 1 to 9999, the generated id is the id of no session and
    [user_id] is the id of a user, whether that user is active, deleted or
    neither; otherwise it raises and leaves the store as it was (no session,
    no login entry, no change of [last_login_at]): [OverflowError] for the
    date, and also for a [user_id] that names no user and lies outside the 64
    bits of an SQLite INTEGER, [IntegrityError] for a session id that is
    taken or a user that does not exist when the [user_id] binds. *)
Theorem create_session_outcome e user_id device_info ip_address duration_hours db :
  let r := create_session e user_id device_info ip_address duration_hours db in
  let expiry := datetime_now e + duration_hours * 3600 * 1000000 in
  let in_range := 0 <= expiry < datetime_end in
  let fresh_id := forall s, In s (user_sessions db) -> Sessions.id s <> uuid4 e in
  let known_user := exists u, In u (users db) /\ Users.id u = user_id in
  (fst r = Return (uuid4 e) <-> in_range /\ fresh_id /\ known_user)
  /\ (~ in_range -> r = (Raise OverflowError, db))
  /\ (in_range -> ~ (fresh_id /\ known_user) ->
      known_user \/ int64 user_id = true -> r = (Raise IntegrityError, db))
  /\ (in_range -> ~ known_user -> int64 user_id = false ->
      r = (Raise OverflowError, db))
  /\ (forall x, fst r = Raise x -> snd r = db).
Proof.
  intros r expiry in_range fresh_id known_user. subst r.
  assert (session_id_taken db (uuid4 e) = false <-> fresh_id) as Hfresh.
  { unfold fresh_id, session_id_taken. split.
    - intros E s Hs Hid. apply not_true_iff_false in E. apply E.
      apply existsb_exists. exists s. split; [exact Hs | now apply String.eqb_eq].
    - intros Hf. apply not_true_is_false. intros E. apply existsb_exists in E.
      destruct E as [s [Hs E]]. apply String.eqb_eq in E. exact (Hf s Hs E). }
  assert (user_exists db user_id = true <-> known_user) as Hknown.
  { unfold known_user, user_exists. rewrite existsb_exists. split.
    - intros [u [Hu E]]. exists u. split; [exact Hu | now apply Z.eqb_eq].
    - intros [u [Hu E]]. exists u. split; [exact Hu | now apply Z.eqb_eq]. }
  rewrite create_session_eq. unfold datetime_add, timedelta_hours. fold expiry.
  destruct ((0 <=? expiry) && (expiry <? datetime_end)) eqn:R.
  - assert in_range as Hr.
    { apply andb_true_iff in R. destruct R as [R1 R2].
      apply Z.leb_le in R1. apply Z.ltb_lt in R2. split; assumption. }
    destruct (user_exists db user_id) eqn:U.
    + assert known_user as Hk by now apply Hknown.
      rewrite (binds_user_id_exists _ _ U).
      destruct (session_id_taken db (uuid4 e)) eqn:T; cbn [orb negb fst snd].
      * assert (~ fresh_id) as Hn by (intros F; apply Hfresh in F; discriminate F).
        split; [split; [discriminate | tauto] |].
        split; [tauto |]. split; [reflexivity |]. split; [tauto | reflexivity].
      * assert fresh_id as Hf by now apply Hfresh.
        split; [tauto |]. split; [tauto |]. split; [tauto |].
        split; [tauto | discriminate].
    + assert (~ known_user) as Hk by (intros K; apply Hknown in K; discriminate K).
      rewrite (binds_user_id_unknown _ _ U), orb_true_r. cbn [fst snd].
      split; [split; [discriminate | tauto] |]. split; [tauto |].
      split; [intros _ _ [K | ->]; [now elim Hk | reflexivity] |].
      split; [intros _ _ ->; reflexivity | reflexivity].
  - assert (~ in_range) as Hr.
    { intros [R1 R2]. apply Z.leb_le in R1. apply Z.ltb_lt in R2.
      rewrite R1, R2 in R. discriminate R. }
    cbn [fst snd]. split; [split; [discriminate | tauto] |].
    split; [reflexivity |]. split; [tauto |]. split; [tauto | reflexivity].
Qed.

(** X9: a [create_session] that returns adds one row to [user_sessions], sets
    [last_login_at] of the user to the database's current timestamp and
    leaves every other column and every other user as they were, appends one
    login entry with the user and the ip address to the security log, and
    touches neither [roles] nor [user_roles]. *)
Theorem create_session_effects e user_id device_info ip_address duration_hours db
        session_id db1 :
  create_session e user_id device_info ip_address duration_hours db
  = (Return session_id, db1) ->
  exists expires_at,
    user_sessions db1
    = user_sessions db ++ [Sessions.Row session_id user_id device_info ip_address true
                             expires_at (CURRENT_TIMESTAMP e) (CURRENT_TIMESTAMP e)]
    /\ List.length (users db1) = List.length (users db)
    /\ map account_columns (users db1) = map account_columns (users db)
    /\ (forall u, In u (users db1) ->
          if Users.id u =? user_id
          then Users.last_login_at u = Some (CURRENT_TIMESTAMP e)
          else In u (users db))
    /\ user_security_logs db1
       = user_security_logs db
         ++ [log_row e db (Some user_id) "login" ip_address None true None None]
    /\ roles db1 = roles db
    /\ user_roles db1 = user_roles db.
Proof.
  rewrite create_session_eq.
  destruct (datetime_add (datetime_now e) (timedelta_hours duration_hours))
    as [expires_at |]; [| discriminate].
  destruct (session_id_taken db (uuid4 e) || negb (user_exists db user_id));
    [discriminate |].
  cbn zeta. intros [= <- <-]. exists expires_at.
  split; [reflexivity |].
  unfold with_log, with_last_login, with_session.
  cbn [users user_security_logs roles user_roles set_user_security_logs set_users
       set_user_sessions].
  split; [apply length_map |]. split; [| split; [| repeat split]].
  - rewrite map_map. apply map_ext. intros u.
    destruct (Users.id u =? user_id); reflexivity.
  - intros u Hu. apply in_map_iff in Hu. destruct Hu as [x [Hx Hin]].
    destruct (Users.id x =? user_id) eqn:E; subst u.
    + cbn [Users.id Users.set_last_login_at]. rewrite E. reflexivity.
    + rewrite E. exact Hin.
Qed.

Lemma create_session_effects_witness :
  exists db1 expires_at,
    create_session env0 1 (Some "Chrome/Windows") (Some "192.168.1.100") 24 db_john
    = (Return (uuid4 env0), db1)
    /\ user_sessions db1
       = user_sessions db_john
         ++ [Sessions.Row (uuid4 env0) 1 (Some "Chrome/Windows") (Some "192.168.1.100")
               true expires_at (CURRENT_TIMESTAMP env0) (CURRENT_TIMESTAMP env0)].
Proof.
  eexists.
  assert (create_session env0 1 (Some "Chrome/Windows") (Some "192.168.1.100") 24 db_john
          = (Return (uuid4 env0), _)) as H by reflexivity.
  destruct (create_session_effects _ _ _ _ _ _ _ _ H) as [expires_at [H1 _]].
  exists expires_at. split; [exact H | exact H1].
Defined.

(** X10: a session [create_session] has created survives a later
    [cleanup_expired_sessions] exactly when the database's timestamp at the
    clean-up is not past the stored expiry, the clock reading of the creation
    plus the duration. *)
Theorem create_session_then_cleanup e user_id device_info ip_address duration_hours db
        session_id db1 :
  create_session e user_id device_info ip_address duration_hours db
  = (Return session_id, db1) ->
  forall e2,
    let expiry := datetime_now e + duration_hours * 3600 * 1000000 in
    let db2 := snd (cleanup_expired_sessions e2 db1) in
    ((exists s, In s (user_sessions db2) /\ Sessions.id s = session_id)
     <-> CURRENT_TIMESTAMP e2 <= expiry)
    /\ (forall s, In s (user_sessions db2) -> Sessions.id s = session_id ->
                  Sessions.user_id s = user_id /\ Sessions.expires_at s = expiry).
Proof.
  intros H e2 expiry db2.
  assert (session_id = uuid4 e
          /\ user_sessions db1
             = user_sessions db ++ [session_row e user_id device_info ip_address expiry]
          /\ session_id_taken db (uuid4 e) = false) as [-> [Hs Hfresh]].
  { rewrite create_session_eq in H. unfold datetime_add, timedelta_hours in H.
    fold expiry in H.
    destruct ((0 <=? expiry) && (expiry <? datetime_end)); [| discriminate].
    destruct (session_id_taken db (uuid4 e)); [discriminate |].
    destruct (negb (user_exists db user_id)); [discriminate |].
    cbn [orb] in H. cbn zeta in H. injection H as <- <-. repeat split. }
  assert (forall s, In s (user_sessions db1) -> Sessions.id s = uuid4 e ->
                    s = session_row e user_id device_info ip_address expiry) as Hone.
  { intros s Hin Hid. rewrite Hs in Hin. apply in_app_or in Hin.
    destruct Hin as [Hin | [<- | []]]; [| reflexivity].
    exfalso. apply not_true_iff_false in Hfresh. apply Hfresh.
    apply existsb_exists. exists s. split; [exact Hin | now apply String.eqb_eq]. }
  assert (forall s, In s (user_sessions db2)
                    <-> In s (user_sessions db1)
                        /\ CURRENT_TIMESTAMP e2 <= Sessions.expires_at s) as Hkept.
  { intros s. subst db2. unfold cleanup_expired_sessions, bind, execute_query, run_sql.
    cbn [snd user_sessions set_user_sessions ret parameters_bind]. rewrite filter_In.
    unfold expired. rewrite negb_true_iff, Z.ltb_ge. reflexivity. }
  split; [split |].
  - intros [s [Hin Hid]]. apply Hkept in Hin. destruct Hin as [Hin Hle].
    rewrite (Hone s Hin Hid) in Hle. exact Hle.
  - intros Hle. exists (session_row e user_id device_info ip_address expiry).
    split; [| reflexivity]. apply Hkept. split; [| exact Hle].
    rewrite Hs. apply in_or_app. right. left. reflexivity.
  - intros s Hin Hid. apply Hkept in Hin. destruct Hin as [Hin _].
    rewrite (Hone s Hin Hid). split; reflexivity.
Qed.

Lemma create_session_then_cleanup_witness :
  exists db1,
    create_session env0 1 (Some "Chrome/Windows") (Some "192.168.1.100") 24 db_john
    = (Return (uuid4 env0), db1)
    /\ exists s, In s (user_sessions (snd (cleanup_expired_sessions env1 db1)))
                 /\ Sessions.id s = uuid4 env0.
Proof.
  eexists.
  assert (create_session env0 1 (Some "Chrome/Windows") (Some "192.168.1.100") 24 db_john
          = (Return (uuid4 env0), _)) as H by reflexivity.
  split; [exact H |].
  apply (proj1 (create_session_then_cleanup _ _ _ _ _ _ _ _ H env1)).
  vm_compute. discriminate.
Defined.

(* --------------------------------------------------------------------- *)
(** ** The constructor *)

Lemma set_roles_again rs seq rs' seq' db :
  set_roles rs seq (set_roles rs' seq' db) = set_roles rs seq db.
Proof. reflexivity. Qed.

Lemma set_roles_same db : set_roles (roles db) (roles_seq db) db = db.
Proof. destruct db; reflexivity. Qed.

Lemma set_permissions_again ps seq ps' seq' db :
  set_permissions ps seq (set_permissions ps' seq' db) = set_permissions ps seq db.
Proof. reflexivity. Qed.

Lemma set_permissions_same db :
  set_permissions (permissions db) (permissions_seq db) db = db.
Proof. destruct db; reflexivity. Qed.

Lemma fold_max_settled (seq : Z) (ids : list Z) :
  Forall (fun i => i <= seq) ids -> fold_right Z.max seq ids = seq.
Proof.
  induction 1 as [| i ids Hi _ IH]; cbn [fold_right]; [reflexivity |].
  rewrite IH. lia.
Qed.

Lemma next_rowid_settles (seq : Z) (ids : list Z) :
  Forall (fun i => i <= next_rowid seq ids) ids.
Proof.
  destruct (fold_max_ge seq ids) as [_ H]. unfold next_rowid.
  eapply Forall_impl; [| exact H]. cbn. intros; lia.
Qed.

(** One turn of the loop over the default roles: a new name gets a row, a
    name that has one only takes a rowid from the sequence. *)
Lemma insert_role_step e name description db :
  exists db1,
    try_except
      (execute_query e (INSERT_OR_IGNORE_INTO_roles name description) ;; ret tt)
      is_sqlite3_Error (ret tt) db = (Return tt, db1)
    /\ db1 = set_roles (roles db1) (roles_seq db1) db
    /\ (exists l, roles db1 = roles db ++ l)
    /\ has_role db1 name
    /\ Forall (fun i => i <= roles_seq db1) (map Roles.id (roles db1))
    /\ (has_role db name ->
        roles db1 = roles db
        /\ (Forall (fun i => i <= roles_seq db) (map Roles.id (roles db)) ->
            roles_seq db1 = roles_seq db + 1)).
Proof.
  unfold try_except, bind, execute_query, ret. cbn [parameters_bind]. unfold run_sql.
  destruct (existsb (fun r => String.eqb (Roles.name r) name) (roles db)) eqn:E.
  - eexists. split; [reflexivity |]. split; [reflexivity |].
    split; [exists []; cbn; now rewrite app_nil_r |]. split; [| split].
    + apply existsb_exists in E. destruct E as [r [Hr E]].
      exists r. split; [exact Hr | now apply String.eqb_eq].
    + cbn. apply next_rowid_settles.
    + intros _. split; [reflexivity |]. intros S. cbn. unfold next_rowid.
      now rewrite (fold_max_settled _ _ S).
  - eexists. split; [reflexivity |]. split; [reflexivity |].
    split; [eexists; reflexivity |]. split; [| split].
    + eexists. split; [cbn; apply in_or_app; right; left; reflexivity | reflexivity].
    + cbn. rewrite map_app. apply Forall_app. split.
      * apply next_rowid_settles.
      * constructor; [cbn; lia | constructor].
    + intros [r [Hr Hn]]. apply not_true_iff_false in E. elim E.
      apply existsb_exists. exists r. split; [exact Hr | now apply String.eqb_eq].
Qed.

Lemma insert_permission_step e name description resource action db :
  exists db1,
    try_except
      (execute_query e
         (INSERT_OR_IGNORE_INTO_permissions name description resource action) ;;
       ret tt)
      is_sqlite3_Error (ret tt) db = (Return tt, db1)
    /\ db1 = set_permissions (permissions db1) (permissions_seq db1) db
    /\ (exists l, permissions db1 = permissions db ++ l)
    /\ has_permission db1 name
    /\ Forall (fun i => i <= permissions_seq db1) (map Permissions.id (permissions db1))
    /\ (has_permission db name ->
        permissions db1 = permissions db
        /\ (Forall (fun i => i <= permissions_seq db)
                   (map Permissions.id (permissions db)) ->
            permissions_seq db1 = permissions_seq db + 1)).
Proof.
  unfold try_except, bind, execute_query, ret. cbn [parameters_bind]. unfold run_sql.
  destruct (existsb (fun p => String.eqb (Permissions.name p) name) (permissions db))
    eqn:E.
  - eexists. split; [reflexivity |]. split; [reflexivity |].
    split; [exists []; cbn; now rewrite app_nil_r |]. split; [| split].
    + apply existsb_exists in E. destruct E as [p [Hp E]].
      exists p. split; [exact Hp | now apply String.eqb_eq].
    + cbn. apply next_rowid_settles.
    + intros _. split; [reflexivity |]. intros S. cbn. unfold next_rowid.
      now rewrite (fold_max_settled _ _ S).
  - eexists. split; [reflexivity |]. split; [reflexivity |].
    split; [eexists; reflexivity |]. split; [| split].
    + eexists. split; [cbn; apply in_or_app; right; left; reflexivity | reflexivity].
    + cbn. rewrite map_app. apply Forall_app. split.
      * apply next_rowid_settles.
      * constructor; [cbn; lia | constructor].
    + intros [p [Hp Hn]]. apply not_true_iff_false in E. elim E.
      apply existsb_exists. exists p. split; [exact Hp | now apply String.eqb_eq].
Qed.

Section Loops.

(** A loop whose every turn returns, extends one table and leaves its row in
    it; a turn whose row is there already adds no row and moves the sequence
    of the table on by one, once the sequence has caught up with the ids. *)
Context {A R : Type} (body : A -> M unit).
Context (table : database -> list R) (present : A -> database -> Prop).
Context (seq : database -> Z) (settled : database -> Prop).
Context (only : database -> database -> Prop).
Context (only_refl : forall db, only db db).
Context (only_trans : forall a b c, only a b -> only b c -> only a c).
Context (present_later : forall a db db1 k,
            present a db -> table db1 = table db ++ k -> present a db1).
Context (turn : forall a db, exists db1,
            body a db = (Return tt, db1)
            /\ only db db1
            /\ (exists k, table db1 = table db ++ k)
            /\ present a db1
            /\ settled db1
            /\ (present a db ->
                table db1 = table db /\ (settled db -> seq db1 = seq db + 1))).

Lemma loop_outcome (l : list A) :
  forall db, exists db1,
    for_each l body db = (Return tt, db1)
    /\ only db db1
    /\ (exists k, table db1 = table db ++ k)
    /\ (forall a, In a l -> present a db1)
    /\ (settled db \/ l <> [] -> settled db1)
    /\ ((forall a, In a l -> present a db) ->
        table db1 = table db
        /\ (settled db -> seq db1 = seq db + Z.of_nat (List.length l))).
Proof.
  induction l as [| a l IH]; intros db.
  - exists db. split; [reflexivity |]. split; [apply only_refl |].
    split; [exists []; now rewrite app_nil_r |]. split; [intros a [] |].
    split; [intros [S | N]; [exact S | now elim N] |].
    intros _. split; [reflexivity |]. intros _. cbn. lia.
  - destruct (turn a db) as [db1 [H1 [H2 [[k1 H3] [H4 [H5 H6]]]]]].
    destruct (IH db1) as [db2 [G1 [G2 [[k2 G3] [G4 [G5 G6]]]]]].
    exists db2. cbn [for_each]. unfold bind. rewrite H1.
    split; [exact G1 |]. split; [exact (only_trans _ _ _ H2 G2) |].
    split; [exists (k1 ++ k2); now rewrite G3, H3, app_assoc |].
    split; [| split].
    + intros x [<- | Hx]; [| now apply G4].
      exact (present_later _ _ _ _ H4 G3).
    + intros _. apply G5. left. exact H5.
    + intros Hall.
      destruct (H6 (Hall a (or_introl eq_refl))) as [T1 S1].
      assert (forall x, In x l -> present x db1) as Hrest.
      { intros x Hx. apply (present_later x db db1 []).
        - apply Hall. right. exact Hx.
        - now rewrite app_nil_r. }
      destruct (G6 Hrest) as [T2 S2].
      split; [now rewrite T2 |]. intros S.
      rewrite (S2 H5), (S1 S). cbn [List.length]. lia.
Qed.

End Loops.

Lemma has_role_later n db db1 k :
  has_role db n -> roles db1 = roles db ++ k -> has_role db1 n.
Proof.
  intros [r [Hr Hn]] E. exists r. split; [| exact Hn].
  rewrite E. apply in_or_app. left. exact Hr.
Qed.

Lemma has_permission_later n db db1 k :
  has_permission db n -> permissions db1 = permissions db ++ k -> has_permission db1 n.
Proof.
  intros [p [Hp Hn]] E. exists p. split; [| exact Hn].
  rewrite E. apply in_or_app. left. exact Hp.
Qed.

Lemma only_roles_differ_trans a b c :
  only_roles_differ a b -> only_roles_differ b c -> only_roles_differ a c.
Proof.
  unfold only_roles_differ. intros H1 H2. rewrite H2 at 1. rewrite H1 at 1.
  reflexivity.
Qed.

Lemma only_permissions_differ_trans a b c :
  only_permissions_differ a b -> only_permissions_differ b c ->
  only_permissions_differ a c.
Proof.
  unfold only_permissions_differ. intros H1 H2. rewrite H2 at 1. rewrite H1 at 1.
  reflexivity.
Qed.

Lemma bind_return {A B : Type} (m : M A) (k : A -> M B) db a db1 :
  m db = (Return a, db1) -> bind m k db = k a db1.
Proof. intros H. unfold bind. rewrite H. reflexivity. Qed.

(** The two loops of [create_default_roles_and_permissions]. *)
Lemma default_roles_loop e db :
  exists db1,
    for_each default_roles (fun '(role_name, description) =>
      try_except
        (execute_query e (INSERT_OR_IGNORE_INTO_roles role_name description) ;; ret tt)
        is_sqlite3_Error (ret tt)) db = (Return tt, db1)
    /\ only_roles_differ db db1
    /\ (exists k, roles db1 = roles db ++ k)
    /\ (forall a, In a default_roles -> has_role db1 (fst a))
    /\ Forall (fun i => i <= roles_seq db1) (map Roles.id (roles db1))
    /\ ((forall a, In a default_roles -> has_role db (fst a)) ->
        roles db1 = roles db
        /\ (Forall (fun i => i <= roles_seq db) (map Roles.id (roles db)) ->
            roles_seq db1 = roles_seq db + 4)).
Proof.
  destruct (loop_outcome
              (fun '(role_name, description) =>
                 try_except
                   (execute_query e (INSERT_OR_IGNORE_INTO_roles role_name description) ;;
                    ret tt)
                   is_sqlite3_Error (ret tt))
              roles (fun a d => has_role d (fst a)) roles_seq
              (fun d => Forall (fun i => i <= roles_seq d) (map Roles.id (roles d)))
              only_roles_differ) with (l := default_roles) (db := db)
    as [db1 [H1 [H2 [H3 [H4 [H5 H6]]]]]].
  - intros d. symmetry. apply set_roles_same.
  - apply only_roles_differ_trans.
  - intros a d d1 k. apply has_role_later.
  - intros [name description] d. apply insert_role_step.
  - exists db1. split; [exact H1 |]. split; [exact H2 |]. split; [exact H3 |].
    split; [exact H4 |]. split; [apply H5; right; discriminate | exact H6].
Qed.

Lemma default_permissions_loop e db :
  exists db1,
    for_each default_permissions (fun '(perm_name, description, resource, action) =>
      try_except
        (execute_query e
           (INSERT_OR_IGNORE_INTO_permissions perm_name description resource action) ;;
         ret tt)
        is_sqlite3_Error (ret tt)) db = (Return tt, db1)
    /\ only_permissions_differ db db1
    /\ (exists k, permissions db1 = permissions db ++ k)
    /\ (forall a, In a default_permissions ->
                  has_permission db1 ((fun '(n, _, _, _) => n) a))
    /\ Forall (fun i => i <= permissions_seq db1) (map Permissions.id (permissions db1))
    /\ ((forall a, In a default_permissions ->
                   has_permission db ((fun '(n, _, _, _) => n) a)) ->
        permissions db1 = permissions db
        /\ (Forall (fun i => i <= permissions_seq db)
                   (map Permissions.id (permissions db)) ->
            permissions_seq db1 = permissions_seq db + 8)).
Proof.
  destruct (loop_outcome
              (fun '(perm_name, description, resource, action) =>
                 try_except
                   (execute_query e
                      (INSERT_OR_IGNORE_INTO_permissions perm_name description
                         resource action) ;;
                    ret tt)
                   is_sqlite3_Error (ret tt))
              permissions (fun a d => has_permission d ((fun '(n, _, _, _) => n) a))
              permissions_seq
              (fun d => Forall (fun i => i <= permissions_seq d)
                          (map Permissions.id (permissions d)))
              only_permissions_differ) with (l := default_permissions) (db := db)
    as [db1 [H1 [H2 [H3 [H4 [H5 H6]]]]]].
  - intros d. symmetry. apply set_permissions_same.
  - apply only_permissions_differ_trans.
  - intros a d d1 k. apply has_permission_later.
  - intros [[[name description] resource] action] d. apply insert_permission_step.
  - exists db1. split; [exact H1 |]. split; [exact H2 |]. split; [exact H3 |].
    split; [exact H4 |]. split; [apply H5; right; discriminate | exact H6].
Qed.

(** X11: the constructor never raises; after it the four default roles and
    the eight default permissions have a row; the rows [roles] and
    [permissions] held before stay, in place, and no other table changes;
    run again on the store it left, it adds no row and changes none: only the
    AUTOINCREMENT sequences move on, by four for [roles] and by eight for
    [permissions], one for every insert that is ignored. *)
Theorem init_outcome (e : env) (db : database) :
  let r := init e db in
  fst r = Return tt
  /\ (forall n, In n (map fst default_roles) -> has_role (snd r) n)
  /\ (forall n, In n default_permission_names -> has_permission (snd r) n)
  /\ (exists k, roles (snd r) = roles db ++ k)
  /\ (exists k, permissions (snd r) = permissions db ++ k)
  /\ users (snd r) = users db
  /\ user_sessions (snd r) = user_sessions db
  /\ user_roles (snd r) = user_roles db
  /\ user_security_logs (snd r) = user_security_logs db
  /\ (forall e2,
        init e2 (snd r)
        = (Return tt,
           set_permissions (permissions (snd r)) (permissions_seq (snd r) + 8)
             (set_roles (roles (snd r)) (roles_seq (snd r) + 4) (snd r)))).
Proof.
  intros r. subst r. unfold init.
  destruct (default_roles_loop e db) as [db1 [R1 [R2 [R3 [R4 [R5 _]]]]]].
  destruct (default_permissions_loop e db1) as [db2 [P1 [P2 [P3 [P4 [P5 _]]]]]].
  assert (create_default_roles_and_permissions e db = (Return tt, db2)) as ->.
  { unfold create_default_roles_and_permissions.
    rewrite (bind_return _ _ _ _ _ R1). exact P1. }
  cbn [fst snd].
  assert (roles db2 = roles db1) as Hroles by (rewrite P2; reflexivity).
  assert (roles_seq db2 = roles_seq db1) as Hrseq by (rewrite P2; reflexivity).
  assert (permissions db1 = permissions db) as Hperms by (rewrite R2; reflexivity).
  split; [reflexivity |]. split; [| split; [| split; [| split]]].
  - intros n Hn. apply in_map_iff in Hn. destruct Hn as [a [<- Ha]].
    destruct (R4 a Ha) as [x [Hx Hname]]. exists x. now rewrite Hroles.
  - intros n Hn. apply in_map_iff in Hn. destruct Hn as [a [<- Ha]].
    exact (P4 a Ha).
  - rewrite Hroles. exact R3.
  - rewrite <- Hperms. exact P3.
  - assert (users db2 = users db /\ user_sessions db2 = user_sessions db
            /\ user_roles db2 = user_roles db
            /\ user_security_logs db2 = user_security_logs db) as Hsame.
    { rewrite P2, R2. repeat split. }
    destruct Hsame as [Hu [Hs [Hur Hl]]].
    split; [exact Hu |]. split; [exact Hs |]. split; [exact Hur |].
    split; [exact Hl |].
    intros e2.
    destruct (default_roles_loop e2 db2) as [d1 [S1 [S2 [_ [_ [_ S6]]]]]].
    destruct S6 as [T1 T2].
    { intros a Ha. destruct (R4 a Ha) as [x [Hx Hname]].
      exists x. now rewrite Hroles. }
    rewrite Hroles, Hrseq in T2. specialize (T2 R5). rewrite <- Hrseq in T2.
    destruct (default_permissions_loop e2 d1) as [d2 [U1 [U2 [_ [_ [_ U6]]]]]].
    assert (permissions d1 = permissions db2) as Hp1 by (rewrite S2; reflexivity).
    assert (permissions_seq d1 = permissions_seq db2) as Hq1
      by (rewrite S2; reflexivity).
    destruct U6 as [V1 V2].
    { intros a Ha. destruct (P4 a Ha) as [x [Hx Hname]].
      exists x. now rewrite Hp1. }
    rewrite Hp1, Hq1 in V2. specialize (V2 P5).
    unfold create_default_roles_and_permissions.
    rewrite (bind_return _ _ _ _ _ S1), U1. apply (f_equal (pair (Return tt))).
    rewrite U2, V1, V2, Hp1, S2, T1, T2. reflexivity.
Qed.

(* --------------------------------------------------------------------- *)
(** ** What no method undoes *)

Section Prefix.

(** A column of the store every statement only appends to is only appended
    to by any sequence of method calls. *)
Context {R : Type} (column : database -> list R).
Context (appends : forall e q d c d',
            run_sql e q d = inr (c, d') -> exists k, column d' = column d ++ k).

Lemma appends_from (db : database) e q d c d' :
  (exists l, column d = column db ++ l) ->
  run_sql e q d = inr (c, d') ->
  exists l, column d' = column db ++ l.
Proof.
  intros [l Hl] H. destruct (appends _ _ _ _ _ H) as [k Hk].
  exists (l ++ k). now rewrite Hk, Hl, app_assoc.
Qed.

Lemma evolves_appends (db db' : database) :
  evolves db db' -> exists l, column db' = column db ++ l.
Proof.
  induction 1 as [| e d _ IH | e a b c f g d _ IH | e a b c d _ IH
                  | e a b c f d _ IH | e a b c f g h i d _ IH | e a b d _ IH
                  | e d _ IH].
  - exists []. now rewrite app_nil_r.
  - exact (keeps_init _ (appends_from db) e d IH).
  - exact (keeps_create_user _ (appends_from db) _ _ _ _ _ _ d IH).
  - exact (keeps_assign_role_to_user _ (appends_from db) _ _ _ _ d IH).
  - exact (keeps_create_session _ (appends_from db) _ _ _ _ _ d IH).
  - exact (keeps_log_security_event _ (appends_from db) _ _ _ _ _ _ _ _ d IH).
  - exact (keeps_authenticate_user _ (appends_from db) _ _ _ d IH).
  - exact (keeps_cleanup_expired_sessions _ (appends_from db) _ d IH).
Qed.

End Prefix.

(** Destructs the conditions of a statement that went through. *)
Ltac statement_cases R :=
  unfold run_sql in R;
  repeat match type of R with
         | (if ?b then _ else _) = _ => destruct b; try discriminate
         end;
  injection R as <- <-; cbn.

Lemma run_sql_appends_logs e q d c d' :
  run_sql e q d = inr (c, d') ->
  exists k, user_security_logs d' = user_security_logs d ++ k.
Proof.
  intros R. destruct q; statement_cases R;
    try (exists []; now rewrite app_nil_r).
  eexists. reflexivity.
Qed.

Lemma run_sql_appends_roles e q d c d' :
  run_sql e q d = inr (c, d') -> exists k, roles d' = roles d ++ k.
Proof.
  intros R. destruct q; statement_cases R;
    try (exists []; now rewrite app_nil_r).
  eexists. reflexivity.
Qed.

Lemma run_sql_appends_permissions e q d c d' :
  run_sql e q d = inr (c, d') -> exists k, permissions d' = permissions d ++ k.
Proof.
  intros R. destruct q; statement_cases R;
    try (exists []; now rewrite app_nil_r).
  eexists. reflexivity.
Qed.

Lemma run_sql_appends_accounts e q d c d' :
  run_sql e q d = inr (c, d') ->
  exists k, map account_columns (users d') = map account_columns (users d) ++ k.
Proof.
  intros R. destruct q; statement_cases R;
    try (exists []; now rewrite app_nil_r).
  - rewrite map_app. eexists. reflexivity.
  - exists []. rewrite app_nil_r, map_map. apply map_ext. intros u.
    destruct (Users.id u =? id); reflexivity.
Qed.

Lemma evolves_db_jane : evolves db_john db_jane.
Proof. unfold db_jane. apply evolves_create_user, evolves_refl. Qed.

(** X12: the security log is append-only: whatever methods are called, the
    entries the log held stay, unchanged and in place, at the head of the
    log. *)
Theorem security_log_append_only (db db' : database) :
  evolves db db' ->
  exists l, user_security_logs db' = user_security_logs db ++ l.
Proof. apply (evolves_appends user_security_logs run_sql_appends_logs). Qed.

Lemma security_log_append_only_witness :
  evolves db_john db_jane
  /\ exists l, user_security_logs db_jane = user_security_logs db_john ++ l.
Proof.
  split; [exact evolves_db_jane |].
  exact (security_log_append_only _ _ evolves_db_jane).
Defined.

(** X13: no method removes a user or changes a column of a user other than
    [last_login_at]: whatever methods are called, the rows [users] held stay in
    place with their id, username, email, hash, salt, names and flags. *)
Theorem accounts_never_altered (db db' : database) :
  evolves db db' ->
  exists l, map account_columns (users db')
            = map account_columns (users db) ++ l.
Proof.
  apply (evolves_appends (fun d => map account_columns (users d))
           run_sql_appends_accounts).
Qed.

Lemma accounts_never_altered_witness :
  evolves db_john db_jane
  /\ exists l, map account_columns (users db_jane)
               = map account_columns (users db_john) ++ l.
Proof.
  split; [exact evolves_db_jane |].
  exact (accounts_never_altered _ _ evolves_db_jane).
Defined.

(** X14: no method removes or changes a role or a permission: whatever
    methods are called, the rows [roles] and [permissions] held stay in
    place. *)
Theorem roles_and_permissions_kept (db db' : database) :
  evolves db db' ->
  (exists l, roles db' = roles db ++ l)
  /\ (exists l, permissions db' = permissions db ++ l).
Proof.
  intros H. split.
  - exact (evolves_appends roles run_sql_appends_roles _ _ H).
  - exact (evolves_appends permissions run_sql_appends_permissions _ _ H).
Qed.

Lemma roles_and_permissions_kept_witness :
  evolves db_john db_jane
  /\ (exists l, roles db_jane = roles db_john ++ l)
  /\ (exists l, permissions db_jane = permissions db_john ++ l).
Proof.
  split; [exact evolves_db_jane |].
  exact (roles_and_permissions_kept _ _ evolves_db_jane).
Defined.

(* --------------------------------------------------------------------- *)
(** ** The constraints on every store *)

Lemma role_exists_In db i :
  role_exists db i = true <-> exists r, In r (roles db) /\ Roles.id r = i.
Proof.
  unfold role_exists. rewrite existsb_exists.
  split; intros [r [A B]]; exists r; (split; [exact A | now apply Z.eqb_eq]).
Qed.

Lemma user_exists_row db i :
  user_exists db i = true <-> exists u, In u (users db) /\ Users.id u = i.
Proof.
  unfold user_exists. rewrite existsb_exists.
  split; intros [u [A B]]; exists u; (split; [exact A | now apply Z.eqb_eq]).
Qed.

(** X15: on every store a [DatabaseManager] can hold, user ids, usernames,
    emails, session ids, role names, (user, role) pairs and log ids are
    unique; every session belongs to a user of [users]; every row of
    [user_roles] names a user, a role and an assigning user that exist; and
    every log entry names a user of [users] or none. *)
Theorem reachable_constraints (db : database) :
  reachable db ->
  NoDup (map Users.id (users db))
  /\ NoDup (map Users.username (users db))
  /\ NoDup (map Users.email (users db))
  /\ NoDup (map Sessions.id (user_sessions db))
  /\ NoDup (map Roles.name (roles db))
  /\ NoDup (map user_role_key (user_roles db))
  /\ NoDup (map Logs.id (user_security_logs db))
  /\ (forall s, In s (user_sessions db) ->
                exists u, In u (users db) /\ Users.id u = Sessions.user_id s)
  /\ (forall x, In x (user_roles db) ->
                (exists u, In u (users db) /\ Users.id u = UserRoles.user_id x)
                /\ (exists r, In r (roles db) /\ Roles.id r = UserRoles.role_id x)
                /\ (exists u, In u (users db) /\ Users.id u = UserRoles.assigned_by x))
  /\ (forall l i, In l (user_security_logs db) -> Logs.user_id l = Some i ->
                  exists u, In u (users db) /\ Users.id u = i).
Proof.
  intros H.
  destruct (reachable_invariant db H)
    as [[Uid Uname Uemail Rid Rname Pid Pname Sid Kuniq Lid Sref Kref Lref] _].
  split; [exact Uid |]. split; [exact Uname |]. split; [exact Uemail |].
  split; [exact Sid |]. split; [exact Rname |]. split; [exact Kuniq |].
  split; [exact Lid |]. split; [| split].
  - intros s Hs. apply user_exists_row.
    rewrite Forall_forall in Sref. now apply Sref.
  - intros x Hx. rewrite Forall_forall in Kref.
    destruct (Kref x Hx) as [A [B C]].
    split; [now apply user_exists_row |].
    split; [now apply role_exists_In | now apply user_exists_row].
  - intros l i Hl Hi. rewrite Forall_forall in Lref.
    specialize (Lref l Hl). unfold log_user_ok in Lref.
    rewrite Hi in Lref. now apply user_exists_row.
Qed.

Lemma reachable_constraints_witness :
  reachable db_new /\ NoDup (map Roles.name (roles db_new)).
Proof.
  assert (reachable db_new) as H by apply reach_new.
  split; [exact H |].
  exact (proj1 (proj2 (proj2 (proj2 (proj2 (reachable_constraints db_new H)))))).
Defined.

(* --------------------------------------------------------------------- *)
(** ** Assigning a role again *)

Lemma filter_key_twice u r (l : list UserRoles.row) x :
  UserRoles.has_key u r x = true ->
  filter (fun y => negb (UserRoles.has_key u r y))
         (filter (fun y => negb (UserRoles.has_key u r y)) l ++ [x])
  = filter (fun y => negb (UserRoles.has_key u r y)) l.
Proof.
  intros K. rewrite filter_app, filter_idempotent. cbn. rewrite K. cbn.
  apply app_nil_r.
Qed.

(** X16: when [assign_role_to_user] has assigned a role to a user,
    assigning the same role to the same user again, by an existing user,
    returns true and leaves the store in the state a single assignment with
    the later arguments gives: the pair keeps one row, now with the later
    assigning user and time, and [user_roles] has as many rows as before. *)
Theorem assign_role_to_user_again e user_id role_name assigned_by db db1 :
  assign_role_to_user e user_id role_name assigned_by db = (Return true, db1) ->
  forall e2 assigned_by2,
    user_exists db assigned_by2 = true ->
    assign_role_to_user e2 user_id role_name assigned_by2 db1
    = (Return true, snd (assign_role_to_user e2 user_id role_name assigned_by2 db))
    /\ List.length
         (user_roles (snd (assign_role_to_user e2 user_id role_name assigned_by2 db1)))
       = List.length (user_roles db1)
    /\ exists role_id,
         role_id_of db role_name = Some role_id
         /\ filter (UserRoles.has_key user_id role_id)
              (user_roles (snd (assign_role_to_user e2 user_id role_name
                                  assigned_by2 db1)))
            = [user_role_row e2 user_id role_id assigned_by2].
Proof.
  rewrite assign_role_to_user_eq.
  destruct (role_id_of db role_name) as [role_id |] eqn:R; [| discriminate].
  destruct (user_exists db user_id) eqn:U;
    [| cbn [andb]; destruct (_ && _); discriminate].
  destruct (user_exists db assigned_by) eqn:B;
    [| cbn [andb]; destruct (_ && _); discriminate].
  cbn [andb]. intros [= <-] e2 assigned_by2 B2.
  rewrite !assign_role_to_user_eq.
  assert (role_id_of (with_user_role db (user_role_row e user_id role_id assigned_by))
            role_name = Some role_id) as -> by exact R.
  rewrite R.
  assert (forall i, user_exists
                      (with_user_role db (user_role_row e user_id role_id assigned_by)) i
                    = user_exists db i) as Hsame by reflexivity.
  rewrite !Hsame, U, B2. cbn [andb snd].
  assert (UserRoles.has_key user_id role_id (user_role_row e user_id role_id assigned_by)
          = true) as K.
  { unfold UserRoles.has_key, user_role_row. cbn. now rewrite !Z.eqb_refl. }
  unfold with_user_role.
  cbn [user_roles set_user_roles user_role_row UserRoles.user_id UserRoles.role_id].
  rewrite (filter_key_twice user_id role_id (user_roles db) _ K).
  split; [reflexivity |]. split; [rewrite !length_app; reflexivity |].
  exists role_id. split; [reflexivity |].
  rewrite filter_app, filter_negb_nil. cbn.
  unfold UserRoles.has_key. cbn. now rewrite !Z.eqb_refl.
Qed.

Lemma assign_role_to_user_again_witness :
  exists db1,
    assign_role_to_user env0 1 "admin" 1 db_john = (Return true, db1)
    /\ user_exists db_john 1 = true
    /\ assign_role_to_user env1 1 "admin" 1 db1
       = (Return true, snd (assign_role_to_user env1 1 "admin" 1 db_john)).
Proof.
  eexists.
  assert (assign_role_to_user env0 1 "admin" 1 db_john = (Return true, _)) as H
    by (vm_compute; reflexivity).
  assert (user_exists db_john 1 = true) as U by (vm_compute; reflexivity).
  split; [exact H |]. split; [exact U |].
  exact (proj1 (assign_role_to_user_again _ _ _ _ _ _ H env1 1 U)).
Defined.

(* --------------------------------------------------------------------- *)
(** ** Statistics *)

(** What [get_database_stats] returns: it never raises and writes nothing. *)
Lemma get_database_stats_eq (s : store) :
  get_database_stats s
  = (Return
       [ ("users", Z.of_nat (List.length (users (tables s))));
         ("user_sessions", Z.of_nat (List.length (user_sessions (tables s))));
         ("roles", Z.of_nat (List.length (roles (tables s))));
         ("permissions", Z.of_nat (List.length (permissions (tables s))));
         ("friends", Z.of_nat (List.length (friends s)));
         ("results", Z.of_nat (List.length (results s)));
         ("posts", Z.of_nat (List.length (posts s)));
         ("user_security_logs",
          Z.of_nat (List.length (user_security_logs (tables s)))) ],
     s).
Proof. reflexivity. Qed.

Lemma on_tables_eq {A : Type} (m : M A) (s : store) :
  on_tables m s = (fst (m (tables s)), set_tables (snd (m (tables s))) s).
Proof. unfold on_tables. destruct (m (tables s)); reflexivity. Qed.

(** All the tables after a successful [create_user]. *)
Lemma create_user_tables e username email password first_name last_name db id db1 :
  create_user e username email password first_name last_name db
  = (Return (Some id), db1) ->
  List.length (users db1) = S (List.length (users db))
  /\ user_sessions db1 = user_sessions db
  /\ roles db1 = roles db
  /\ permissions db1 = permissions db
  /\ List.length (user_security_logs db1) = S (List.length (user_security_logs db)).
Proof.
  rewrite create_user_eq.
  destruct (username_taken db username || email_taken db email); [discriminate |].
  cbn zeta. rewrite assign_role_to_user_eq.
  intros [= _ <-].
  destruct (role_id_of _ "user"); [destruct (_ && _); [| destruct (_ && _)] |]; cbn;
    rewrite !length_app; cbn; repeat split; lia.
Qed.

(** X17: after a [create_user] that returns an id, [get_database_stats]
    reports one user and one security-log entry more and the same number of
    sessions, roles, permissions, friends, results and posts; after one that
    returns None it reports what it reported before. *)
Theorem get_database_stats_after_create_user e username email password first_name
        last_name s n_users n_sessions n_roles n_permissions n_friends n_results
        n_posts n_logs :
  fst (get_database_stats s)
  = Return [ ("users", n_users); ("user_sessions", n_sessions); ("roles", n_roles);
             ("permissions", n_permissions); ("friends", n_friends);
             ("results", n_results); ("posts", n_posts);
             ("user_security_logs", n_logs) ] ->
  let r := on_tables (create_user e username email password first_name last_name) s in
  match fst r with
  | Return (Some _) =>
      fst (get_database_stats (snd r))
      = Return [ ("users", n_users + 1); ("user_sessions", n_sessions);
                 ("roles", n_roles); ("permissions", n_permissions);
                 ("friends", n_friends); ("results", n_results); ("posts", n_posts);
                 ("user_security_logs", n_logs + 1) ]
  | Return None => get_database_stats (snd r) = (fst (get_database_stats s), s)
  | Raise _ => False
  end.
Proof.
  rewrite get_database_stats_eq. cbn [fst]. cbv zeta.
  intros [= <- <- <- <- <- <- <- <-]. rewrite on_tables_eq. cbn [fst snd].
  destruct (create_user e username email password first_name last_name (tables s))
    as [[[id |] | x] db1] eqn:C; cbn [fst snd].
  - destruct (create_user_tables _ _ _ _ _ _ _ _ _ C) as [Hu [Hs [Hr [Hp Hl]]]].
    rewrite get_database_stats_eq. cbn [fst tables set_tables friends results posts].
    rewrite Hu, Hs, Hr, Hp, Hl, !Nat2Z.inj_succ. unfold Z.succ. reflexivity.
  - rewrite create_user_eq in C.
    destruct (username_taken (tables s) username || email_taken (tables s) email);
      [| discriminate].
    injection C as <-. rewrite !get_database_stats_eq. cbn [fst]. destruct s; reflexivity.
  - rewrite create_user_eq in C.
    destruct (username_taken (tables s) username || email_taken (tables s) email);
      discriminate.
Qed.

Lemma get_database_stats_after_create_user_witness :
  fst (get_database_stats store_john)
  = Return [ ("users", 1); ("user_sessions", 0); ("roles", 4); ("permissions", 8);
             ("friends", 0); ("results", 0); ("posts", 0); ("user_security_logs", 0) ]
  /\ get_database_stats
       (snd (on_tables (create_user env1 "johnny" "john@example.com" "hunter2" None None)
               store_john))
     = (fst (get_database_stats store_john), store_john).
Proof.
  assert (fst (get_database_stats store_john)
          = Return [ ("users", 1); ("user_sessions", 0); ("roles", 4);
                     ("permissions", 8); ("friends", 0); ("results", 0); ("posts", 0);
                     ("user_security_logs", 0) ]) as H by (vm_compute; reflexivity).
  split; [exact H |].
  pose proof (get_database_stats_after_create_user env1 "johnny" "john@example.com"
                "hunter2" None None store_john _ _ _ _ _ _ _ _ H) as G.
  cbv zeta in G.
  assert (fst (on_tables (create_user env1 "johnny" "john@example.com" "hunter2"
                            None None) store_john) = Return None) as E.
  { rewrite on_tables_eq. cbn [fst]. rewrite create_user_eq.
    assert (username_taken (tables store_john) "johnny"
            || email_taken (tables store_john) "john@example.com" = true) as ->
      by (vm_compute; reflexivity).
    reflexivity. }
  rewrite E in G. exact G.
Defined.

(** X18: [cleanup_expired_sessions] returns a number between zero and the
    number of sessions [get_database_stats] reported, after it
    [get_database_stats] reports that many sessions fewer, and every other
    count as before. *)
Theorem get_database_stats_after_cleanup e s n_users n_sessions n_roles
        n_permissions n_friends n_results n_posts n_logs :
  fst (get_database_stats s)
  = Return [ ("users", n_users); ("user_sessions", n_sessions); ("roles", n_roles);
             ("permissions", n_permissions); ("friends", n_friends);
             ("results", n_results); ("posts", n_posts);
             ("user_security_logs", n_logs) ] ->
  let r := on_tables (cleanup_expired_sessions e) s in
  exists n,
    fst r = Return n
    /\ 0 <= n <= n_sessions
    /\ fst (get_database_stats (snd r))
       = Return [ ("users", n_users); ("user_sessions", n_sessions - n);
                  ("roles", n_roles); ("permissions", n_permissions);
                  ("friends", n_friends); ("results", n_results); ("posts", n_posts);
                  ("user_security_logs", n_logs) ].
Proof.
  rewrite get_database_stats_eq. cbn [fst]. cbv zeta.
  intros [= <- <- <- <- <- <- <- <-]. rewrite on_tables_eq.
  unfold cleanup_expired_sessions, bind, execute_query, run_sql, ret.
  cbn [fst snd rowcount no_rows parameters_bind].
  eexists. split; [reflexivity |].
  pose proof (filter_split_length (expired (CURRENT_TIMESTAMP e))
                (user_sessions (tables s))) as L.
  split; [lia |].
  rewrite get_database_stats_eq. cbn. rewrite L at 1.
  repeat f_equal. lia.
Qed.

Lemma get_database_stats_after_cleanup_witness :
  fst (get_database_stats store_john)
  = Return [ ("users", 1); ("user_sessions", 0); ("roles", 4); ("permissions", 8);
             ("friends", 0); ("results", 0); ("posts", 0); ("user_security_logs", 0) ]
  /\ exists n, fst (on_tables (cleanup_expired_sessions env1) store_john) = Return n
               /\ 0 <= n <= 0.
Proof.
  assert (fst (get_database_stats store_john)
          = Return [ ("users", 1); ("user_sessions", 0); ("roles", 4);
                     ("permissions", 8); ("friends", 0); ("results", 0); ("posts", 0);
                     ("user_security_logs", 0) ]) as H by (vm_compute; reflexivity).
  split; [exact H |].
  destruct (get_database_stats_after_cleanup env1 store_john _ _ _ _ _ _ _ _ H)
    as [n [H1 [H2 _]]].
  exists n. split; [exact H1 | exact H2].
Defined.

(* --------------------------------------------------------------------- *)
(** ** The demonstration script *)

Lemma evolves_trans db db1 db2 : evolves db db1 -> evolves db1 db2 -> evolves db db2.
Proof.
  intros H1 H2. induction H2.
  - exact H1.
  - now apply evolves_init.
  - now apply evolves_create_user.
  - now apply evolves_assign_role_to_user.
  - now apply evolves_create_session.
  - now apply evolves_log_security_event.
  - now apply evolves_authenticate_user.
  - now apply evolves_cleanup_expired_sessions.
Qed.

Lemma evolves_schema_ok db db1 : evolves db db1 -> schema_ok db -> schema_ok db1.
Proof.
  intros H Hs. induction H.
  - exact Hs.
  - exact (keeps_init schema_ok run_sql_schema_ok _ _ IHevolves).
  - exact (keeps_create_user schema_ok run_sql_schema_ok _ _ _ _ _ _ _ IHevolves).
  - exact (keeps_assign_role_to_user schema_ok run_sql_schema_ok _ _ _ _ _ IHevolves).
  - exact (keeps_create_session schema_ok run_sql_schema_ok _ _ _ _ _ _ IHevolves).
  - exact (keeps_log_security_event schema_ok run_sql_schema_ok _ _ _ _ _ _ _ _ _
             IHevolves).
  - exact (keeps_authenticate_user schema_ok run_sql_schema_ok _ _ _ _ IHevolves).
  - exact (keeps_cleanup_expired_sessions schema_ok run_sql_schema_ok _ _ IHevolves).
Qed.

Lemma follows_retS {A : Type} (a : A) : follows (retS a).
Proof. intros s. repeat split. apply evolves_refl. Qed.

Lemma follows_bindS {A B : Type} (m : MS A) (k : A -> MS B) :
  follows m -> (forall a, follows (k a)) -> follows (bindS m k).
Proof.
  intros Hm Hk s. unfold bindS. destruct (Hm s) as [E [F [R P]]].
  destruct (m s) as [[a | x] s1]; cbn [snd] in *; [| repeat split; assumption].
  destruct (Hk a s1) as [E' [F' [R' P']]].
  split; [exact (evolves_trans _ _ _ E E') |].
  repeat split; congruence.
Qed.

Lemma follows_try_exceptS {A : Type} (body handler : MS A) (handles : exn -> bool) :
  follows body -> follows handler -> follows (try_exceptS body handles handler).
Proof.
  intros Hb Hh s. unfold try_exceptS. destruct (Hb s) as [E [F [R P]]].
  destruct (body s) as [[a | x] s1]; cbn [snd] in *; [repeat split; assumption |].
  destruct (handles x); [| repeat split; assumption].
  destruct (Hh s1) as [E' [F' [R' P']]].
  split; [exact (evolves_trans _ _ _ E E') |].
  repeat split; congruence.
Qed.

Lemma follows_on_tables {A : Type} (m : M A) :
  (forall db, evolves db (snd (m db))) -> follows (on_tables m).
Proof.
  intros H s. rewrite on_tables_eq. cbn [snd tables set_tables friends results posts].
  repeat split. apply H.
Qed.

Lemma follows_get_database_stats : follows get_database_stats.
Proof. intros s. rewrite get_database_stats_eq. repeat split. apply evolves_refl. Qed.

Lemma follows_main clock : follows (main clock).
Proof.
  unfold main.
  apply follows_bindS;
    [apply follows_on_tables; intros db; apply evolves_init, evolves_refl | intros _].
  apply follows_try_exceptS; [| apply follows_retS].
  apply follows_bindS;
    [apply follows_on_tables; intros db; apply evolves_create_user, evolves_refl |].
  intros user1_id.
  apply follows_bindS;
    [apply follows_on_tables; intros db; apply evolves_create_user, evolves_refl |].
  intros user2_id.
  apply follows_bindS.
  - destruct user1_id as [id1 |], user2_id as [id2 |]; try apply follows_retS.
    destruct (truthy (Some id1) && truthy (Some id2)); [| apply follows_retS].
    apply follows_bindS;
      [apply follows_on_tables; intros db; apply evolves_create_session, evolves_refl |].
    intros _.
    apply follows_bindS;
      [apply follows_on_tables; intros db; apply evolves_create_session, evolves_refl |].
    intros _.
    apply follows_bindS;
      [apply follows_on_tables; intros db; apply evolves_authenticate_user, evolves_refl |].
    intros _.
    apply follows_bindS;
      [apply follows_on_tables; intros db;
       apply evolves_assign_role_to_user, evolves_refl |].
    intros _. apply follows_retS.
  - intros _. apply follows_bindS; [apply follows_get_database_stats | intros _].
    apply follows_bindS;
      [apply follows_on_tables; intros db;
       apply evolves_cleanup_expired_sessions, evolves_refl |].
    intros _. apply follows_retS.
Qed.

(** The constructor never raises, and writes [roles] and [permissions] only. *)
Lemma init_returns e db :
  exists db1,
    init e db = (Return tt, db1)
    /\ users db1 = users db
    /\ users_seq db1 = users_seq db
    /\ user_sessions db1 = user_sessions db
    /\ user_roles db1 = user_roles db
    /\ user_security_logs db1 = user_security_logs db
    /\ user_security_logs_seq db1 = user_security_logs_seq db
    /\ forall n, In n (map fst default_roles) -> has_role db1 n.
Proof.
  unfold init.
  destruct (default_roles_loop e db) as [db1 [R1 [R2 [R3 [R4 _]]]]].
  destruct (default_permissions_loop e db1) as [db2 [P1 [P2 [P3 [P4 _]]]]].
  exists db2. split.
  { unfold create_default_roles_and_permissions.
    rewrite (bind_return _ _ _ _ _ R1). exact P1. }
  assert (roles db2 = roles db1) as Hroles by (rewrite P2; reflexivity).
  assert (forall n, In n (map fst default_roles) -> has_role db2 n) as Hdef.
  { intros n Hn. apply in_map_iff in Hn. destruct Hn as [a [<- Ha]].
    destruct (R4 a Ha) as [x [Hx Hname]]. exists x. rewrite Hroles. now split. }
  revert Hdef. rewrite P2, R2. intros Hdef.
  repeat (split; [reflexivity |]). exact Hdef.
Qed.

(** X19: whatever the file holds and whatever its calls raise, the
    demonstration script ends without an exception; it takes the tables of
    the class where calls of the constructor and of the methods take them,
    so the constraints of the schema still hold after it, and it leaves
    [friends], [results] and [posts] as they were. *)
Theorem main_outcome (clock : nat -> env) (s : store) :
  let r := main clock s in
  fst r = Return tt
  /\ evolves (tables s) (tables (snd r))
  /\ (schema_ok (tables s) -> schema_ok (tables (snd r)))
  /\ friends (snd r) = friends s
  /\ results (snd r) = results s
  /\ posts (snd r) = posts s.
Proof.
  intros r. subst r. destruct (follows_main clock s) as [E [F [R P]]].
  split; [| split; [exact E | split; [apply evolves_schema_ok, E | now repeat split]]].
  unfold main, bindS at 1. rewrite on_tables_eq.
  destruct (init_returns (clock 0%nat) (tables s)) as [db1 [-> _]]. cbn [fst snd].
  unfold try_exceptS.
  match goal with |- fst (match ?b with _ => _ end) = _ => destruct b as [[[] | x] s1] end;
    reflexivity.
Qed.

Lemma bindS_return {A B : Type} (m : MS A) (k : A -> MS B) s a s1 :
  m s = (Return a, s1) -> bindS m k s = k a s1.
Proof. intros H. unfold bindS. rewrite H. reflexivity. Qed.

Lemma on_tables_return {A : Type} (m : M A) s a db1 :
  m (tables s) = (Return a, db1) -> on_tables m s = (Return a, set_tables db1 s).
Proof. intros H. unfold on_tables. rewrite H. reflexivity. Qed.

Lemma bindS_on_tables {A B : Type} (m : M A) (k : A -> MS B) s a db1 :
  m (tables s) = (Return a, db1) -> bindS (on_tables m) k s = k a (set_tables db1 s).
Proof. intros H. unfold bindS, on_tables. rewrite H. reflexivity. Qed.

Lemma set_tables_again db db' s : set_tables db (set_tables db' s) = set_tables db s.
Proof. reflexivity. Qed.

Lemma taken_same_users db db1 username email :
  users db1 = users db ->
  username_taken db1 username || email_taken db1 email
  = username_taken db username || email_taken db email.
Proof. unfold username_taken, email_taken. intros ->. reflexivity. Qed.

(** X20: run on a file where the username or the email of each of the two
    sample accounts is taken, the demonstration script creates no account,
    opens no session, assigns no role and logs nothing: [users], [user_roles]
    and the security log stay as they were, and of the sessions the expired
    ones are deleted. *)
Theorem main_when_accounts_exist (clock : nat -> env) (s : store) :
  username_taken (tables s) "johndoe" || email_taken (tables s) "john@example.com"
  = true ->
  username_taken (tables s) "janedoe" || email_taken (tables s) "jane@example.com"
  = true ->
  let r := main clock s in
  users (tables (snd r)) = users (tables s)
  /\ user_roles (tables (snd r)) = user_roles (tables s)
  /\ user_security_logs (tables (snd r)) = user_security_logs (tables s)
  /\ user_sessions (tables (snd r))
     = filter (fun x => negb (expired (CURRENT_TIMESTAMP (clock 7%nat)) x))
              (user_sessions (tables s)).
Proof.
  intros T1 T2 r. subst r.
  destruct (init_returns (clock 0%nat) (tables s))
    as [db1 [I [Eu [_ [Es [Er [El _]]]]]]].
  assert (forall e pw fn ln,
             create_user e "johndoe" "john@example.com" pw fn ln db1
             = (Return None, db1)) as C1.
  { intros. rewrite create_user_eq, (taken_same_users _ _ _ _ Eu), T1. reflexivity. }
  assert (forall e pw fn ln,
             create_user e "janedoe" "jane@example.com" pw fn ln db1
             = (Return None, db1)) as C2.
  { intros. rewrite create_user_eq, (taken_same_users _ _ _ _ Eu), T2. reflexivity. }
  assert (main clock s
          = (Return tt, set_tables (snd (cleanup_expired_sessions (clock 7%nat) db1)) s))
    as ->.
  { unfold main. rewrite (bindS_on_tables _ _ _ _ _ I). unfold try_exceptS.
    rewrite (bindS_on_tables _ _ (set_tables db1 s) None db1 (C1 _ _ _ _)).
    rewrite set_tables_again.
    rewrite (bindS_on_tables _ _ (set_tables db1 s) None db1 (C2 _ _ _ _)).
    rewrite set_tables_again.
    unfold bindS at 1, retS at 1.
    rewrite (bindS_return _ _ _ _ _ (get_database_stats_eq _)).
    unfold bindS, retS. rewrite on_tables_eq. reflexivity. }
  unfold cleanup_expired_sessions, bind, execute_query, run_sql, ret.
  cbn [fst snd tables set_tables users user_roles user_security_logs user_sessions
       set_user_sessions parameters_bind].
  rewrite Eu, Es, Er, El. repeat split.
Qed.

Lemma main_when_accounts_exist_witness :
  users (tables (snd (main sample_clock store_jane))) = users db_jane
  /\ user_sessions (tables (snd (main sample_clock store_jane))) = [].
Proof.
  pose proof (create_user_success _ _ _ _ _ _ _ _ _ create_user_jane) as S.
  cbv zeta in S. destruct S as [_ [_ [_ [Hu [_ [Hs _]]]]]].
  assert (username_taken db_john "johndoe" = true) as J by (vm_compute; reflexivity).
  assert (user_sessions db_john = []) as N by (vm_compute; reflexivity).
  assert (username_taken (tables store_jane) "johndoe"
          || email_taken (tables store_jane) "john@example.com" = true) as T1.
  { apply orb_true_iff. left. unfold username_taken, store_jane. cbn [tables].
    rewrite Hu. apply existsb_app_l. exact J. }
  assert (username_taken (tables store_jane) "janedoe"
          || email_taken (tables store_jane) "jane@example.com" = true) as T2.
  { apply orb_true_iff. right.
    exact (proj1 (email_taken_appended _ _ _ Hu)). }
  destruct (main_when_accounts_exist sample_clock store_jane T1 T2) as [H1 [_ [_ H4]]].
  split; [exact H1 |]. rewrite H4. unfold store_jane. cbn [tables].
  rewrite Hs, N. reflexivity.
Defined.

Lemma next_rowid_above (seq : Z) (ids : list Z) :
  seq < next_rowid seq ids /\ forall i, In i ids -> i < next_rowid seq ids.
Proof.
  destruct (fold_max_ge seq ids) as [H1 H2]. rewrite Forall_forall in H2.
  unfold next_rowid. split; [lia |]. intros i Hi. specialize (H2 i Hi). lia.
Qed.

Lemma user_row_same_ids e db db1 username email password first_name last_name :
  users db1 = users db -> users_seq db1 = users_seq db ->
  user_row e db1 username email password first_name last_name
  = user_row e db username email password first_name last_name.
Proof. unfold user_row. intros -> ->. reflexivity. Qed.

Lemma last_login_of_absent_user (t : timestamp) (user_id : Z) (l : list Users.row) :
  ~ In user_id (map Users.id l) ->
  map (fun u => if Users.id u =? user_id then Users.set_last_login_at t u else u) l = l.
Proof.
  induction l as [| u l IH]; cbn [map]; intros H; [reflexivity |].
  rewrite IH by (intros Hin; apply H; right; exact Hin).
  assert ((Users.id u =? user_id) = false) as ->; [| reflexivity].
  apply Z.eqb_neq. intros E. apply H. left. exact E.
Qed.

Lemma no_role_of_absent_user db user_id role_id :
  Forall (user_role_refs_ok db) (user_roles db) ->
  user_exists db user_id = false ->
  filter (fun y => negb (UserRoles.has_key user_id role_id y)) (user_roles db)
  = user_roles db.
Proof.
  intros Hrefs Hno. apply filter_keep_all. intros x Hx.
  rewrite Forall_forall in Hrefs. destruct (Hrefs x Hx) as [Hu _].
  unfold UserRoles.has_key.
  assert ((UserRoles.user_id x =? user_id) = false) as ->; [| reflexivity].
  apply Z.eqb_neq. intros E. rewrite E in Hu. congruence.
Qed.

Lemma role_ids_differ db name1 name2 role1 role2 :
  NoDup (map Roles.id (roles db)) ->
  role_id_of db name1 = Some role1 -> role_id_of db name2 = Some role2 ->
  name1 <> name2 -> role1 <> role2.
Proof.
  intros Hnd H1 H2 Hne E.
  destruct (role_id_of_named _ _ _ H1) as [r1 [In1 [N1 I1]]].
  destruct (role_id_of_named _ _ _ H2) as [r2 [In2 [N2 I2]]].
  apply Hne. rewrite <- N1, <- N2.
  apply (f_equal Roles.name).
  apply (unique_column_eq Roles.id (roles db)); [assumption .. | congruence].
Qed.

(** [create_user] for a new username and email, when the role user exists. *)
Lemma create_user_added e username email password first_name last_name db role_id :
  role_id_of db "user" = Some role_id ->
  username_taken db username = false -> email_taken db email = false ->
  create_user e username email password first_name last_name db
  = (Return (Some (Users.id (user_row e db username email password first_name last_name))),
     with_log
       (with_user_role
          (with_user db (user_row e db username email password first_name last_name))
          (user_role_row e
             (Users.id (user_row e db username email password first_name last_name))
             role_id
             (Users.id (user_row e db username email password first_name last_name))))
       (log_row e db
          (Some (Users.id (user_row e db username email password first_name last_name)))
          "user_created" None None true None None)).
Proof.
  intros R T1 T2. rewrite create_user_eq, T1, T2. cbn [orb]. cbv zeta.
  set (u := user_row e db username email password first_name last_name).
  rewrite assign_role_to_user_eq.
  change (role_id_of (with_user db u) "user") with (role_id_of db "user").
  rewrite R, (user_exists_with_user db u). cbn [andb snd]. reflexivity.
Qed.

(** [create_session] for a user of [users], a new session id and an expiry
    in range. *)
Lemma create_session_added e user_id device_info ip_address duration_hours db expires_at :
  datetime_add (datetime_now e) (timedelta_hours duration_hours) = Some expires_at ->
  session_id_taken db (uuid4 e) = false ->
  user_exists db user_id = true ->
  create_session e user_id device_info ip_address duration_hours db
  = (Return (uuid4 e),
     with_log
       (with_last_login e
          (with_session db (session_row e user_id device_info ip_address expires_at))
          user_id)
       (log_row e db (Some user_id) "login" ip_address None true None None)).
Proof.
  intros D T U. rewrite create_session_eq, D, T, U. reflexivity.
Qed.

Lemma last_login_of_two_new_users (l : list Users.row) (a b : Users.row)
      (t1 t2 : timestamp) :
  ~ In (Users.id a) (map Users.id l) -> ~ In (Users.id b) (map Users.id l) ->
  Users.id a <> Users.id b ->
  map (fun u => if Users.id u =? Users.id b then Users.set_last_login_at t2 u else u)
    (map (fun u => if Users.id u =? Users.id a then Users.set_last_login_at t1 u else u)
       ((l ++ [a]) ++ [b]))
  = l ++ [Users.set_last_login_at t1 a; Users.set_last_login_at t2 b].
Proof.
  intros Ha Hb Hab. rewrite !map_app.
  rewrite (last_login_of_absent_user t1 _ l Ha), (last_login_of_absent_user t2 _ l Hb).
  cbn [map]. rewrite Z.eqb_refl.
  assert ((Users.id b =? Users.id a) = false) as -> by (apply Z.eqb_neq; congruence).
  rewrite Z.eqb_refl. cbn [Users.id Users.set_last_login_at].
  assert ((Users.id a =? Users.id b) = false) as -> by (apply Z.eqb_neq; congruence).
  rewrite <- app_assoc. reflexivity.
Qed.

Lemma roles_of_two_new_users (l : list UserRoles.row) (i1 i2 ru ra : Z)
      (x1 x2 : UserRoles.row) :
  (forall x, In x l -> UserRoles.user_id x <> i1 /\ UserRoles.user_id x <> i2) ->
  i1 <> i2 -> ru <> ra ->
  UserRoles.user_id x1 = i1 -> UserRoles.role_id x1 = ru ->
  UserRoles.user_id x2 = i2 ->
  filter (fun y => negb (UserRoles.has_key i1 ra y))
    (filter (fun y => negb (UserRoles.has_key i2 ru y))
       (filter (fun y => negb (UserRoles.has_key i1 ru y)) l ++ [x1]) ++ [x2])
  = l ++ [x1; x2].
Proof.
  intros Hl H12 Hr U1 R1 U2.
  assert (forall r, filter (fun y => negb (UserRoles.has_key i1 r y)) l = l) as F1.
  { intros r. apply filter_keep_all. intros x Hx. unfold UserRoles.has_key.
    assert ((UserRoles.user_id x =? i1) = false) as ->; [| reflexivity].
    apply Z.eqb_neq. apply (Hl x Hx). }
  assert (forall r, filter (fun y => negb (UserRoles.has_key i2 r y)) l = l) as F2.
  { intros r. apply filter_keep_all. intros x Hx. unfold UserRoles.has_key.
    assert ((UserRoles.user_id x =? i2) = false) as ->; [| reflexivity].
    apply Z.eqb_neq. apply (Hl x Hx). }
  assert ((i1 =? i2) = false) as E12 by now apply Z.eqb_neq.
  assert ((i2 =? i1) = false) as E21 by (apply Z.eqb_neq; congruence).
  assert ((ru =? ra) = false) as Era by now apply Z.eqb_neq.
  assert (negb (UserRoles.has_key i2 ru x1) = true) as K1.
  { unfold UserRoles.has_key. rewrite U1, E12. reflexivity. }
  assert (negb (UserRoles.has_key i1 ra x1) = true) as K2.
  { unfold UserRoles.has_key. rewrite U1, R1, Era, Z.eqb_refl. reflexivity. }
  assert (negb (UserRoles.has_key i1 ra x2) = true) as K3.
  { unfold UserRoles.has_key. rewrite U2, E21. reflexivity. }
  rewrite F1, !filter_app, F2, F1. cbn [filter]. rewrite K1. cbn [filter].
  rewrite K2, K3. rewrite <- app_assoc. reflexivity.
Qed.

Lemma active_user_row e db username email password first_name last_name t :
  active_with_email email
    (Users.set_last_login_at t
       (user_row e db username email password first_name last_name)) = true.
Proof.
  unfold active_with_email, user_row.
  cbn [Users.email Users.is_active Users.is_deleted Users.set_last_login_at].
  rewrite String.eqb_refl. reflexivity.
Qed.

Lemma verify_password_user_row e e2 db username email password first_name last_name t :
  verify_password e2 password
    (Users.password_hash
       (Users.set_last_login_at t
          (user_row e db username email password first_name last_name)))
    (Users.salt
       (Users.set_last_login_at t
          (user_row e db username email password first_name last_name))) = true.
Proof.
  unfold user_row. cbn [Users.password_hash Users.salt Users.set_last_login_at].
  apply verify_password_own_hash.
Qed.

Lemma find_active_user_first db email l a r :
  users db = l ++ a :: r ->
  existsb (fun u => String.eqb (Users.email u) email) l = false ->
  active_with_email email a = true ->
  find_active_user db email = Some a.
Proof.
  intros Hu Hfree Hact. unfold find_active_user. rewrite Hu, filter_app.
  rewrite (filter_none (active_with_email email) l).
  - cbn. rewrite Hact. reflexivity.
  - intros x Hx. unfold active_with_email.
    assert (String.eqb (Users.email x) email = false) as ->; [| reflexivity].
    apply not_true_is_false. intros E.
    assert (existsb (fun u => String.eqb (Users.email u) email) l = true) as T;
      [| congruence].
    apply existsb_exists. exists x. split; assumption.
Qed.

(** X21: run on a file that satisfies the constraints of the schema, where
    the usernames and emails of the two sample accounts are free, the two
    session ids drawn are new and differ and both expiries are in range, the
    demonstration script adds exactly: the two users, with increasing
    positive ids and the time of their session as last login; the role user
    for each and then the role admin for the first; one user_created and one
    login entry for each in the security log; and one session for each, of
    which the clean-up at the end deletes those already expired, as it does
    with the sessions the file held. *)
Theorem main_on_new_accounts (clock : nat -> env) (s : store)
        (expires1 expires2 : timestamp) :
  schema_ok (tables s) ->
  0 <= users_seq (tables s) ->
  username_taken (tables s) "johndoe" = false ->
  email_taken (tables s) "john@example.com" = false ->
  username_taken (tables s) "janedoe" = false ->
  email_taken (tables s) "jane@example.com" = false ->
  session_id_taken (tables s) (uuid4 (clock 3%nat)) = false ->
  session_id_taken (tables s) (uuid4 (clock 4%nat)) = false ->
  uuid4 (clock 3%nat) <> uuid4 (clock 4%nat) ->
  datetime_add (datetime_now (clock 3%nat)) (timedelta_hours default_duration_hours)
  = Some expires1 ->
  datetime_add (datetime_now (clock 4%nat)) (timedelta_hours default_duration_hours)
  = Some expires2 ->
  let db := tables s in
  let u1 := user_row (clock 1%nat) db "johndoe" "john@example.com" "password123"
              (Some "John") (Some "Doe") in
  let u2 := user_row (clock 2%nat) (with_user db u1) "janedoe" "jane@example.com"
              "securepass456" (Some "Jane") (Some "Doe") in
  let id1 := Users.id u1 in
  let id2 := Users.id u2 in
  exists s' role_user role_admin,
    main clock s = (Return tt, s')
    /\ 0 < id1 < id2
    /\ role_id_of (tables s') "user" = Some role_user
    /\ role_id_of (tables s') "admin" = Some role_admin
    /\ users (tables s')
       = users db
         ++ [ Users.set_last_login_at (CURRENT_TIMESTAMP (clock 3%nat)) u1;
              Users.set_last_login_at (CURRENT_TIMESTAMP (clock 4%nat)) u2 ]
    /\ user_roles (tables s')
       = user_roles db
         ++ [ user_role_row (clock 1%nat) id1 role_user id1;
              user_role_row (clock 2%nat) id2 role_user id2;
              user_role_row (clock 6%nat) id1 role_admin id1 ]
    /\ map (fun l => (Logs.user_id l, Logs.event_type l))
           (user_security_logs (tables s'))
       = map (fun l => (Logs.user_id l, Logs.event_type l)) (user_security_logs db)
         ++ [ (Some id1, "user_created"); (Some id2, "user_created");
              (Some id1, "login"); (Some id2, "login") ]
    /\ user_sessions (tables s')
       = filter (fun x => negb (expired (CURRENT_TIMESTAMP (clock 7%nat)) x))
           (user_sessions db
            ++ [ session_row (clock 3%nat) id1 (Some "Chrome/Windows")
                   (Some "192.168.1.100") expires1;
                 session_row (clock 4%nat) id2 (Some "Safari/macOS")
                   (Some "192.168.1.101") expires2 ]).
Proof.
  intros Hs Hseq Tj1 Tj2 Ta1 Ta2 S3 S4 Huuid D3 D4 db u1 u2 id1 id2.
  fold db in Hs, Hseq, Tj1, Tj2, Ta1, Ta2, S3, S4.
  destruct (init_returns (clock 0%nat) db)
    as [db1 [I [Eu [Eq [Es [Er [El [Elq Hdef]]]]]]]].
  assert (schema_ok db1) as Hs1.
  { pose proof (keeps_init schema_ok run_sql_schema_ok (clock 0%nat) db Hs) as K.
    rewrite I in K. exact K. }
  destruct (proj1 (role_id_of_has_role db1 "user")) as [ru Ru].
  { apply Hdef. cbn. tauto. }
  destruct (proj1 (role_id_of_has_role db1 "admin")) as [ra Ra].
  { apply Hdef. cbn. tauto. }
  assert (ru <> ra) as Hrole.
  { apply (role_ids_differ db1 "user" "admin"); [apply Hs1 | exact Ru | exact Ra |].
    discriminate. }
  (* the ids *)
  assert (forall i, In i (map Users.id (users db)) -> i < id1) as Hold1.
  { apply next_rowid_above. }
  assert (0 < id1) as Hpos1.
  { pose proof (proj1 (next_rowid_above (users_seq db) (map Users.id (users db)))).
    change (next_rowid (users_seq db) (map Users.id (users db))) with id1 in H. lia. }
  assert (id1 < id2) as Hlt.
  { exact (proj1 (next_rowid_above id1 (map Users.id (users db ++ [u1])))). }
  assert (forall i, In i (map Users.id (users db)) -> i < id2) as Hold2.
  { intros i Hi. specialize (Hold1 i Hi). lia. }
  assert (~ In id1 (map Users.id (users db))) as Hnew1.
  { intros Hin. specialize (Hold1 _ Hin). lia. }
  assert (~ In id2 (map Users.id (users db))) as Hnew2.
  { intros Hin. specialize (Hold2 _ Hin). lia. }
  (* the two sign-ups *)
  set (e1 := clock 1%nat) in *. set (e2 := clock 2%nat) in *.
  set (e3 := clock 3%nat) in *. set (e4 := clock 4%nat) in *.
  set (e5 := clock 5%nat). set (e6 := clock 6%nat). set (e7 := clock 7%nat).
  set (db2 := with_log (with_user_role (with_user db1 u1) (user_role_row e1 id1 ru id1))
                (log_row e1 db1 (Some id1) "user_created" None None true None None)).
  assert (create_user e1 "johndoe" "john@example.com" "password123"
            (Some "John") (Some "Doe") db1 = (Return (Some id1), db2)) as C1.
  { rewrite (create_user_added _ _ _ _ _ _ db1 ru Ru).
    - rewrite (user_row_same_ids e1 db db1 _ _ _ _ _ Eu Eq). reflexivity.
    - unfold username_taken. rewrite Eu. exact Tj1.
    - unfold email_taken. rewrite Eu. exact Tj2. }
  assert (users db2 = users db ++ [u1]) as Eu2.
  { change (users db2) with (users db1 ++ [u1]). rewrite Eu. reflexivity. }
  set (db3 := with_log (with_user_role (with_user db2 u2) (user_role_row e2 id2 ru id2))
                (log_row e2 db2 (Some id2) "user_created" None None true None None)).
  assert (create_user e2 "janedoe" "jane@example.com" "securepass456"
            (Some "Jane") (Some "Doe") db2 = (Return (Some id2), db3)) as C2.
  { rewrite (create_user_added _ _ _ _ _ _ db2 ru Ru).
    - rewrite (user_row_same_ids e2 (with_user db u1) db2 _ _ _ _ _ Eu2 eq_refl).
      reflexivity.
    - unfold username_taken. rewrite Eu2, existsb_app.
      fold (username_taken db "janedoe"). rewrite Ta1. reflexivity.
    - unfold email_taken. rewrite Eu2, existsb_app.
      fold (email_taken db "jane@example.com"). rewrite Ta2. reflexivity. }
  assert (users db3 = (users db ++ [u1]) ++ [u2]) as Eu3.
  { change (users db3) with (users db2 ++ [u2]). rewrite Eu2. reflexivity. }
  assert (truthy (Some id1) && truthy (Some id2) = true) as Htruthy.
  { unfold truthy.
    assert ((id1 =? 0) = false) as -> by (apply Z.eqb_neq; lia).
    assert ((id2 =? 0) = false) as -> by (apply Z.eqb_neq; lia).
    reflexivity. }
  (* the two sessions *)
  set (s1 := session_row e3 id1 (Some "Chrome/Windows") (Some "192.168.1.100") expires1).
  set (s2 := session_row e4 id2 (Some "Safari/macOS") (Some "192.168.1.101") expires2).
  set (db4 := with_log (with_last_login e3 (with_session db3 s1) id1)
                (log_row e3 db3 (Some id1) "login" (Some "192.168.1.100") None
                   true None None)).
  assert (create_session e3 id1 (Some "Chrome/Windows") (Some "192.168.1.100")
            default_duration_hours db3 = (Return (uuid4 e3), db4)) as C3.
  { apply create_session_added; [exact D3 | |].
    - unfold session_id_taken. change (user_sessions db3) with (user_sessions db1).
      rewrite Es. exact S3.
    - apply user_exists_In. rewrite Eu3, !map_app. apply in_or_app. left.
      apply in_or_app. right. left. reflexivity. }
  set (db5 := with_log (with_last_login e4 (with_session db4 s2) id2)
                (log_row e4 db4 (Some id2) "login" (Some "192.168.1.101") None
                   true None None)).
  assert (create_session e4 id2 (Some "Safari/macOS") (Some "192.168.1.101")
            default_duration_hours db4 = (Return (uuid4 e4), db5)) as C4.
  { apply create_session_added; [exact D4 | |].
    - unfold session_id_taken.
      change (user_sessions db4) with (user_sessions db1 ++ [s1]).
      rewrite Es, existsb_app. fold (session_id_taken db (uuid4 e4)). rewrite S4.
      cbn [existsb orb]. change (Sessions.id s1) with (uuid4 e3).
      rewrite (proj2 (String.eqb_neq _ _) Huuid). reflexivity.
    - apply user_exists_In.
      change (users db4)
        with (map (fun u => if Users.id u =? id1
                            then Users.set_last_login_at (CURRENT_TIMESTAMP e3) u else u)
                (users db3)).
      rewrite (proj1 (map_id_set_last_login _ _ _)), Eu3, !map_app.
      apply in_or_app. right. left. reflexivity. }
  assert (users db5
          = users db ++ [ Users.set_last_login_at (CURRENT_TIMESTAMP e3) u1;
                          Users.set_last_login_at (CURRENT_TIMESTAMP e4) u2 ]) as Eu5.
  { change (users db5)
      with (map (fun u => if Users.id u =? Users.id u2
                          then Users.set_last_login_at (CURRENT_TIMESTAMP e4) u else u)
              (map (fun u => if Users.id u =? Users.id u1
                             then Users.set_last_login_at (CURRENT_TIMESTAMP e3) u else u)
                 (users db3))).
    rewrite Eu3. apply last_login_of_two_new_users; [exact Hnew1 | exact Hnew2 |].
    fold id1 id2. lia. }
  (* the login and the role admin *)
  assert (authenticate_user e5 "john@example.com" "password123" db5
          = (Return (Some (Users.set_last_login_at (CURRENT_TIMESTAMP e3) u1)), db5))
    as C5.
  { rewrite authenticate_user_eq.
    rewrite (find_active_user_first db5 "john@example.com" (users db)
               (Users.set_last_login_at (CURRENT_TIMESTAMP e3) u1)
               [Users.set_last_login_at (CURRENT_TIMESTAMP e4) u2] Eu5 Tj2
               (active_user_row _ _ _ _ _ _ _ _)).
    assert (verify_password e5 "password123"
              (Users.password_hash (Users.set_last_login_at (CURRENT_TIMESTAMP e3) u1))
              (Users.salt (Users.set_last_login_at (CURRENT_TIMESTAMP e3) u1)) = true)
      as -> by exact (verify_password_user_row e1 e5 db "johndoe" "john@example.com"
                        "password123" (Some "John") (Some "Doe") (CURRENT_TIMESTAMP e3)).
    reflexivity. }
  set (db6 := with_user_role db5 (user_role_row e6 id1 ra id1)).
  assert (assign_role_to_user e6 id1 "admin" id1 db5 = (Return true, db6)) as C6.
  { rewrite assign_role_to_user_eq.
    change (role_id_of db5 "admin") with (role_id_of db1 "admin"). rewrite Ra.
    assert (user_exists db5 id1 = true) as ->; [| reflexivity].
    apply user_exists_In. rewrite Eu5, map_app. apply in_or_app. right. left.
    reflexivity. }
  set (db7 := set_user_sessions
                (filter (fun x => negb (expired (CURRENT_TIMESTAMP e7) x))
                   (user_sessions db6)) db6).
  assert (main clock s = (Return tt, set_tables db7 s)) as Hmain.
  { unfold main. rewrite (bindS_on_tables _ _ _ _ _ I). unfold try_exceptS.
    rewrite (bindS_on_tables _ _ (set_tables db1 s) (Some id1) db2 C1).
    rewrite set_tables_again.
    rewrite (bindS_on_tables _ _ (set_tables db2 s) (Some id2) db3 C2).
    rewrite set_tables_again.
    rewrite Htruthy.
    unfold bindS at 1.
    rewrite (bindS_on_tables _ _ (set_tables db3 s) _ db4 C3), set_tables_again.
    rewrite (bindS_on_tables _ _ (set_tables db4 s) _ db5 C4), set_tables_again.
    rewrite (bindS_on_tables _ _ (set_tables db5 s) _ db5 C5), set_tables_again.
    rewrite (bindS_on_tables _ _ (set_tables db5 s) _ db6 C6), set_tables_again.
    unfold retS at 1.
    rewrite (bindS_return _ _ _ _ _ (get_database_stats_eq _)).
    unfold bindS, retS. rewrite on_tables_eq. reflexivity. }
  exists (set_tables db7 s), ru, ra.
  split; [exact Hmain |]. split; [split; assumption |].
  split; [exact Ru |]. split; [exact Ra |].
  split; [exact Eu5 |].
  split; [| split].
  - change (user_roles (tables (set_tables db7 s)))
      with (filter (fun y => negb (UserRoles.has_key id1 ra y))
              (filter (fun y => negb (UserRoles.has_key id2 ru y))
                 (filter (fun y => negb (UserRoles.has_key id1 ru y)) (user_roles db1)
                  ++ [user_role_row e1 id1 ru id1])
               ++ [user_role_row e2 id2 ru id2])
            ++ [user_role_row e6 id1 ra id1]).
    rewrite Er, (roles_of_two_new_users (user_roles db) id1 id2 ru ra).
    + rewrite <- app_assoc. reflexivity.
    + intros x Hx.
      pose proof (user_roles_refs _ Hs) as Hrefs. rewrite Forall_forall in Hrefs.
      destruct (Hrefs x Hx) as [Hu _]. apply user_exists_In in Hu.
      split; intros E; rewrite E in Hu; [exact (Hnew1 Hu) | exact (Hnew2 Hu)].
    + lia.
    + exact Hrole.
    + reflexivity.
    + reflexivity.
    + reflexivity.
  - change (user_security_logs (tables (set_tables db7 s)))
      with ((((user_security_logs db1
               ++ [log_row e1 db1 (Some id1) "user_created" None None true None None])
              ++ [log_row e2 db2 (Some id2) "user_created" None None true None None])
             ++ [log_row e3 db3 (Some id1) "login" (Some "192.168.1.100") None
                   true None None])
            ++ [log_row e4 db4 (Some id2) "login" (Some "192.168.1.101") None
                  true None None]).
    rewrite El, !map_app. cbn [map log_row Logs.user_id Logs.event_type].
    rewrite <- !app_assoc. reflexivity.
  - change (user_sessions (tables (set_tables db7 s)))
      with (filter (fun x => negb (expired (CURRENT_TIMESTAMP e7) x))
              ((user_sessions db1 ++ [s1]) ++ [s2])).
    rewrite Es, <- app_assoc. reflexivity.
Qed.

Lemma main_on_new_accounts_witness :
  exists s',
    main sample_clock empty_store = (Return tt, s')
    /\ List.length (users (tables s')) = 2%nat
    /\ List.length (user_roles (tables s')) = 3%nat
    /\ map (fun l => (Logs.user_id l, Logs.event_type l)) (user_security_logs (tables s'))
       = [ (Some 1, "user_created"); (Some 2, "user_created");
           (Some 1, "login"); (Some 2, "login") ].
Proof.
  assert (0 <= users_seq (tables empty_store)) as H0 by (cbn; lia).
  assert (username_taken (tables empty_store) "johndoe" = false) as H1 by reflexivity.
  assert (email_taken (tables empty_store) "john@example.com" = false) as H2
    by reflexivity.
  assert (username_taken (tables empty_store) "janedoe" = false) as H3 by reflexivity.
  assert (email_taken (tables empty_store) "jane@example.com" = false) as H4
    by reflexivity.
  assert (session_id_taken (tables empty_store) (uuid4 (sample_clock 3)) = false) as H5
    by reflexivity.
  assert (session_id_taken (tables empty_store) (uuid4 (sample_clock 4)) = false) as H6
    by reflexivity.
  assert (uuid4 (sample_clock 3) <> uuid4 (sample_clock 4)) as H7 by (cbn; discriminate).
  assert (datetime_add (datetime_now (sample_clock 3))
            (timedelta_hours default_duration_hours) = Some 63929383203500000) as H8
    by (vm_compute; reflexivity).
  assert (datetime_add (datetime_now (sample_clock 4))
            (timedelta_hours default_duration_hours) = Some 63929383204500000) as H9
    by (vm_compute; reflexivity).
  pose proof (main_on_new_accounts sample_clock empty_store _ _ schema_ok_empty
                H0 H1 H2 H3 H4 H5 H6 H7 H8 H9) as H.
  cbv zeta in H. destruct H as [s' [ru [ra [E [_ [_ [_ [Eu [Er [El _]]]]]]]]]].
  exists s'. split; [exact E |]. rewrite Eu, Er, El.
  split; [reflexivity |]. split; reflexivity.
Defined.
